(** * Meshtastic Field Flasher and GPS query utility: a shallow embedding

    The development follows the two Python sources:
    - [meshtastic__field_flasher.py]: mode registry, UF2 drive detection,
      process runner, UF2 copy, owner strings and numbering, validation,
      configuration command line, flash action;
    - [gps_test_com.py]: the one-shot location query with its polling loop.

    Conventions.  A Python [str] is modelled by [string] whose characters are
    the code points below 256 (the Latin-1 block of Unicode); the character
    classes below ([isspace], [isdigit], [lower]) are Python's, restricted to
    that block.  Text handed to the log sink is a list of code points
    ([utext]), because the process runner can produce U+FFFD.  Python integers
    are [Z] (CPython's optional limit on the number of digits of a conversion
    is not modelled).  Exceptions are values of [exn]; side effects are
    recorded, in order, as a list of [event].  An action of the interface is
    modelled by the body of the worker thread it starts. *)

From Stdlib Require Import ZArith NArith PeanoNat List Bool Lia.
From Stdlib Require Import Strings.Ascii Strings.String.
From Stdlib Require Import Sorting.Sorted.
Import ListNotations.

Local Open Scope string_scope.
Local Open Scope bool_scope.

(** ** Python text primitives *)

Module PyStr.

Definition code (c : ascii) : N := N_of_ascii c.

Definition between (lo hi : N) (c : ascii) : bool :=
  (N.leb lo (code c) && N.leb (code c) hi)%N.

(** [str.isspace] on one character: TAB..CR, FS..US, SPACE, NEL, NBSP. *)
Definition is_space (c : ascii) : bool :=
  between 9 13 c || between 28 32 c
  || N.eqb (code c) 133 || N.eqb (code c) 160.

(** ASCII decimal digit ['0'..'9'] (Unicode category Nd below 256). *)
Definition is_decimal (c : ascii) : bool := between 48 57 c.

(** [str.isdigit] on one character: the decimal digits and the superscripts
    U+00B2, U+00B3, U+00B9. *)
Definition is_digit_char (c : ascii) : bool :=
  is_decimal c || N.eqb (code c) 178 || N.eqb (code c) 179
  || N.eqb (code c) 185.

Definition is_empty (s : string) : bool :=
  match s with EmptyString => true | String _ _ => false end.

Fixpoint forall_chars (p : ascii -> bool) (s : string) : bool :=
  match s with
  | EmptyString => true
  | String c r => p c && forall_chars p r
  end.

(** [s.isdigit()]: at least one character and every character a digit. *)
Definition isdigit (s : string) : bool :=
  negb (is_empty s) && forall_chars is_digit_char s.

Fixpoint lstrip (s : string) : string :=
  match s with
  | EmptyString => EmptyString
  | String c r => if is_space c then lstrip r else s
  end.

Fixpoint rstrip (s : string) : string :=
  match s with
  | EmptyString => EmptyString
  | String c r =>
      let r' := rstrip r in
      if is_space c && is_empty r' then EmptyString else String c r'
  end.

(** [s.strip()] *)
Definition strip (s : string) : string := rstrip (lstrip s).

Definition lower_char (c : ascii) : ascii :=
  if between 65 90 c || between 192 214 c || between 216 222 c
  then ascii_of_N (code c + 32) else c.

(** [s.lower()] *)
Fixpoint lower (s : string) : string :=
  match s with
  | EmptyString => EmptyString
  | String c r => String (lower_char c) (lower r)
  end.

(** [s.endswith(suffix)] *)
Definition endswith (s suffix : string) : bool :=
  let n := String.length s in
  let k := String.length suffix in
  Nat.leb k n && String.eqb (substring (n - k) k s) suffix.

(** [sep.join(parts)] *)
Fixpoint join (sep : string) (parts : list string) : string :=
  match parts with
  | [] => ""
  | [p] => p
  | p :: rest => p ++ sep ++ join sep rest
  end.

Fixpoint zeros (k : nat) : string :=
  match k with O => "" | S k' => String "0" (zeros k') end.

(** [s.zfill(width)]: left padding with ['0'], kept behind a leading sign. *)
Definition zfill (width : nat) (s : string) : string :=
  let n := String.length s in
  if Nat.leb width n then s
  else match s with
       | String c r =>
           if Ascii.eqb c "+" || Ascii.eqb c "-"
           then String c (zeros (width - n) ++ r)
           else zeros (width - n) ++ s
       | EmptyString => zeros (width - n)
       end.

(** *** Decimal conversions *)

Definition digit_of_char (c : ascii) : N := (code c - 48)%N.

(** The character of a digit below 16: ['0'..'9'], then ['A'..'F']. *)
Definition char_of_digit (d : N) : ascii :=
  ascii_of_N (if N.ltb d 10 then 48 + d else 55 + d).

(** Digits of [n] in the given base, most significant first, prepended to
    [acc]. *)
Fixpoint digits_acc (base : N) (fuel : nat) (n : N) (acc : string) : string :=
  match fuel with
  | O => acc
  | S f =>
      let acc' := String (char_of_digit (n mod base)) acc in
      if N.eqb (n / base) 0 then acc' else digits_acc base f (n / base) acc'
  end.

Definition str_of_N (n : N) : string :=
  digits_acc 10 (S (N.to_nat (N.log2 n))) n "".

Definition hex_of_N (n : N) : string :=
  digits_acc 16 (S (N.to_nat (N.log2 n))) n "".

(** [str(n)] for an integer. *)
Definition str (z : Z) : string :=
  match z with
  | Zneg p => String "-" (str_of_N (Npos p))
  | _ => str_of_N (Z.to_N z)
  end.

(** [f"{n:08X}"]: upper-case hexadecimal, zero-padded to eight characters
    behind the sign. *)
Definition format_08X (z : Z) : string :=
  zfill 8 (match z with
           | Zneg p => String "-" (hex_of_N (Npos p))
           | _ => hex_of_N (Z.to_N z)
           end).

(** Body of an integer literal accepted by [int()]: decimal digits, single
    underscores allowed between two digits only. *)
Fixpoint int_body (acc : N) (after_digit : bool) (s : string) : option N :=
  match s with
  | EmptyString => if after_digit then Some acc else None
  | String c r =>
      if is_decimal c then int_body (10 * acc + digit_of_char c) true r
      else if Ascii.eqb c "_" && after_digit then int_body acc false r
      else None
  end.

(** [int(s)]: [None] stands for [ValueError]. *)
Definition int (s : string) : option Z :=
  match strip s with
  | String c r =>
      if Ascii.eqb c "-" then option_map (fun n => (- Z.of_N n)%Z) (int_body 0 false r)
      else if Ascii.eqb c "+" then option_map Z.of_N (int_body 0 false r)
      else option_map Z.of_N (int_body 0 false (String c r))
  | EmptyString => None
  end.

(** The number denoted by a string of decimal digits (reference reading,
    used to state properties). *)
Fixpoint value_acc (acc : N) (s : string) : N :=
  match s with
  | EmptyString => acc
  | String c r => value_acc (10 * acc + digit_of_char c) r
  end.

Definition value (s : string) : N := value_acc 0 s.

(** A non-empty string of ASCII decimal digits. *)
Definition is_number (s : string) : bool :=
  negb (is_empty s) && forall_chars is_decimal s.

End PyStr.

(** ** Effects: exceptions and an ordered trace of side effects *)

Module Eff.

(** Text received by the log sink: a list of Unicode code points. *)
Definition utext := list N.

Definition u (s : string) : utext := map PyStr.code (list_ascii_of_string s).

(** A command handed to the process runner: an argument list, or one shell
    string. *)
Inductive command :=
| Argv (args : list string)
| Shell (line : string).

Inductive event :=
| LogWrite (s : utext)              (* log_fn(s) / self.log_write(s) *)
| Popen (cmd : command)            (* subprocess.Popen(cmd, ...) *)
| CopyFile (src dst : string)      (* shutil.copyfile(src, dst) *)
| Sleep (seconds : Z)              (* time.sleep(seconds) *)
| ShowError (title msg : string)   (* messagebox.showerror(title, msg) *)
| ScheduleSave.                    (* self._schedule_save() *)

(** Python exceptions, each with the text [str(e)] gives. *)
Inductive exn :=
| RuntimeError (msg : string)
| OSError (msg : string).

Definition exn_str (e : exn) : string :=
  match e with RuntimeError m => m | OSError m => m end.

(** A computation: its outcome and the side effects it performed, in order. *)
Definition M (A : Type) : Type := (exn + A) * list event.

Definition ret {A} (a : A) : M A := (inr a, []).
Definition raise {A} (e : exn) : M A := (inl e, []).
Definition emit (ev : event) : M unit := (inr tt, [ev]).

Definition bind {A B} (m : M A) (k : A -> M B) : M B :=
  match m with
  | (inl e, t) => (inl e, t)
  | (inr a, t) => let '(r, t') := k a in (r, (t ++ t')%list)
  end.

(** [try: body  except Exception as e: handler(e)] *)
Definition try_except {A} (body : M A) (handler : exn -> M A) : M A :=
  match body with
  | (inl e, t) => let '(r, t') := handler e in (r, (t ++ t')%list)
  | (inr a, t) => (inr a, t)
  end.

Definition outcome {A} (m : M A) : exn + A := fst m.
Definition trace {A} (m : M A) : list event := snd m.

Definition is_copy (ev : event) : bool :=
  match ev with CopyFile _ _ => true | _ => false end.
Definition is_popen (ev : event) : bool :=
  match ev with Popen _ => true | _ => false end.

(** Side effects on the device or the host: a file copy or a started
    process. *)
Definition is_side_effect (ev : event) : bool := is_copy ev || is_popen ev.

(** The texts written to the log sink, in order. *)
Fixpoint logged (t : list event) : list utext :=
  match t with
  | [] => []
  | LogWrite s :: r => s :: logged r
  | _ :: r => logged r
  end.

End Eff.

Declare Scope eff_scope.
Delimit Scope eff_scope with eff.
Notation "x <- c ;; k" := (Eff.bind c (fun x => k))
  (at level 61, c at next level, right associativity) : eff_scope.
Notation "c ;;; k" := (Eff.bind c (fun _ => k))
  (at level 61, right associativity) : eff_scope.

(** ** The field flasher *)

Module Flasher.
Import PyStr Eff.
Local Open Scope eff_scope.

Definition nl : string := String (ascii_of_nat 10) "".

(** *** Constants and modes *)

Definition SETURL_VALUE : string :=
  "https://meshtastic.org/e/#CjESIIBUPqT60FhSuxvl2JP2kE7uVHX5ygCrMJ8y8pLb5vXOGgVTTk9SUigBMAE6AgggEhgIARj6ASALKAU4AUAFSAFQHlgjaAHIBgE".

Inductive FlashMethod := uf2_drive_method | esptool_method.
Inductive GpsMode := gps_fixed | gps_none | gps_gps.

Record ModeDef := {
  label : string;
  flash_method : FlashMethod;
  firmware_default : string;
  gps_mode : GpsMode;
  role : string;
}.

(** The keys of [MODE_DEFS]. *)
Inductive ModeKey := RAK4631 | Heltec_V3 | Heltec_V4.

Definition MODE_DEFS (m : ModeKey) : ModeDef :=
  match m with
  | RAK4631 =>
      {| label := "RAK4631 Router (UF2 Drive)";
         flash_method := uf2_drive_method;
         firmware_default := "rak4631.uf2";
         gps_mode := gps_fixed;
         role := "ROUTER" |}
  | Heltec_V3 =>
      {| label := "Heltec V3 Client (No GPS)";
         flash_method := esptool_method;
         firmware_default := "heltec_v3_client.bin";
         gps_mode := gps_none;
         role := "CLIENT" |}
  | Heltec_V4 =>
      {| label := "Heltec V4 Client (GPS)";
         flash_method := esptool_method;
         firmware_default := "heltec_v4_gps.bin";
         gps_mode := gps_gps;
         role := "CLIENT" |}
  end.

Definition MODE_KEYS : list ModeKey := [RAK4631; Heltec_V3; Heltec_V4].

Definition is_fixed (g : GpsMode) : bool :=
  match g with gps_fixed => true | _ => false end.
Definition is_uf2 (f : FlashMethod) : bool :=
  match f with uf2_drive_method => true | _ => false end.
Definition is_esptool (f : FlashMethod) : bool :=
  match f with esptool_method => true | _ => false end.

(** *** The host: operating system, file system and library calls

    Everything the program asks of its environment.  A query or an action
    that can fail gives the message of the [OSError] it raises:
    [os_path_exists] (the source guards it with [try]/[except]),
    [shutil_copyfile] ([None] when the copy is done) and [popen], which gives
    for a command either that message, when the process cannot be started, or
    the process's combined output and exit code.  [float_parses s] tells
    whether [float(s)] succeeds. *)

Record process := {
  stdout : option (list Byte.byte);
  returncode : Z;
}.

Record Host := {
  GetLogicalDrives : Z;
  GetDriveTypeW : string -> Z;
  os_path_exists : string -> string + bool;
  os_path_isfile : string -> bool;
  os_path_isdir : string -> bool;
  os_path_join : string -> string -> string;
  os_path_basename : string -> string;
  shutil_copyfile : string -> string -> option string;
  popen : command -> string + process;
  float_parses : string -> bool;
}.

(** The interface variables of [App] (the [tk.StringVar]s and the mode). *)
Record App := {
  mode : ModeKey;
  firmware_path : string;
  uf2_drive : string;
  owner_letters : string;
  owner_num : string;
  owner_short_letters : string;
  owner_short_num : string;
  lat : string;
  lon : string;
}.

(** *** UF2 drive detection *)

Definition DRIVE_REMOVABLE : Z := 2.

Definition drive_name (i : nat) : string :=
  String (ascii_of_nat (65 + i)) ":\".

Section WithHost.
Variable host : Host.

Fixpoint removable_from (idxs : list nat) (drives : list string) : list string :=
  match idxs with
  | [] => drives
  | i :: rest =>
      if negb (Z.eqb (Z.land (GetLogicalDrives host) (Z.shiftl 1 (Z.of_nat i))) 0)
      then
        let drive := drive_name i in
        let dtype := GetDriveTypeW host drive in
        if Z.eqb dtype DRIVE_REMOVABLE
        then removable_from rest (drives ++ [drive])%list
        else removable_from rest drives
      else removable_from rest drives
  end.

Definition list_removable_drives_windows : list string :=
  removable_from (seq 0 26) [].

Definition path_exists (p : string) : M bool :=
  match os_path_exists host p with
  | inl msg => raise (OSError msg)
  | inr b => ret b
  end.

(** The body of the loop of [detect_uf2_drives], the [try] statement. *)
Definition detect_step (d : string) (drives : list string) : M (list string) :=
  try_except
    (a <- path_exists (os_path_join host d "INFO_UF2.TXT") ;;
     hit <- (if a then ret true
             else path_exists (os_path_join host d "UF2INFO.TXT")) ;;
     ret (if hit then (drives ++ [d])%list else drives))
    (fun _ => ret drives).

Fixpoint detect_loop (ds : list string) (drives : list string) : M (list string) :=
  match ds with
  | [] => ret drives
  | d :: rest => drives' <- detect_step d drives ;; detect_loop rest drives'
  end.

Definition detect_uf2_drives : M (list string) :=
  detect_loop list_removable_drives_windows [].

(** *** Process runner *)

(** [b.decode("utf-8", errors="replace")] for one byte [b]: the ASCII
    character, or U+FFFD for a byte that is no complete UTF-8 sequence.  With
    [errors="replace"] the call does not raise, so the [except] branch of the
    source ([ch = str(b)]) is never taken. *)
Definition decode1 (b : Byte.byte) : N :=
  let n := Byte.to_N b in
  if N.ltb n 128 then n else 65533%N.

Definition forward_byte (log_fn : utext -> M unit) (b : Byte.byte) : M unit :=
  let ch := decode1 b in
  if N.eqb ch 13 then log_fn (u nl) else log_fn [ch].

Fixpoint forward (log_fn : utext -> M unit) (out : list Byte.byte) : M unit :=
  match out with
  | [] => ret tt
  | b :: rest => forward_byte log_fn b ;;; forward log_fn rest
  end.

Definition check_exit (rc : Z) : M unit :=
  if negb (Z.eqb rc 0)
  then raise (RuntimeError ("Command failed (exit " ++ str rc ++ ")"))
  else ret tt.

Definition start (cmd : command) : M process :=
  emit (Popen cmd) ;;;
  match popen host cmd with
  | inl msg => raise (OSError msg)
  | inr p => ret p
  end.

Definition run_cmd_stream (cmd : command) (log_fn : utext -> M unit) : M unit :=
  p <- match cmd with
       | Argv args => log_fn (u ("$ " ++ join " " args ++ nl)) ;;; start cmd
       | Shell line => log_fn (u ("$ " ++ line ++ nl)) ;;; start cmd
       end ;;
  match stdout p with
  | None => check_exit (returncode p)
  | Some out => forward log_fn out ;;; check_exit (returncode p)
  end.

(** *** UF2 copy *)

Definition copyfile (src dst : string) : M unit :=
  emit (CopyFile src dst) ;;;
  match shutil_copyfile host src dst with
  | Some msg => raise (OSError msg)
  | None => ret tt
  end.

Definition copy_uf2_to_drive (uf2_path drive_root : string)
    (log_fn : utext -> M unit) : M unit :=
  if negb (os_path_isfile host uf2_path)
  then raise (RuntimeError "Firmware file not found.")
  else if negb (endswith (lower uf2_path) ".uf2")
  then raise (RuntimeError "UF2 flashing requires a .uf2 file.")
  else if negb (os_path_isdir host drive_root)
  then raise (RuntimeError ("Drive not found: " ++ drive_root))
  else
    let dest := os_path_join host drive_root (os_path_basename host uf2_path) in
    log_fn (u ("Copying UF2 to " ++ dest ++ nl)) ;;;
    copyfile uf2_path dest ;;;
    log_fn (u ("Copy complete. Device may reboot." ++ nl)).

Fixpoint wait_seconds (sec : nat) (log_fn : utext -> M unit) : M unit :=
  match sec with
  | O => log_fn (u nl)
  | S k =>
      log_fn (u ("Waiting for reboot... " ++ str (Z.of_nat sec) ++ "s" ++ nl)) ;;;
      emit (Sleep 1) ;;;
      wait_seconds k log_fn
  end.

(** *** The application: validation, owner strings, configuration command *)

(** [self.log_write(s)]: append to the log widget. *)
Definition log_write (s : utext) : M unit := emit (LogWrite s).

Definition raise_if (bad : bool) (msg : string) : M unit :=
  if bad then raise (RuntimeError msg) else ret tt.

Definition _build_owner_strings (st : App) : string * string :=
  let owner := strip (owner_letters st) ++ strip (owner_num st) in
  let owner_short := strip (owner_short_letters st) ++ strip (owner_short_num st) in
  (owner, owner_short).

Definition _validate_common (st : App) : M unit :=
  let d := MODE_DEFS (mode st) in
  let fw := strip (firmware_path st) in
  raise_if (is_empty fw || negb (os_path_isfile host fw))
    "Firmware file not set or not found." ;;;
  raise_if (is_uf2 (flash_method d) && is_empty (strip (uf2_drive st)))
    "Select/detect the UF2 drive." ;;;
  raise_if (is_empty (strip (owner_letters st)))
    "Owner letters required." ;;;
  raise_if (negb (isdigit (strip (owner_num st))))
    "Owner number must be digits (e.g. 01)." ;;;
  raise_if (is_empty (strip (owner_short_letters st)))
    "Owner short letters required." ;;;
  raise_if (negb (isdigit (strip (owner_short_num st))))
    "Owner short number must be digits (e.g. 01)." ;;;
  raise_if (is_fixed (gps_mode d)
            && negb (float_parses host (strip (lat st))
                     && float_parses host (strip (lon st))))
    "Latitude/Longitude must be valid numbers for fixed position mode.".

Definition _meshtastic_config_cmd (st : App) : list string :=
  let d := MODE_DEFS (mode st) in
  let '(owner, owner_short) := _build_owner_strings st in
  let cmd :=
    (["meshtastic"] ++ [
      "--seturl"; SETURL_VALUE;
      "--set-owner"; owner;
      "--set-owner-short"; owner_short;

      "--set"; "neighbor_info.update_interval"; "120";
      "--set"; "neighbor_info.transmit_over_lora"; "true";
      "--set"; "neighbor_info.enabled"; "true";

      "--set"; "device.role"; role d;
      "--set"; "device.rebroadcast_mode"; "ALL";
      "--set"; "lora.config_ok_to_mqtt"; "true"
    ])%list in
  if is_fixed (gps_mode d)
  then (cmd ++ [
         "--set"; "position.fixed_position"; "true";
         "--setlat"; strip (lat st);
         "--setlon"; strip (lon st)
       ])%list
  else (cmd ++ ["--set"; "position.fixed_position"; "false"])%list.

(** *** Flashing, configuring, erasing *)

Definition _do_flash (st : App) : M unit :=
  let d := MODE_DEFS (mode st) in
  let fw := strip (firmware_path st) in
  if is_uf2 (flash_method d)
  then
    log_write (u ("Flashing (UF2 copy)..." ++ nl)) ;;;
    copy_uf2_to_drive fw (strip (uf2_drive st)) log_write ;;;
    wait_seconds 8 log_write
  else
    log_write (u ("Flashing (esptool)..." ++ nl)) ;;;
    run_cmd_stream (Argv ["esptool"; "--baud"; "115200"; "write-flash"; "0x00"; fw])
      log_write ;;;
    log_write (u (nl ++ "Flash done." ++ nl)).

Definition _do_configure (st : App) : M unit :=
  log_write (u ("Configuring via Meshtastic CLI..." ++ nl)) ;;;
  run_cmd_stream (Argv (_meshtastic_config_cmd st)) log_write ;;;
  log_write (u (nl ++ "Configuration complete." ++ nl)).

Definition _do_erase : M unit :=
  log_write (u ("Erasing flash (esptool erase-flash)..." ++ nl)) ;;;
  run_cmd_stream (Argv ["esptool"; "erase-flash"]) log_write ;;;
  log_write (u (nl ++ "Erase complete." ++ nl)).

(** The [except Exception as e] clause shared by the three actions. *)
Definition report_error (e : exn) : M unit :=
  log_write (u (nl ++ "ERROR: " ++ exn_str e ++ nl)) ;;;
  emit (ShowError "Error" (exn_str e)).

Definition mode_line (st : App) : utext :=
  u ("Mode: " ++ label (MODE_DEFS (mode st)) ++ nl).

(** [flash_only]: the body of the worker thread it starts. *)
Definition flash_only (st : App) : M unit :=
  try_except
    (_validate_common st ;;;
     log_write (mode_line st) ;;;
     _do_flash st)
    report_error.

Definition configure_only (st : App) : M unit :=
  try_except
    (_validate_common st ;;;
     log_write (mode_line st) ;;;
     _do_configure st)
    report_error.

Definition erase_flash (st : App) : M unit :=
  try_except
    (raise_if (negb (is_esptool (flash_method (MODE_DEFS (mode st)))))
       "Erase is only available for Heltec (esptool) modes." ;;;
     _validate_common st ;;;
     log_write (mode_line st) ;;;
     _do_erase)
    report_error.

End WithHost.

(** *** Owner numbering *)

(** The local function [inc] of [_increment_owner_number], as a function from
    the variable's text to the text it is set to. *)
Definition inc (v : string) : string :=
  let s := strip v in
  let width :=
    if isdigit s && Nat.ltb 0 (String.length s) then String.length s else 0 in
  let '(n, width) :=
    match (if negb (is_empty s) then int s else Some 0%Z) with
    | Some n => (n, width)
    | None => (0%Z, 0)
    end in
  let n := (n + 1)%Z in
  if Nat.ltb 0 width then zfill width (str n) else str n.

Definition with_owner_nums (st : App) (num short_num : string) : App :=
  {| mode := mode st;
     firmware_path := firmware_path st;
     uf2_drive := uf2_drive st;
     owner_letters := owner_letters st;
     owner_num := num;
     owner_short_letters := owner_short_letters st;
     owner_short_num := short_num;
     lat := lat st;
     lon := lon st |}.

(** Each write to a variable schedules a save (see [_wire_traces]); a third
    one is scheduled explicitly. *)
Definition _increment_owner_number (st : App) : M App :=
  emit ScheduleSave ;;;
  emit ScheduleSave ;;;
  emit ScheduleSave ;;;
  ret (with_owner_nums st (inc (owner_num st)) (inc (owner_short_num st))).

End Flasher.

(** ** The GPS query utility *)

Module GpsQuery.
Import PyStr.

Inductive exn := RuntimeError (msg : string).

Inductive event :=
| PrintLine (s : string)     (* print(s) *)
| GetReport (at_ms : N)      (* ILocation::GetReport, with the clock reading
                                (milliseconds since [start]) of the loop test
                                that let it run *)
| Sleep (seconds : Z).       (* time.sleep(seconds) *)

(** What one call of [GetReport] does: the HRESULT it returns, the pointer it
    stores in [report] (0 is NULL), and the time, in milliseconds, that the
    loop iteration takes on top of its one-second sleep (the call itself and
    any oversleeping). *)
Record report_call := {
  hr : Z;
  out_report : Z;
  elapsed : N;
}.

Definition REPORT_WINDOW_MS : N := 15000.
Definition SLEEP_MS : N := 1000.

Section WithHost.
Variable double : Type.

(** The location service: the HRESULT of [CoCreateInstance], the behaviour of
    the successive calls of [GetReport], and the coordinates a report holds. *)
Record Host := {
  create_hr : Z;
  get_report : nat -> report_call;
  latitude : Z -> double;
  longitude : Z -> double;
}.

Variable host : Host.

Definition got_fix (c : report_call) : bool :=
  Z.eqb (hr c) 0 && negb (Z.eqb (out_report c) 0).

(** The [while time.time() - start < 15] loop.  [k] counts the calls made so
    far, [now] is [time.time() - start] in milliseconds, [report] the pointer
    held by the variable [report]; the result is [None] when [fuel]
    iterations were not enough. *)
Fixpoint poll_loop (fuel k : nat) (now : N) (report : Z) (t : list event)
    : option (Z * list event) :=
  if N.ltb now REPORT_WINDOW_MS then
    match fuel with
    | O => None
    | S fuel' =>
        let c := get_report host k in
        let t := (t ++ [GetReport now])%list in
        if got_fix c then Some (out_report c, t)
        else poll_loop fuel' (S k) (now + elapsed c + SLEEP_MS)
               (out_report c) (t ++ [Sleep 1])%list
    end
  else Some (report, t).

Definition get_lat_lon (fuel : nat)
    : option ((exn + double * double) * list event) :=
  if negb (Z.eqb (create_hr host) 0)
  then Some (inl (RuntimeError ("CoCreateInstance failed: 0x"
                                ++ format_08X (create_hr host))), [])
  else
    match poll_loop fuel 0 0 0 [PrintLine "Waiting for GPS fix..."] with
    | None => None
    | Some (report, t) =>
        if Z.eqb report 0
        then Some (inl (RuntimeError "No GPS fix"), t)
        else Some (inr (latitude host report, longitude host report), t)
    end.

(** *** Reference notions used to state the properties *)

(** Clock reading at the loop test before the [k]-th call, when none of the
    earlier calls ended the loop. *)
Fixpoint poll_time (k : nat) : N :=
  match k with
  | O => 0
  | S j => poll_time j + elapsed (get_report host j) + SLEEP_MS
  end.

(** The [n] calls from the [k]-th on, each with its clock reading. *)
Definition calls_from (k n : nat) : list event :=
  map (fun j => GetReport (poll_time j)) (seq k n).

(** Some call started inside the window returns a report. *)
Definition fix_in_window : Prop :=
  exists k, (poll_time k < REPORT_WINDOW_MS)%N /\ got_fix (get_report host k) = true.

(** The COM rule for out-parameters: a failing call stores NULL. *)
Definition com_contract : Prop :=
  forall k, hr (get_report host k) <> 0%Z -> out_report (get_report host k) = 0%Z.

End WithHost.

Arguments create_hr {double}.
Arguments get_report {double}.
Arguments latitude {double}.
Arguments longitude {double}.
Arguments poll_loop {double}.
Arguments get_lat_lon {double}.
Arguments poll_time {double}.
Arguments calls_from {double}.
Arguments fix_in_window {double}.
Arguments com_contract {double}.

Definition is_poll (e : event) : bool :=
  match e with GetReport _ => true | _ => false end.

Definition in_window (e : event) : bool :=
  match e with GetReport t => N.ltb t REPORT_WINDOW_MS | _ => true end.

(** Calls of [GetReport] separated by exactly one [time.sleep(1)]. *)
Fixpoint paced (t : list event) : bool :=
  match t with
  | [] => true
  | GetReport _ :: r =>
      match r with
      | [] => true
      | Sleep 1 :: r' => paced r'
      | _ => false
      end
  | _ => false
  end.

(** *** Sample location services (coordinates in millionths of a degree) *)

Definition failed_call : report_call :=
  {| hr := -2147467259; out_report := 0; elapsed := 20 |}.

Definition good_call : report_call :=
  {| hr := 0; out_report := 4096; elapsed := 35 |}.

(** No fix, ever. *)
Definition silent_service : Host Z :=
  {| create_hr := 0;
     get_report := fun _ => failed_call;
     latitude := fun _ => 37865100%Z;
     longitude := fun _ => (-119538300)%Z |}.

(** A fix at the third call. *)
Definition late_service : Host Z :=
  {| create_hr := 0;
     get_report := fun k => if Nat.ltb k 2 then failed_call else good_call;
     latitude := fun _ => 37865100%Z;
     longitude := fun _ => (-119538300)%Z |}.

(** The location provider is not registered. *)
Definition missing_service : Host Z :=
  {| create_hr := -2147221164;
     get_report := fun _ => failed_call;
     latitude := fun _ => 0%Z;
     longitude := fun _ => 0%Z |}.

End GpsQuery.

(** ** Reference notions and sample inputs *)

Module Ref.
Import PyStr Eff Flasher.

(** The [--set key value] settings of a command line, in order. *)
Fixpoint set_pairs (cmd : list string) : list (string * string) :=
  match cmd with
  | flag :: rest =>
      match rest with
      | k :: rest' =>
          match rest' with
          | v :: rest'' =>
              if String.eqb flag "--set" then (k, v) :: set_pairs rest''
              else set_pairs rest
          | [] => []
          end
      | [] => []
      end
  | [] => []
  end.

(** The settings that are the same for every mode and every input: all but
    the device role and the position handling. *)
Definition fixed_settings (cmd : list string) : list (string * string) :=
  filter (fun kv => negb (String.eqb (fst kv) "device.role"
                          || String.eqb (fst kv) "position.fixed_position"))
         (set_pairs cmd).

(** A marker file is found on drive [d]; a query that fails counts as not
    found and ends the look-up for that drive. *)
Definition marker_found (host : Host) (d : string) : bool :=
  match os_path_exists host (os_path_join host d "INFO_UF2.TXT") with
  | inr true => true
  | inr false =>
      match os_path_exists host (os_path_join host d "UF2INFO.TXT") with
      | inr b => b
      | inl _ => false
      end
  | inl _ => false
  end.

(** Letter [i] names a volume of removable type. *)
Definition is_removable (host : Host) (i : nat) : bool :=
  Z.testbit (GetLogicalDrives host) (Z.of_nat i)
  && Z.eqb (GetDriveTypeW host (drive_name i)) DRIVE_REMOVABLE.

(** What the sink receives for one byte of output. *)
Definition shown (b : Byte.byte) : utext :=
  let n := Byte.to_N b in
  if N.eqb n 13 then [10%N] else if N.ltb n 128 then [n] else [65533%N].

(** One byte of output with only carriage return turned into line feed. *)
Definition cr_to_lf (b : Byte.byte) : utext :=
  let n := Byte.to_N b in
  if N.eqb n 13 then [10%N] else [n].

(** The line that echoes a command to the sink before it is started. *)
Definition echo_line (cmd : command) : utext :=
  match cmd with
  | Argv args => u ("$ " ++ join " " args ++ nl)
  | Shell line => u ("$ " ++ line ++ nl)
  end.

(** The output of a process ([p.stdout] is [None]: nothing to read). *)
Definition output (p : process) : list Byte.byte :=
  match stdout p with Some out => out | None => [] end.

(** The last character of a string is a digit. *)
Fixpoint ends_with_digit (s : string) : bool :=
  match s with
  | EmptyString => false
  | String c r => if is_empty r then is_digit_char c else ends_with_digit r
  end.

(** The texts logged after the first one (the echo of the command). *)
Definition forwarded (t : list event) : list utext := tl (logged t).

(** A session on the RAK4631 (fixed position) mode... *)
Definition rak_app : App :=
  {| mode := RAK4631;
     firmware_path := "C:\fw\rak4631.uf2";
     uf2_drive := "E:\";
     owner_letters := "SNORR TEST";
     owner_num := "01";
     owner_short_letters := "MT";
     owner_short_num := "01";
     lat := "37.8651";
     lon := "-119.5383" |}.

(** ... the same with blanks typed around three of the fields... *)
Definition rak_app_padded : App :=
  {| mode := RAK4631;
     firmware_path := "C:\fw\rak4631.uf2";
     uf2_drive := "E:\";
     owner_letters := "SNORR TEST";
     owner_num := "01";
     owner_short_letters := "MT ";
     owner_short_num := "01";
     lat := " 37.8651";
     lon := "-119.5383 " |}.

(** ... and sessions on the two esptool modes. *)
Definition heltec_app : App :=
  {| mode := Heltec_V3;
     firmware_path := "C:\fw\heltec_v3_client.bin";
     uf2_drive := "";
     owner_letters := "SNORR TEST";
     owner_num := "01";
     owner_short_letters := "MT";
     owner_short_num := "01";
     lat := "37.8651";
     lon := "-119.5383" |}.

Definition heltec_v4_app : App :=
  {| mode := Heltec_V4;
     firmware_path := "C:\fw\heltec_v4_gps.bin";
     uf2_drive := "";
     owner_letters := "SNORR TEST";
     owner_num := "01";
     owner_short_letters := "MT";
     owner_short_num := "01";
     lat := "37.8651";
     lon := "-119.5383" |}.

(** The part of a path after its last backslash. *)
Definition no_backslash (s : string) : bool :=
  forall_chars (fun x => negb (Ascii.eqb x "\")) s.

Fixpoint after_last_backslash (s : string) : string :=
  match s with
  | EmptyString => EmptyString
  | String c r =>
      if negb (no_backslash r) then after_last_backslash r
      else if Ascii.eqb c "\" then r
      else s
  end.

Definition mem (x : string) (l : list string) : bool :=
  existsb (String.eqb x) l.

(** A host with drives C:, D: (fixed) and E: (removable, in UF2 boot mode),
    three firmware files, and tools that print two lines and exit with 0. *)
Definition sample_process : process :=
  {| stdout := Some [Byte.x4f; Byte.x4b; Byte.x0d; Byte.x0a];
     returncode := 0 |}.

(** A tool that prints the two bytes of a UTF-8 encoded e-acute. *)
Definition accent_process : process :=
  {| stdout := Some [Byte.xc3; Byte.xa9];
     returncode := 0 |}.

Definition failing_process : process :=
  {| stdout := Some [Byte.x6e; Byte.x6f; Byte.x0d];
     returncode := 2 |}.

Definition host_running (p : process) : Host :=
  {| GetLogicalDrives := 28;
     GetDriveTypeW := fun d => if String.eqb d "E:\" then 2%Z else 3%Z;
     os_path_exists := fun p => inr (String.eqb p "E:\INFO_UF2.TXT");
     os_path_isfile := fun p =>
       mem p ["C:\fw\rak4631.uf2"; "C:\fw\heltec_v3_client.bin";
              "C:\fw\heltec_v4_gps.bin"; "C:\fw\RAK4631.UF2"; "C:\fw\notes.txt"];
     os_path_isdir := fun p => mem p ["C:\"; "C:\fw"; "D:\"; "E:\"];
     os_path_join := fun a b => a ++ b;
     os_path_basename := after_last_backslash;
     shutil_copyfile := fun _ _ => None;
     popen := fun _ => inr p;
     float_parses := fun s =>
       negb (is_empty s)
       && forall_chars (fun c => is_decimal c || Ascii.eqb c "." || Ascii.eqb c "-") s |}.

Definition sample_host : Host := host_running sample_process.

End Ref.

(** ** The session: persistence, mode switching, drive selection

    The part of [App] that lives between two actions: the interface
    variables, the dictionary [self._state], the pending save, the settings
    file, the log widget and the drive list.  The settings file is modelled
    by the dictionary it holds ([json.dumps] and [json.loads] are taken to be
    inverse of each other), and a dictionary by the association list of its
    items in insertion order, restricted to the shape [_save_state] writes: a
    string under [last_mode], and under [modes] a dictionary from mode names
    to dictionaries with string values. *)

Module Session.
Import PyStr Eff Flasher.

Definition dict (V : Type) : Type := list (string * V).

(** [d.get(k)] *)
Fixpoint dict_get {V} (k : string) (d : dict V) : option V :=
  match d with
  | [] => None
  | (k', v) :: rest => if String.eqb k k' then Some v else dict_get k rest
  end.

(** [d[k] = v] *)
Fixpoint dict_set {V} (k : string) (v : V) (d : dict V) : dict V :=
  match d with
  | [] => [(k, v)]
  | (k', v') :: rest =>
      if String.eqb k k' then (k, v) :: rest else (k', v') :: dict_set k v rest
  end.

(** The entry of one mode; [None] for a missing key. *)
Record Saved := {
  sv_firmware_path : option string;
  sv_uf2_drive : option string;
  sv_owner_letters : option string;
  sv_owner_num : option string;
  sv_owner_short_letters : option string;
  sv_owner_short_num : option string;
  sv_lat : option string;
  sv_lon : option string;
}.

Record State := {
  last_mode : option string;
  modes : option (dict Saved);
}.

Definition empty_state : State := {| last_mode := None; modes := None |}.

(** The key of a mode in [MODE_DEFS]; [mode_of_name s] is defined when
    [s in MODE_DEFS]. *)
Definition mode_name (m : ModeKey) : string :=
  match m with
  | RAK4631 => "RAK4631"
  | Heltec_V3 => "Heltec V3"
  | Heltec_V4 => "Heltec V4"
  end.

Definition mode_of_name (s : string) : option ModeKey :=
  if String.eqb s "RAK4631" then Some RAK4631
  else if String.eqb s "Heltec V3" then Some Heltec_V3
  else if String.eqb s "Heltec V4" then Some Heltec_V4
  else None.

Record Ui := {
  app : App;                   (* the interface variables *)
  state : State;               (* self._state *)
  save_after_id : option nat;  (* self._save_after_id *)
  armed : list nat;            (* timers of root.after neither fired nor cancelled *)
  next_id : nat;               (* the identifier the next root.after returns *)
  file : option State;         (* what state.json holds, if it exists *)
  log : list utext;            (* the texts inserted in the log widget *)
  drive_values : list string;  (* drive_combo["values"] *)
  coords_enabled : bool;       (* state of lat_entry and lon_entry *)
}.

Definition with_app (u : Ui) (a : App) : Ui :=
  {| app := a; state := state u; save_after_id := save_after_id u;
     armed := armed u; next_id := next_id u; file := file u; log := log u;
     drive_values := drive_values u; coords_enabled := coords_enabled u |}.

Definition with_log (u : Ui) (l : list utext) : Ui :=
  {| app := app u; state := state u; save_after_id := save_after_id u;
     armed := armed u; next_id := next_id u; file := file u; log := l;
     drive_values := drive_values u; coords_enabled := coords_enabled u |}.

Definition with_drive_values (u : Ui) (l : list string) : Ui :=
  {| app := app u; state := state u; save_after_id := save_after_id u;
     armed := armed u; next_id := next_id u; file := file u; log := log u;
     drive_values := l; coords_enabled := coords_enabled u |}.

Definition with_coords_enabled (u : Ui) (b : bool) : Ui :=
  {| app := app u; state := state u; save_after_id := save_after_id u;
     armed := armed u; next_id := next_id u; file := file u; log := log u;
     drive_values := drive_values u; coords_enabled := b |}.

(** The interface variables, one setter each. *)
Inductive Var :=
| v_firmware_path | v_uf2_drive | v_owner_letters | v_owner_num
| v_owner_short_letters | v_owner_short_num | v_lat | v_lon.

Definition get_var (x : Var) (a : App) : string :=
  match x with
  | v_firmware_path => firmware_path a
  | v_uf2_drive => uf2_drive a
  | v_owner_letters => owner_letters a
  | v_owner_num => owner_num a
  | v_owner_short_letters => owner_short_letters a
  | v_owner_short_num => owner_short_num a
  | v_lat => lat a
  | v_lon => lon a
  end.

Definition pick (x y : Var) (new old : string) : string :=
  match x, y with
  | v_firmware_path, v_firmware_path
  | v_uf2_drive, v_uf2_drive
  | v_owner_letters, v_owner_letters
  | v_owner_num, v_owner_num
  | v_owner_short_letters, v_owner_short_letters
  | v_owner_short_num, v_owner_short_num
  | v_lat, v_lat
  | v_lon, v_lon => new
  | _, _ => old
  end.

Definition set_var (x : Var) (v : string) (a : App) : App :=
  {| mode := mode a;
     firmware_path := pick x v_firmware_path v (firmware_path a);
     uf2_drive := pick x v_uf2_drive v (uf2_drive a);
     owner_letters := pick x v_owner_letters v (owner_letters a);
     owner_num := pick x v_owner_num v (owner_num a);
     owner_short_letters := pick x v_owner_short_letters v (owner_short_letters a);
     owner_short_num := pick x v_owner_short_num v (owner_short_num a);
     lat := pick x v_lat v (lat a);
     lon := pick x v_lon v (lon a) |}.

Definition set_mode_var (m : ModeKey) (a : App) : App :=
  {| mode := m;
     firmware_path := firmware_path a;
     uf2_drive := uf2_drive a;
     owner_letters := owner_letters a;
     owner_num := owner_num a;
     owner_short_letters := owner_short_letters a;
     owner_short_num := owner_short_num a;
     lat := lat a;
     lon := lon a |}.

(** *** Persistence *)

(** [_load_state]: the dictionary of the file, or an empty one. *)
Definition _load_state (f : option State) : State :=
  match f with Some st => st | None => empty_state end.

(** [_schedule_save]: cancel the pending save, if any, and arm a new one. *)
Definition _schedule_save (u : Ui) : Ui :=
  let armed' :=
    match save_after_id u with
    | Some id => remove Nat.eq_dec id (armed u)
    | None => armed u
    end in
  {| app := app u; state := state u;
     save_after_id := Some (next_id u);
     armed := (armed' ++ [next_id u])%list;
     next_id := S (next_id u);
     file := file u; log := log u;
     drive_values := drive_values u; coords_enabled := coords_enabled u |}.

Definition entry_of (a : App) : Saved :=
  {| sv_firmware_path := Some (firmware_path a);
     sv_uf2_drive := Some (uf2_drive a);
     sv_owner_letters := Some (owner_letters a);
     sv_owner_num := Some (owner_num a);
     sv_owner_short_letters := Some (owner_short_letters a);
     sv_owner_short_num := Some (owner_short_num a);
     sv_lat := Some (lat a);
     sv_lon := Some (lon a) |}.

(** [_save_state]; [written] tells whether writing the file succeeds (a
    failure is swallowed by the source). *)
Definition _save_state (written : bool) (u : Ui) : Ui :=
  let name := mode_name (mode (app u)) in
  let st :=
    {| last_mode := Some name;
       modes := Some (dict_set name (entry_of (app u))
                        (match modes (state u) with Some d => d | None => [] end)) |} in
  {| app := app u; state := st;
     save_after_id := None;
     armed := armed u; next_id := next_id u;
     file := if written then Some st else file u;
     log := log u;
     drive_values := drive_values u; coords_enabled := coords_enabled u |}.

(** The timer [id] armed by [root.after] fires: [_save_state] runs. *)
Definition timer_fires (id : nat) (written : bool) (u : Ui) : Ui :=
  _save_state written
    {| app := app u; state := state u; save_after_id := save_after_id u;
       armed := remove Nat.eq_dec id (armed u); next_id := next_id u;
       file := file u; log := log u;
       drive_values := drive_values u; coords_enabled := coords_enabled u |}.

(** A write to an interface variable: the trace installed by [_wire_traces]
    schedules a save. *)
Definition write_var (x : Var) (v : string) (u : Ui) : Ui :=
  _schedule_save (with_app u (set_var x v (app u))).

(** [self.log_write(s)] *)
Definition log_write (s : utext) (u : Ui) : Ui := with_log u (log u ++ [s])%list.

(** [clear_log] *)
Definition clear_log (u : Ui) : Ui := with_log u [].

(** *** Drive selection and mode switching *)

Section WithHost.
Variable host : Host.

(** The list [detect_uf2_drives()] returns. *)
Definition detected : list string :=
  match outcome (detect_uf2_drives host) with
  | inr drives => drives
  | inl _ => []
  end.

Definition refresh_drives (u : Ui) : Ui :=
  let drives := detected in
  let u := with_drive_values u drives in
  let u :=
    match drives with
    | first :: _ =>
        if is_empty (uf2_drive (app u)) then write_var v_uf2_drive first u else u
    | [] => u
    end in
  match drives with
  | [] =>
      log_write
        (Eff.u ("No UF2 drives detected. Put device in UF2 boot mode and click Refresh."
                ++ nl))
        (write_var v_uf2_drive "" u)
  | _ :: _ => u
  end.

(** [a or b] on what [saved.get(key)] returns. *)
Definition or_else (a : option string) (b : string) : string :=
  match a with
  | Some s => if is_empty s then b else s
  | None => b
  end.

(** [(self._state.get("modes") or {}).get(mode, {})] followed by
    [.get(key)]. *)
Definition saved_get (st : State) (m : ModeKey) (key : Saved -> option string)
    : option string :=
  match modes st with
  | Some d =>
      match dict_get (mode_name m) d with
      | Some e => key e
      | None => None
      end
  | None => None
  end.

(** One line [self.x.set(saved.get(key) or default)] of [apply_mode], the
    default being the current value of the variable. *)
Definition restore (x : Var) (key : Saved -> option string) (u : Ui) : Ui :=
  write_var x
    (or_else (saved_get (state u) (mode (app u)) key) (get_var x (app u))) u.

Definition apply_mode (u : Ui) : Ui :=
  let m := mode (app u) in
  let d := MODE_DEFS m in
  let u := write_var v_firmware_path
             (or_else (saved_get (state u) m sv_firmware_path) (firmware_default d)) u in
  let u := write_var v_uf2_drive
             (or_else (saved_get (state u) m sv_uf2_drive) "") u in
  let u := restore v_owner_letters sv_owner_letters u in
  let u := restore v_owner_num sv_owner_num u in
  let u := restore v_owner_short_letters sv_owner_short_letters u in
  let u := restore v_owner_short_num sv_owner_short_num u in
  let u := restore v_lat sv_lat u in
  let u := restore v_lon sv_lon u in
  let u := if is_uf2 (flash_method d) then refresh_drives u else u in
  let u := with_coords_enabled u (is_fixed (gps_mode d)) in
  _schedule_save u.

(** The local function [set_mode] of [_build_ui], run by a mode button. *)
Definition set_mode (m : ModeKey) (u : Ui) : Ui :=
  apply_mode (with_app u (set_mode_var m (app u))).

(** [App.__init__], from the settings file found at start. *)
Definition init (f : option State) : Ui :=
  let st := _load_state f in
  let a :=
    {| mode := RAK4631;
       firmware_path := "";
       uf2_drive := "";
       owner_letters := "SNORR TEST";
       owner_num := "01";
       owner_short_letters := "MT";
       owner_short_num := "01";
       lat := "37.8651";
       lon := "-119.5383" |} in
  let u :=
    {| app := a; state := st; save_after_id := None; armed := []; next_id := 0;
       file := f; log := []; drive_values := []; coords_enabled := true |} in
  let u :=
    match last_mode st with
    | Some name =>
        match mode_of_name name with
        | Some m => with_app u (set_mode_var m (app u))
        | None => u
        end
    | None => u
    end in
  apply_mode u.

(** [_increment_owner_number] on the session. *)
Definition increment_owner_number (u : Ui) : Ui :=
  let u := write_var v_owner_num (inc (owner_num (app u))) u in
  let u := write_var v_owner_short_num (inc (owner_short_num (app u))) u in
  _schedule_save u.

(** [pick_firmware], [p] being what the file dialog returns. *)
Definition pick_firmware (p : string) (u : Ui) : Ui :=
  if is_empty p then u else write_var v_firmware_path p u.

(** [_exit_app] *)
Definition _exit_app (written : bool) (u : Ui) : Ui := _save_state written u.

(** What can happen to a session between two actions. *)
Inductive step : Ui -> Ui -> Prop :=
| step_edit x v u : step u (write_var x v u)
| step_set_mode m u : step u (set_mode m u)
| step_refresh u : step u (refresh_drives u)
| step_increment u : step u (increment_owner_number u)
| step_pick p u : step u (pick_firmware p u)
| step_clear u : step u (clear_log u)
| step_log s u : step u (log_write s u)
| step_timer id written u :
    In id (armed u) -> step u (timer_fires id written u).

Inductive reachable (f : option State) : Ui -> Prop :=
| reach_init : reachable f (init f)
| reach_step u u' : reachable f u -> step u u' -> reachable f u'.

End WithHost.

End Session.

(** ** Keypad and focus navigation *)

Module Keypad.
Import PyStr.

(** The registered fields are named by numbers; [focus] is what
    [root.focus_get()] returns, [None] included. *)
Fixpoint index_of (w : nat) (l : list nat) : option nat :=
  match l with
  | [] => None
  | x :: rest =>
      if Nat.eqb x w then Some 0
      else option_map S (index_of w rest)
  end.

(** [_focus_next]: the field that receives the focus, [None] when there is
    no field.  [list.index] raising [ValueError] gives the index -1. *)
Definition _focus_next (field_widgets : list nat) (focus : option nat) : option nat :=
  match field_widgets with
  | [] => None
  | _ :: _ =>
      let idx :=
        match focus with
        | Some w =>
            match index_of w field_widgets with
            | Some i => Z.of_nat i
            | None => (-1)%Z
            end
        | None => (-1)%Z
        end in
      nth_error field_widgets
        (Z.to_nat ((idx + 1) mod Z.of_nat (List.length field_widgets)))
  end.

(** [_focus_prev]: here [ValueError] gives the index 0. *)
Definition _focus_prev (field_widgets : list nat) (focus : option nat) : option nat :=
  match field_widgets with
  | [] => None
  | _ :: _ =>
      let idx :=
        match focus with
        | Some w =>
            match index_of w field_widgets with
            | Some i => Z.of_nat i
            | None => 0%Z
            end
        | None => 0%Z
        end in
      nth_error field_widgets
        (Z.to_nat ((idx - 1) mod Z.of_nat (List.length field_widgets)))
  end.

(** The keys of the keypad: backspace, CLR, plus-minus, and the keys that
    insert their own label. *)
Inductive Key :=
| Backspace
| Clear
| PlusMinus
| Label (ch : string).

(** An entry widget: its text, the position of the insertion cursor and the
    selected range, if any. *)
Record Entry := {
  text : string;
  cursor : nat;
  selection : option (nat * nat);
}.

(** The text after [w.delete(first, last)]. *)
Definition delete (first last : nat) (s : string) : string :=
  if Nat.ltb first last
  then substring 0 first s ++ substring last (String.length s - last) s
  else s.

(** The text after [w.insert(index, t)]. *)
Definition insert (index : nat) (t s : string) : string :=
  substring 0 index s ++ t ++ substring index (String.length s - index) s.

(** [s.startswith("-")] *)
Definition starts_with_minus (s : string) : bool :=
  match s with
  | String c _ => Ascii.eqb c "-"
  | EmptyString => false
  end.

(** The text of the active entry after [_keypad_insert(ch)]. *)
Definition _keypad_insert (k : Key) (w : Entry) : string :=
  match k with
  | Backspace =>
      match selection w with
      | Some (sel_first, sel_last) => delete sel_first sel_last (text w)
      | None =>
          let idx := cursor w in
          if Nat.ltb 0 idx then delete (idx - 1) idx (text w) else text w
      end
  | Clear => delete 0 (String.length (text w)) (text w)
  | PlusMinus =>
      let s := text w in
      if starts_with_minus s then delete 0 1 s else insert 0 "-" s
  | Label ch => insert (cursor w) ch (text w)
  end.

End Keypad.

(** ** Further reference notions *)

Module Obs.
Import PyStr Eff Flasher.

Definition is_dialog (ev : event) : bool :=
  match ev with ShowError _ _ => true | _ => false end.

Definition is_sleep (ev : event) : bool :=
  match ev with Sleep _ => true | _ => false end.

Definition is_log (ev : event) : bool :=
  match ev with LogWrite _ => true | _ => false end.

(** The two events by which an action reports the exception [e]. *)
Definition error_report (e : exn) : list event :=
  [LogWrite (u (nl ++ "ERROR: " ++ exn_str e ++ nl)); ShowError "Error" (exn_str e)].

(** What running [cmd] raises, if anything: the error of a process that
    cannot be started, or the command-failure error of a non-zero exit. *)
Definition run_error (host : Host) (cmd : command) : option exn :=
  match popen host cmd with
  | inl msg => Some (OSError msg)
  | inr p =>
      if Z.eqb (returncode p) 0 then None
      else Some (RuntimeError ("Command failed (exit " ++ str (returncode p) ++ ")"))
  end.

(** What an action that validates and then runs [cmd] raises, if anything. *)
Definition action_error (host : Host) (st : App) (cmd : command) : option exn :=
  match outcome (_validate_common host st) with
  | inl e => Some e
  | inr _ => run_error host cmd
  end.

(** All the conditions [_validate_common] checks. *)
Definition valid (host : Host) (st : App) : bool :=
  let d := MODE_DEFS (mode st) in
  negb (is_empty (strip (firmware_path st)))
  && os_path_isfile host (strip (firmware_path st))
  && (negb (is_uf2 (flash_method d)) || negb (is_empty (strip (uf2_drive st))))
  && negb (is_empty (strip (owner_letters st)))
  && isdigit (strip (owner_num st))
  && negb (is_empty (strip (owner_short_letters st)))
  && isdigit (strip (owner_short_num st))
  && (negb (is_fixed (gps_mode d))
      || (float_parses host (strip (lat st)) && float_parses host (strip (lon st)))).

(** The events of the runner on a command, whether it starts or not. *)
Definition runner_events (host : Host) (cmd : command) : list event :=
  LogWrite (Ref.echo_line cmd) :: Popen cmd
    :: match popen host cmd with
       | inr p => map (fun b => LogWrite (Ref.shown b)) (Ref.output p)
       | inl _ => []
       end.

(** The shape shared by the esptool flash, the configuration and the
    erasure: validate, log the mode, announce, run, confirm. *)
Definition tool_action (host : Host) (st : App) (announce : utext)
    (cmd : command) (done : utext) : M unit :=
  try_except
    (_validate_common host st ;;;
     log_write (mode_line st) ;;;
     (log_write announce ;;;
      run_cmd_stream host cmd log_write ;;;
      log_write done))%eff
    report_error.

(** The countdown of [wait_seconds]: one line and one sleep per second. *)
Definition countdown (sec : nat) : list event :=
  flat_map
    (fun i => [LogWrite (u ("Waiting for reboot... " ++ str (Z.of_nat i) ++ "s" ++ nl));
               Sleep 1])
    (rev (seq 1 sec)).

(** The sample host without its tools: no command can be started. *)
Definition host_without_tools : Host :=
  {| GetLogicalDrives := GetLogicalDrives Ref.sample_host;
     GetDriveTypeW := GetDriveTypeW Ref.sample_host;
     os_path_exists := os_path_exists Ref.sample_host;
     os_path_isfile := os_path_isfile Ref.sample_host;
     os_path_isdir := os_path_isdir Ref.sample_host;
     os_path_join := os_path_join Ref.sample_host;
     os_path_basename := os_path_basename Ref.sample_host;
     shutil_copyfile := shutil_copyfile Ref.sample_host;
     popen := fun _ => inl "[WinError 2] The system cannot find the file specified";
     float_parses := float_parses Ref.sample_host |}.

(** The pending save is the one [_save_after_id] remembers, and no other
    timer is armed. *)
Definition one_pending (w : Session.Ui) : Prop :=
  Session.armed w
  = match Session.save_after_id w with Some id => [id] | None => [] end.

(** The key of [Saved] that holds the variable [x]. *)
Definition key_of (x : Session.Var) : Session.Saved -> option string :=
  match x with
  | Session.v_firmware_path => Session.sv_firmware_path
  | Session.v_uf2_drive => Session.sv_uf2_drive
  | Session.v_owner_letters => Session.sv_owner_letters
  | Session.v_owner_num => Session.sv_owner_num
  | Session.v_owner_short_letters => Session.sv_owner_short_letters
  | Session.v_owner_short_num => Session.sv_owner_short_num
  | Session.v_lat => Session.sv_lat
  | Session.v_lon => Session.sv_lon
  end.

(** The variables that [apply_mode] restores with the current value as the
    fall-back. *)
Definition keeps_current (x : Session.Var) : bool :=
  match x with
  | Session.v_firmware_path | Session.v_uf2_drive => false
  | _ => true
  end.

(** The value [App.__init__] gives a variable before any mode is applied. *)
Definition initial_value (x : Session.Var) : string :=
  match x with
  | Session.v_firmware_path => ""
  | Session.v_uf2_drive => ""
  | Session.v_owner_letters => "SNORR TEST"
  | Session.v_owner_num => "01"
  | Session.v_owner_short_letters => "MT"
  | Session.v_owner_short_num => "01"
  | Session.v_lat => "37.8651"
  | Session.v_lon => "-119.5383"
  end.

(** A session in its first state, for the examples. *)
Definition fresh_session : Session.Ui := Session.init Ref.sample_host None.

(** The notice [refresh_drives] logs when no drive is found. *)
Definition no_drive_notice : utext :=
  Eff.u ("No UF2 drives detected. Put device in UF2 boot mode and click Refresh."
         ++ nl).

(** Every character of [s] is the digit nine. *)
Definition all_nines (s : string) : bool :=
  forall_chars (fun c => Ascii.eqb c "9") s.

End Obs.

(** * Properties *)

(** ** The primitives on small inputs *)

Example str_examples :
  PyStr.str 10 = "10" /\ PyStr.str 0 = "0" /\ PyStr.str (-42) = "-42"
  /\ PyStr.format_08X 255 = "000000FF"
  /\ PyStr.format_08X (-2147221164) = "-7FFBFEAC".
Proof. repeat split; reflexivity. Qed.

Example int_examples :
  PyStr.int "01" = Some 1%Z /\ PyStr.int " 7 " = Some 7%Z
  /\ PyStr.int "1_0" = Some 10%Z /\ PyStr.int "-5" = Some (-5)%Z
  /\ PyStr.int "" = None /\ PyStr.int "1__0" = None /\ PyStr.int "_1" = None
  /\ PyStr.int "1_" = None /\ PyStr.int "+" = None /\ PyStr.int "4a" = None.
Proof. repeat split; reflexivity. Qed.

Example text_examples :
  PyStr.strip "  a b  " = "a b" /\ PyStr.strip "   " = ""
  /\ PyStr.zfill 4 "-7" = "-007" /\ PyStr.zfill 1 "10" = "10"
  /\ PyStr.isdigit "007" = true /\ PyStr.isdigit "" = false
  /\ PyStr.isdigit "-1" = false
  /\ PyStr.endswith "uf2" ".uf2" = false
  /\ PyStr.join " " ["esptool"; "erase-flash"] = "esptool erase-flash".
Proof. repeat split; reflexivity. Qed.

Example inc_examples :
  Flasher.inc "01" = "02" /\ Flasher.inc "9" = "10" /\ Flasher.inc "099" = "100"
  /\ Flasher.inc " 01 " = "02" /\ Flasher.inc "" = "1" /\ Flasher.inc "abc" = "1"
  /\ Flasher.inc "-10" = "-9".
Proof. repeat split; reflexivity. Qed.

(** ** Facts about the text primitives *)

Section PyStrFacts.
Import PyStr.

Lemma append_empty_r (s : string) : s ++ "" = s.
Proof. induction s as [|c r IH]; simpl; [reflexivity | now rewrite IH]. Qed.

Lemma append_assoc (a b c : string) : (a ++ b) ++ c = a ++ (b ++ c).
Proof. induction a as [|x r IH]; simpl; [reflexivity | now rewrite IH]. Qed.

Lemma length_append (a b : string) :
  String.length (a ++ b) = String.length a + String.length b.
Proof. induction a as [|x r IH]; simpl; [reflexivity | now rewrite IH]. Qed.

Lemma forall_chars_append p (a b : string) :
  forall_chars p (a ++ b) = forall_chars p a && forall_chars p b.
Proof.
  induction a as [|x r IH]; simpl; [reflexivity|].
  now rewrite IH, andb_assoc.
Qed.

Lemma value_acc_append (a b : string) (v : N) :
  value_acc v (a ++ b) = value_acc (value_acc v a) b.
Proof. revert v; induction a as [|x r IH]; intro v; simpl; [reflexivity | apply IH]. Qed.

Lemma digit_cases (d : N) :
  (d < 10)%N ->
  d = 0%N \/ d = 1%N \/ d = 2%N \/ d = 3%N \/ d = 4%N \/ d = 5%N \/ d = 6%N
  \/ d = 7%N \/ d = 8%N \/ d = 9%N.
Proof. lia. Qed.

Lemma char_of_digit_decimal (d : N) :
  (d < 10)%N ->
  is_decimal (char_of_digit d) = true /\ digit_of_char (char_of_digit d) = d.
Proof.
  intro H. destruct (digit_cases d H) as [E|[E|[E|[E|[E|[E|[E|[E|[E|E]]]]]]]]];
    subst d; split; reflexivity.
Qed.

Lemma digits_acc_step (b : N) (f : nat) (n : N) (acc : string) :
  digits_acc b (S f) n acc =
  if N.eqb (n / b) 0 then String (char_of_digit (n mod b)) acc
  else digits_acc b f (n / b) (String (char_of_digit (n mod b)) acc).
Proof. reflexivity. Qed.

(** The digits produced for [n], seen as a prefix of the accumulator. *)
Lemma digits_acc_10 (f : nat) :
  forall (n : N) (acc : string),
    (n < 2 ^ N.of_nat (S f))%N ->
    exists d,
      digits_acc 10 (S f) n acc = d ++ acc
      /\ forall_chars is_decimal d = true
      /\ is_empty d = false
      /\ forall v, value_acc v d = (v * 10 ^ N.of_nat (String.length d) + n)%N.
Proof.
  induction f as [|f IH]; intros n acc Hn.
  - assert (Hq : (n / 10 = 0)%N) by (apply N.div_small; simpl in Hn; lia).
    assert (Hm : (n mod 10 = n)%N) by (apply N.mod_small; simpl in Hn; lia).
    exists (String (char_of_digit n) "").
    destruct (char_of_digit_decimal n) as [Hd Hv]; [simpl in Hn; lia|].
    rewrite digits_acc_step, Hq, Hm. cbn [N.eqb].
    repeat split.
    + cbn [forall_chars]. now rewrite Hd.
    + intro v. cbn [value_acc String.length]. rewrite Hv.
      change (N.of_nat 1) with 1%N. rewrite N.pow_1_r. lia.
  - rewrite digits_acc_step.
    assert (Hlt : (n mod 10 < 10)%N) by (apply N.mod_lt; lia).
    destruct (char_of_digit_decimal _ Hlt) as [Hd Hv].
    destruct (N.eqb_spec (n / 10) 0) as [Hq|Hq].
    + exists (String (char_of_digit (n mod 10)) "").
      assert (Hm : (n mod 10 = n)%N).
      { pose proof (N.div_mod n 10). lia. }
      repeat split.
      * cbn [forall_chars]. now rewrite Hd.
      * intro v. cbn [value_acc String.length]. rewrite Hv, Hm.
        change (N.of_nat 1) with 1%N. rewrite N.pow_1_r. lia.
    + assert (Hn' : (n / 10 < 2 ^ N.of_nat (S f))%N).
      { apply N.Div0.div_lt_upper_bound.
        replace (N.of_nat (S (S f))) with (N.succ (N.of_nat (S f))) in Hn by lia.
        rewrite N.pow_succ_r' in Hn. lia. }
      destruct (IH (n / 10)%N (String (char_of_digit (n mod 10)) acc) Hn')
        as (d & Hd1 & Hd2 & Hd3 & Hd4).
      exists (d ++ String (char_of_digit (n mod 10)) "").
      repeat split.
      * rewrite Hd1, append_assoc. reflexivity.
      * rewrite forall_chars_append, Hd2. cbn [forall_chars]. now rewrite Hd.
      * destruct d; [discriminate | reflexivity].
      * intro v. rewrite value_acc_append, Hd4. cbn [value_acc].
        rewrite Hv, length_append. cbn [String.length].
        replace (N.of_nat (String.length d + 1)) with (N.succ (N.of_nat (String.length d))) by lia.
        rewrite N.pow_succ_r'.
        pose proof (N.div_mod n 10). lia.
Qed.

Lemma str_of_N_spec (n : N) :
  is_number (str_of_N n) = true /\ value (str_of_N n) = n.
Proof.
  unfold str_of_N.
  destruct (digits_acc_10 (N.to_nat (N.log2 n)) n "") as (d & H1 & H2 & H3 & H4).
  - replace (N.of_nat (S (N.to_nat (N.log2 n)))) with (N.succ (N.log2 n)) by lia.
    destruct (N.eq_dec n 0) as [->|Hz]; [reflexivity|].
    apply N.log2_spec. lia.
  - rewrite H1, append_empty_r. unfold is_number, value.
    rewrite H2, H3, H4. split; [reflexivity | lia].
Qed.

Lemma between_spec lo hi c :
  between lo hi c = true <-> (lo <= code c /\ code c <= hi)%N.
Proof.
  unfold between. rewrite andb_true_iff, !N.leb_le. reflexivity.
Qed.

Lemma decimal_not_space c : is_decimal c = true -> is_space c = false.
Proof.
  unfold is_decimal, is_space. intro H. apply between_spec in H.
  repeat (apply orb_false_intro);
    try (apply not_true_is_false; rewrite between_spec; lia);
    apply N.eqb_neq; lia.
Qed.

Lemma decimal_is_digit c : is_decimal c = true -> is_digit_char c = true.
Proof. unfold is_digit_char. now intros ->. Qed.

Lemma decimal_not_char c (x : ascii) :
  is_decimal c = true -> (code x < 48 \/ 57 < code x)%N -> Ascii.eqb c x = false.
Proof.
  intros H Hx. apply between_spec in H.
  destruct (Ascii.eqb_spec c x) as [->|]; [lia | reflexivity].
Qed.

Lemma lstrip_digits s : forall_chars is_decimal s = true -> lstrip s = s.
Proof.
  destruct s as [|c r]; simpl; [reflexivity|].
  intro H. apply andb_true_iff in H as [H _].
  now rewrite (decimal_not_space c H).
Qed.

Lemma rstrip_digits s : forall_chars is_decimal s = true -> rstrip s = s.
Proof.
  induction s as [|c r IH]; simpl; [reflexivity|].
  intro H. apply andb_true_iff in H as [H Hr].
  now rewrite (IH Hr), (decimal_not_space c H).
Qed.

Lemma strip_digits s : forall_chars is_decimal s = true -> strip s = s.
Proof.
  intro H. unfold strip. rewrite (lstrip_digits s H). now apply rstrip_digits.
Qed.

Lemma int_body_digits s :
  forall acc b,
    forall_chars is_decimal s = true ->
    (is_empty s = false \/ b = true) ->
    int_body acc b s = Some (value_acc acc s).
Proof.
  induction s as [|c r IH]; intros acc b H Hne.
  - destruct Hne as [Hne | ->]; [discriminate | reflexivity].
  - simpl in H. apply andb_true_iff in H as [H Hr].
    simpl. rewrite H. apply IH; [assumption | now right].
Qed.

Lemma int_number s :
  is_number s = true -> int s = Some (Z.of_N (value s)).
Proof.
  unfold is_number. intro H. apply andb_true_iff in H as [Hne H].
  unfold int. rewrite (strip_digits s H).
  destruct s as [|c r]; [discriminate|].
  assert (Hc : is_decimal c = true) by (simpl in H; now apply andb_true_iff in H).
  rewrite (decimal_not_char c "-" Hc), (decimal_not_char c "+" Hc)
    by (vm_compute; left; reflexivity).
  rewrite int_body_digits; [reflexivity | assumption | now left].
Qed.

Lemma isdigit_number s : is_number s = true -> isdigit s = true.
Proof.
  unfold is_number, isdigit. intro H. apply andb_true_iff in H as [-> H].
  simpl. induction s as [|c r IH]; [reflexivity|].
  simpl in *. apply andb_true_iff in H as [Hc Hr].
  now rewrite (decimal_is_digit c Hc), IH.
Qed.

Lemma value_acc_zeros k s v :
  value_acc v (zeros k ++ s) = value_acc (v * 10 ^ N.of_nat k) s.
Proof.
  revert v; induction k as [|k IH]; intro v.
  - simpl. f_equal. lia.
  - change (zeros (S k) ++ s) with (String "0" (zeros k ++ s)).
    cbn [value_acc]. rewrite IH. f_equal.
    replace (N.of_nat (S k)) with (N.succ (N.of_nat k)) by lia.
    rewrite N.pow_succ_r'. change (digit_of_char "0") with 0%N. lia.
Qed.

Lemma forall_chars_zeros k : forall_chars is_decimal (zeros k) = true.
Proof. induction k; simpl; [reflexivity | assumption]. Qed.

Lemma length_zeros k : String.length (zeros k) = k.
Proof. induction k; simpl; [reflexivity | now f_equal]. Qed.

(** [zfill] on a string of digits pads with zeros and keeps the number. *)
Lemma zfill_number w d :
  is_number d = true ->
  zfill w d = zeros (w - String.length d) ++ d
  /\ is_number (zfill w d) = true
  /\ value (zfill w d) = value d
  /\ String.length (zfill w d) = Nat.max w (String.length d).
Proof.
  intro Hd.
  assert (E : zfill w d = zeros (w - String.length d) ++ d).
  { unfold zfill. destruct (Nat.leb_spec w (String.length d)) as [Hle|Hlt].
    - replace (w - String.length d) with 0 by lia. reflexivity.
    - unfold is_number in Hd. apply andb_true_iff in Hd as [Hne H].
      destruct d as [|c r]; [discriminate|].
      assert (Hc : is_decimal c = true) by (simpl in H; now apply andb_true_iff in H).
      rewrite (decimal_not_char c "-" Hc), (decimal_not_char c "+" Hc)
        by (vm_compute; left; reflexivity).
      reflexivity. }
  rewrite E. unfold is_number in *. apply andb_true_iff in Hd as [Hne H].
  repeat split.
  - rewrite forall_chars_append, forall_chars_zeros, H.
    destruct d; [discriminate|]. destruct (w - _); reflexivity.
  - unfold value. rewrite value_acc_zeros. reflexivity.
  - rewrite length_append, length_zeros. lia.
Qed.

Lemma strip_signed_digits d :
  forall_chars is_decimal d = true -> strip (String "-" d) = String "-" d.
Proof.
  intro H. unfold strip. cbn [lstrip].
  change (is_space "-") with false. cbn iota.
  cbn [rstrip]. rewrite (rstrip_digits d H).
  change (is_space "-") with false. reflexivity.
Qed.

(** Reading back what [str] prints gives the integer. *)
Lemma int_str (z : Z) : int (str z) = Some z.
Proof.
  destruct z as [|p|p]; cbn [str].
  - reflexivity.
  - destruct (str_of_N_spec (Z.to_N (Zpos p))) as [Hn Hv].
    rewrite (int_number _ Hn), Hv. f_equal.
  - destruct (str_of_N_spec (Npos p)) as [Hn Hv].
    unfold is_number in Hn. apply andb_true_iff in Hn as [Hne Hd].
    unfold int. rewrite (strip_signed_digits _ Hd).
    change (Ascii.eqb "-" "-") with true. cbn iota.
    rewrite int_body_digits; [|assumption|left; now apply negb_true_iff].
    fold (value (str_of_N (Npos p))). rewrite Hv. reflexivity.
Qed.

End PyStrFacts.

(** ** Owner numbering *)

Section OwnerNumber.
Import PyStr Eff Flasher.

Lemma str_succ_of_N (v : N) : str (Z.of_N v + 1) = str_of_N (v + 1).
Proof.
  replace (Z.of_N v + 1)%Z with (Z.of_N (v + 1)) by lia.
  destruct (v + 1)%N as [|p] eqn:E; [lia|]. reflexivity.
Qed.

Lemma number_length_pos s : is_number s = true -> Nat.ltb 0 (String.length s) = true.
Proof. destruct s; [discriminate | reflexivity]. Qed.

Lemma inc_number s :
  is_number s = true ->
  inc s = zfill (String.length s) (str (Z.of_N (value s) + 1)).
Proof.
  intro H. unfold inc.
  assert (Hs : strip s = s).
  { apply strip_digits. unfold is_number in H. now apply andb_true_iff in H. }
  rewrite Hs, (isdigit_number s H), (number_length_pos s H), (int_number s H).
  assert (Hne : is_empty s = false) by (destruct s; [discriminate | reflexivity]).
  rewrite Hne. cbn [negb andb]. now rewrite (number_length_pos s H).
Qed.

(** C3.  For every owner-number string (a non-empty string of decimal
    digits), the increment sets the field to its number plus one, written in
    decimal and zero-filled to the length of the original string; the
    operation does so for both the owner number and the short owner number;
    "01" becomes "02" and "9" becomes "10". *)
Theorem increment_owner_number_zero_fill :
  (forall s,
      is_number s = true ->
      inc s = zfill (String.length s) (str (Z.of_N (value s) + 1))
      /\ is_number (inc s) = true
      /\ value (inc s) = (value s + 1)%N
      /\ String.length (inc s)
         = Nat.max (String.length s) (String.length (str (Z.of_N (value s) + 1))))
  /\ (forall st,
         outcome (_increment_owner_number st)
         = inr (with_owner_nums st (inc (owner_num st)) (inc (owner_short_num st))))
  /\ inc "01" = "02"
  /\ inc "9" = "10".
Proof.
  split; [|split; [|split]]; try reflexivity.
  intros s H. rewrite (inc_number s H), str_succ_of_N.
  destruct (str_of_N_spec (value s + 1)) as [Hn Hv].
  destruct (zfill_number (String.length s) _ Hn) as (_ & H2 & H3 & H4).
  repeat split; try assumption. now rewrite H3.
Qed.

Lemma increment_owner_number_zero_fill_witness :
  is_number "0099" = true
  /\ inc "0099" = "0100"
  /\ value (inc "0099") = 100%N.
Proof.
  destruct (proj1 increment_owner_number_zero_fill "0099" eq_refl)
    as (H1 & _ & H3 & _).
  split; [reflexivity|]. split; [exact H1 | exact H3].
Defined.

End OwnerNumber.

(** ** The process runner *)

Section ProcessRunner.
Import PyStr Eff Flasher Ref.
Variable host : Host.

Lemma bind_unfold {A B} (m : M A) (k : A -> M B) :
  bind m k =
  match outcome m with
  | inl e => (inl e, trace m)
  | inr a => (outcome (k a), (trace m ++ trace (k a))%list)
  end.
Proof.
  destruct m as [[e|a] t]; simpl; [reflexivity|].
  destruct (k a); reflexivity.
Qed.

Lemma forward_byte_log_write (b : Byte.byte) :
  forward_byte log_write b = (inr tt, [LogWrite (shown b)]).
Proof.
  unfold forward_byte, decode1, shown, log_write, emit.
  destruct (N.ltb_spec (Byte.to_N b) 128) as [Hlt|Hge].
  - destruct (N.eqb (Byte.to_N b) 13); reflexivity.
  - destruct (N.eqb_spec (Byte.to_N b) 13) as [E|_]; [lia | reflexivity].
Qed.

Lemma forward_log_write (out : list Byte.byte) :
  forward log_write out = (inr tt, map (fun b => LogWrite (shown b)) out).
Proof.
  induction out as [|b rest IH]; [reflexivity|].
  cbn [forward]. rewrite forward_byte_log_write, IH. reflexivity.
Qed.

Lemma check_exit_cases (rc : Z) :
  check_exit rc =
  (if Z.eqb rc 0 then inr tt
   else inl (RuntimeError ("Command failed (exit " ++ str rc ++ ")")), []).
Proof. unfold check_exit. destruct (Z.eqb rc 0); reflexivity. Qed.

(** The runner on a command that starts. *)
Lemma run_cmd_stream_started (cmd : command) (p : process) :
  popen host cmd = inr p ->
  run_cmd_stream host cmd log_write =
  (if Z.eqb (returncode p) 0 then inr tt
   else inl (RuntimeError ("Command failed (exit " ++ str (returncode p) ++ ")")),
   (LogWrite (echo_line cmd) :: Popen cmd
      :: map (fun b => LogWrite (shown b)) (output p))%list).
Proof.
  intro Hp. unfold run_cmd_stream, start, output.
  destruct cmd; cbn [echo_line]; unfold log_write, emit; rewrite Hp;
    cbn [bind ret app];
    (destruct (stdout p) as [out|];
     [ rewrite forward_log_write, check_exit_cases; cbn [bind];
       rewrite app_nil_r; reflexivity
     | rewrite check_exit_cases; reflexivity ]).
Qed.

(** The runner on a command that cannot be started. *)
Lemma run_cmd_stream_not_started (cmd : command) (msg : string) :
  popen host cmd = inl msg ->
  run_cmd_stream host cmd log_write =
  (inl (OSError msg), [LogWrite (echo_line cmd); Popen cmd]).
Proof.
  intro Hp. unfold run_cmd_stream, start.
  destruct cmd; cbn [echo_line]; unfold log_write, emit; rewrite Hp; reflexivity.
Qed.

Lemma logged_map_log (l : list utext) : logged (map LogWrite l) = l.
Proof. induction l as [|x r IH]; simpl; [reflexivity | now rewrite IH]. Qed.

Lemma shown_ascii (b : Byte.byte) :
  (Byte.to_N b < 128)%N -> shown b = cr_to_lf b.
Proof.
  unfold shown, cr_to_lf. intro H.
  destruct (N.eqb (Byte.to_N b) 13); [reflexivity|].
  destruct (N.ltb_spec (Byte.to_N b) 128); [reflexivity | lia].
Qed.

Lemma no_side_effect_in_logs (l : list Byte.byte) :
  filter is_side_effect (map (fun b => LogWrite (shown b)) l) = [].
Proof. induction l as [|b r IH]; simpl; [reflexivity | exact IH]. Qed.

(** The side effects of the runner: the command is started, once. *)
Lemma run_cmd_stream_side_effects (cmd : command) :
  filter is_side_effect (trace (run_cmd_stream host cmd log_write)) = [Popen cmd].
Proof.
  destruct (popen host cmd) as [msg|p] eqn:Hp.
  - rewrite (run_cmd_stream_not_started cmd msg Hp). reflexivity.
  - rewrite (run_cmd_stream_started cmd p Hp).
    cbn [trace snd filter is_side_effect is_copy is_popen orb].
    now rewrite no_side_effect_in_logs.
Qed.

End ProcessRunner.




(** ** Validation *)

Section Validation.
Import PyStr Eff Flasher Ref.
Variable host : Host.

Lemma raise_if_bind {B} (bad : bool) (msg : string) (k : M B) :
  bind (raise_if bad msg) (fun _ => k) =
  if bad then (inl (RuntimeError msg), []) else k.
Proof.
  unfold raise_if. destruct bad; cbn [bind raise ret]; [reflexivity|].
  destruct k; reflexivity.
Qed.

(** Validation has no effect; it either raises a [RuntimeError] or passes. *)
Lemma validate_cases (st : App) :
  (exists msg, _validate_common host st = (inl (RuntimeError msg), []))
  \/ _validate_common host st = (inr tt, []).
Proof.
  unfold _validate_common. rewrite !raise_if_bind. unfold raise_if.
  repeat match goal with
         | |- context [if ?b then _ else _] => destruct b
         end;
    first [left; eexists; reflexivity | right; reflexivity].
Qed.

(** What a passed validation establishes. *)
Lemma validate_passed (st : App) :
  outcome (_validate_common host st) = inr tt ->
  is_empty (strip (firmware_path st)) = false
  /\ os_path_isfile host (strip (firmware_path st)) = true
  /\ (flash_method (MODE_DEFS (mode st)) = uf2_drive_method ->
      is_empty (strip (uf2_drive st)) = false)
  /\ is_empty (strip (owner_letters st)) = false
  /\ isdigit (strip (owner_num st)) = true
  /\ is_empty (strip (owner_short_letters st)) = false
  /\ isdigit (strip (owner_short_num st)) = true
  /\ (gps_mode (MODE_DEFS (mode st)) = gps_fixed ->
      float_parses host (strip (lat st)) = true
      /\ float_parses host (strip (lon st)) = true).
Proof.
  unfold _validate_common. rewrite !raise_if_bind. unfold raise_if.
  destruct (is_empty (strip (firmware_path st))) eqn:E1; [discriminate|].
  destruct (os_path_isfile host (strip (firmware_path st))) eqn:E2; [|discriminate].
  cbn [negb orb].
  destruct (is_uf2 (flash_method (MODE_DEFS (mode st)))
            && is_empty (strip (uf2_drive st))) eqn:E3; [discriminate|].
  destruct (is_empty (strip (owner_letters st))) eqn:E4; [discriminate|].
  destruct (isdigit (strip (owner_num st))) eqn:E5; [|discriminate].
  cbn [negb].
  destruct (is_empty (strip (owner_short_letters st))) eqn:E6; [discriminate|].
  destruct (isdigit (strip (owner_short_num st))) eqn:E7; [|discriminate].
  cbn [negb].
  destruct (is_fixed (gps_mode (MODE_DEFS (mode st)))
            && negb (float_parses host (strip (lat st))
                     && float_parses host (strip (lon st)))) eqn:E8;
    [discriminate|].
  intros _.
  split; [reflexivity|]. split; [reflexivity|]. split.
  { intro Hm. rewrite Hm in E3. exact E3. }
  split; [reflexivity|]. split; [reflexivity|].
  split; [reflexivity|]. split; [reflexivity|].
  intro Hg. rewrite Hg in E8. cbn [is_fixed andb] in E8.
  apply negb_false_iff, andb_true_iff in E8. exact E8.
Qed.

(** What makes validation fail, as far as flashing is concerned. *)
Lemma validate_rejects (st : App) :
  is_empty (strip (firmware_path st)) = true
  \/ os_path_isfile host (strip (firmware_path st)) = false
  \/ (flash_method (MODE_DEFS (mode st)) = uf2_drive_method
      /\ is_empty (strip (uf2_drive st)) = true) ->
  exists msg, _validate_common host st = (inl (RuntimeError msg), []).
Proof.
  intro H. destruct (validate_cases st) as [Hc|Hc]; [exact Hc|].
  exfalso.
  assert (Ho : outcome (_validate_common host st) = inr tt) by now rewrite Hc.
  destruct (validate_passed st Ho) as (H1 & H2 & H3 & _).
  destruct H as [H|[H|[Hm H]]]; try congruence.
  specialize (H3 Hm). congruence.
Qed.

End Validation.

(** ** Owner strings and the configuration command *)

Section ConfigCommand.
Import PyStr Eff Flasher Ref.

Lemma is_empty_append (a b : string) :
  is_empty b = false -> is_empty (a ++ b) = false.
Proof. destruct a; simpl; [trivial | reflexivity]. Qed.

Lemma ends_with_digit_digits (n : string) :
  isdigit n = true -> ends_with_digit n = true.
Proof.
  unfold isdigit. intro H. apply andb_true_iff in H as [Hne H].
  induction n as [|c r IH]; [discriminate|].
  simpl in H. apply andb_true_iff in H as [Hc Hr].
  cbn [ends_with_digit]. destruct r as [|c' r']; [exact Hc|].
  cbn [is_empty]. apply IH; [reflexivity | exact Hr].
Qed.

Lemma ends_with_digit_append (a n : string) :
  isdigit n = true -> ends_with_digit (a ++ n) = true.
Proof.
  intro H. induction a as [|c r IH]; [now apply ends_with_digit_digits|].
  change (String c r ++ n) with (String c (r ++ n)). cbn [ends_with_digit].
  rewrite is_empty_append; [exact IH|].
  unfold isdigit in H. apply andb_true_iff in H as [H _].
  now apply negb_true_iff.
Qed.

(** After validation, neither owner name can be mistaken for an option. *)
Lemma owner_strings_end_with_digit (host : Host) (st : App) :
  outcome (_validate_common host st) = inr tt ->
  ends_with_digit (fst (_build_owner_strings st)) = true
  /\ ends_with_digit (snd (_build_owner_strings st)) = true.
Proof.
  intro H. destruct (validate_passed host st H) as (_ & _ & _ & _ & H5 & _ & H7 & _).
  split; cbn [_build_owner_strings fst snd]; now apply ends_with_digit_append.
Qed.

Lemma not_flag (s flag : string) :
  ends_with_digit s = true -> ends_with_digit flag = false -> s <> flag.
Proof. intros H1 H2 E. subst. congruence. Qed.

(** C8, as it holds.  The owner long name and the owner short name are each
    the letters field followed, with no separator, by the numeric field, both
    fields taken without their leading and trailing white space; for fields
    that have none, they are the plain concatenation, and letters "MT" with
    number "01" give "MT01". *)
Theorem build_owner_strings_concat (st : App) :
  _build_owner_strings st
  = (strip (owner_letters st) ++ strip (owner_num st),
     strip (owner_short_letters st) ++ strip (owner_short_num st))
  /\ (strip (owner_letters st) = owner_letters st ->
      strip (owner_num st) = owner_num st ->
      fst (_build_owner_strings st) = owner_letters st ++ owner_num st)
  /\ (strip (owner_short_letters st) = owner_short_letters st ->
      strip (owner_short_num st) = owner_short_num st ->
      snd (_build_owner_strings st) = owner_short_letters st ++ owner_short_num st)
  /\ (owner_letters st = "MT" -> owner_num st = "01" ->
      fst (_build_owner_strings st) = "MT01")
  /\ (owner_short_letters st = "MT" -> owner_short_num st = "01" ->
      snd (_build_owner_strings st) = "MT01").
Proof.
  unfold _build_owner_strings. cbn [fst snd].
  split; [reflexivity|]. split; [|split; [|split]].
  - intros -> ->. reflexivity.
  - intros -> ->. reflexivity.
  - intros -> ->. reflexivity.
  - intros -> ->. reflexivity.
Qed.

Lemma build_owner_strings_concat_witness :
  _build_owner_strings rak_app = ("SNORR TEST01", "MT01")
  /\ snd (_build_owner_strings rak_app)
     = owner_short_letters rak_app ++ owner_short_num rak_app.
Proof.
  destruct (build_owner_strings_concat rak_app) as (H1 & _ & H3 & _ & H5).
  split; [exact H1|]. rewrite (H5 eq_refl eq_refl). reflexivity.
Defined.

(** C8, as stated, fails: a blank typed after the letters is dropped, so the
    short name is not the concatenation of the two fields. *)
Lemma build_owner_strings_drops_blanks :
  owner_short_letters rak_app_padded = "MT "
  /\ owner_short_num rak_app_padded = "01"
  /\ snd (_build_owner_strings rak_app_padded) = "MT01"
  /\ snd (_build_owner_strings rak_app_padded)
     <> owner_short_letters rak_app_padded ++ owner_short_num rak_app_padded.
Proof. repeat split. discriminate. Qed.

(** The side effects of the configure action: after a passed validation,
    and only then, the tool is started, once, with the command line built
    from the session. *)
Lemma configure_only_side_effects (host : Host) (st : App) :
  filter is_side_effect (trace (configure_only host st))
  = match outcome (_validate_common host st) with
    | inr _ => [Popen (Argv (_meshtastic_config_cmd st))]
    | inl _ => []
    end.
Proof.
  unfold configure_only, _do_configure.
  destruct (validate_cases host st) as [[msg Hc]|Hc]; rewrite Hc; [reflexivity|].
  set (cmd := Argv (_meshtastic_config_cmd st)).
  pose proof (run_cmd_stream_side_effects host cmd) as Hs.
  destruct (run_cmd_stream host cmd log_write) as [[e|[]] t];
    cbn [trace snd] in Hs;
    cbn [bind try_except ret log_write emit report_error outcome trace fst snd app];
    rewrite ?app_nil_r;
    cbn [filter is_side_effect is_copy is_popen orb];
    rewrite ?filter_app, Hs; reflexivity.
Qed.

(** The command line, token by token. *)
Lemma config_cmd_tokens (st : App) :
  _meshtastic_config_cmd st =
  List.app
   ["meshtastic";
    "--seturl"; SETURL_VALUE;
    "--set-owner"; strip (owner_letters st) ++ strip (owner_num st);
    "--set-owner-short";
    strip (owner_short_letters st) ++ strip (owner_short_num st);
    "--set"; "neighbor_info.update_interval"; "120";
    "--set"; "neighbor_info.transmit_over_lora"; "true";
    "--set"; "neighbor_info.enabled"; "true";
    "--set"; "device.role"; role (MODE_DEFS (mode st));
    "--set"; "device.rebroadcast_mode"; "ALL";
    "--set"; "lora.config_ok_to_mqtt"; "true"]
   (if is_fixed (gps_mode (MODE_DEFS (mode st)))
    then ["--set"; "position.fixed_position"; "true";
          "--setlat"; strip (lat st);
          "--setlon"; strip (lon st)]
    else ["--set"; "position.fixed_position"; "false"]).
Proof.
  unfold _meshtastic_config_cmd, _build_owner_strings.
  destruct (is_fixed (gps_mode (MODE_DEFS (mode st)))); reflexivity.
Qed.

(** C1, as it holds.  The configure action runs the command line built from
    the session, and only after a passed validation.  For a mode whose GPS
    mode is "fixed", the command ends with the fixed-position setting set to
    true, then [--setlat] and [--setlon], each followed by the text of its
    field without leading and trailing white space (the text itself when it
    has none).  For a mode whose GPS mode is "none" or "gps", the command
    ends with the fixed-position setting set to false, and, validation
    having passed, no token of the command is [--setlat] or [--setlon]. *)
Theorem config_cmd_position (st : App) :
  let cmd := _meshtastic_config_cmd st in
  (forall host c,
      In (Popen c) (trace (configure_only host st)) ->
      c = Argv cmd /\ outcome (_validate_common host st) = inr tt)
  /\
  (gps_mode (MODE_DEFS (mode st)) = gps_fixed ->
   skipn 25 cmd = ["--set"; "position.fixed_position"; "true";
                   "--setlat"; strip (lat st);
                   "--setlon"; strip (lon st)]
   /\ (strip (lat st) = lat st -> strip (lon st) = lon st ->
       skipn 25 cmd = ["--set"; "position.fixed_position"; "true";
                       "--setlat"; lat st; "--setlon"; lon st]))
  /\ (gps_mode (MODE_DEFS (mode st)) <> gps_fixed ->
      skipn 25 cmd = ["--set"; "position.fixed_position"; "false"]
      /\ forall host,
           outcome (_validate_common host st) = inr tt ->
           ~ In "--setlat" cmd /\ ~ In "--setlon" cmd).
Proof.
  intro cmd. subst cmd. split.
  { intros host c Hin.
    assert (Hf : In (Popen c) (filter is_side_effect (trace (configure_only host st))))
      by (apply filter_In; split; [exact Hin | reflexivity]).
    rewrite configure_only_side_effects in Hf.
    destruct (outcome (_validate_common host st)) as [e|[]]; [contradiction|].
    destruct Hf as [E|[]]. injection E as <-. split; reflexivity. }
  rewrite config_cmd_tokens. split.
  - intros ->. cbn [is_fixed skipn app]. split; [reflexivity|].
    intros -> ->. reflexivity.
  - intro Hg.
    assert (Hf : is_fixed (gps_mode (MODE_DEFS (mode st))) = false)
      by (destruct (gps_mode (MODE_DEFS (mode st))); [contradiction | reflexivity ..]).
    rewrite Hf. cbn [skipn app]. split; [reflexivity|].
    intros host Hv.
    destruct (owner_strings_end_with_digit host st Hv) as [Ho Hs].
    cbn [_build_owner_strings fst snd] in Ho, Hs.
    split; intro Hin; cbn [In] in Hin;
      repeat (destruct Hin as [Hin|Hin]; [try discriminate Hin|]);
      try contradiction;
      try (rewrite Hin in Ho; discriminate Ho);
      try (rewrite Hin in Hs; discriminate Hs);
      destruct (mode st); discriminate Hin.
Qed.

Lemma config_cmd_position_witness :
  skipn 25 (_meshtastic_config_cmd rak_app_padded)
  = ["--set"; "position.fixed_position"; "true";
     "--setlat"; "37.8651"; "--setlon"; "-119.5383"]
  /\ skipn 25 (_meshtastic_config_cmd rak_app)
     = ["--set"; "position.fixed_position"; "true";
        "--setlat"; lat rak_app; "--setlon"; lon rak_app]
  /\ skipn 25 (_meshtastic_config_cmd heltec_v4_app)
     = ["--set"; "position.fixed_position"; "false"]
  /\ ~ In "--setlat" (_meshtastic_config_cmd heltec_v4_app)
  /\ ~ In "--setlon" (_meshtastic_config_cmd heltec_app).
Proof.
  destruct (config_cmd_position rak_app_padded) as (_ & Hp & _).
  destruct (config_cmd_position rak_app) as (_ & Hr & _).
  destruct (config_cmd_position heltec_v4_app) as (_ & _ & H4).
  destruct (config_cmd_position heltec_app) as (_ & _ & H3).
  destruct (Hp eq_refl) as [Hp1 _].
  destruct (Hr eq_refl) as [_ Hr2].
  destruct H4 as [H41 H42]; [discriminate|].
  destruct H3 as [_ H32]; [discriminate|].
  split; [exact Hp1|]. split; [exact (Hr2 eq_refl eq_refl)|].
  split; [exact H41|].
  split; [exact (proj1 (H42 sample_host eq_refl)) | exact (proj2 (H32 sample_host eq_refl))].
Defined.

(** C1, as stated, fails: the latitude typed with a leading blank passes
    validation, and the command carries it without the blank; the text typed
    is no token of the command. *)
Lemma config_cmd_trims_coordinates :
  gps_mode (MODE_DEFS (mode rak_app_padded)) = gps_fixed
  /\ outcome (_validate_common sample_host rak_app_padded) = inr tt
  /\ lat rak_app_padded = " 37.8651"
  /\ skipn 25 (_meshtastic_config_cmd rak_app_padded)
     = ["--set"; "position.fixed_position"; "true";
        "--setlat"; "37.8651"; "--setlon"; "-119.5383"]
  /\ ~ In (lat rak_app_padded) (_meshtastic_config_cmd rak_app_padded).
Proof.
  repeat split. cbn. intro H.
  repeat (destruct H as [H|H]; [discriminate H|]). exact H.
Qed.

(** C6, as it holds.  For every mode the command line is the tool name, the
    provisioning URL, the owner long and short names, the three
    neighbour-information settings, the device role of the mode definition,
    the rebroadcast mode and the MQTT permission, in this order, followed by
    the position handling; the settings that do not depend on the mode or on
    the input are five. *)
Theorem config_cmd_shape (st : App) :
  let cmd := _meshtastic_config_cmd st in
  firstn 25 cmd =
    ["meshtastic";
     "--seturl"; SETURL_VALUE;
     "--set-owner"; fst (_build_owner_strings st);
     "--set-owner-short"; snd (_build_owner_strings st);
     "--set"; "neighbor_info.update_interval"; "120";
     "--set"; "neighbor_info.transmit_over_lora"; "true";
     "--set"; "neighbor_info.enabled"; "true";
     "--set"; "device.role"; role (MODE_DEFS (mode st));
     "--set"; "device.rebroadcast_mode"; "ALL";
     "--set"; "lora.config_ok_to_mqtt"; "true"]
  /\ skipn 25 cmd =
       (if is_fixed (gps_mode (MODE_DEFS (mode st)))
        then ["--set"; "position.fixed_position"; "true";
              "--setlat"; strip (lat st); "--setlon"; strip (lon st)]
        else ["--set"; "position.fixed_position"; "false"])
  /\ (forall host,
        outcome (_validate_common host st) = inr tt ->
        set_pairs (firstn 25 cmd) =
          [("neighbor_info.update_interval", "120");
           ("neighbor_info.transmit_over_lora", "true");
           ("neighbor_info.enabled", "true");
           ("device.role", role (MODE_DEFS (mode st)));
           ("device.rebroadcast_mode", "ALL");
           ("lora.config_ok_to_mqtt", "true")]
        /\ fixed_settings (firstn 25 cmd) =
          [("neighbor_info.update_interval", "120");
           ("neighbor_info.transmit_over_lora", "true");
           ("neighbor_info.enabled", "true");
           ("device.rebroadcast_mode", "ALL");
           ("lora.config_ok_to_mqtt", "true")]).
Proof.
  intro cmd. subst cmd. rewrite config_cmd_tokens.
  cbn [firstn skipn app _build_owner_strings fst snd].
  split; [reflexivity|]. split; [reflexivity|].
  intros host Hv.
  destruct (owner_strings_end_with_digit host st Hv) as [Ho Hs].
  cbn [_build_owner_strings fst snd] in Ho, Hs.
  assert (E1 : String.eqb (strip (owner_letters st) ++ strip (owner_num st)) "--set" = false).
  { apply String.eqb_neq. now apply not_flag. }
  assert (E2 : String.eqb (strip (owner_short_letters st) ++ strip (owner_short_num st)) "--set" = false).
  { apply String.eqb_neq. now apply not_flag. }
  assert (E : set_pairs
                ["meshtastic";
                 "--seturl"; SETURL_VALUE;
                 "--set-owner"; strip (owner_letters st) ++ strip (owner_num st);
                 "--set-owner-short";
                 strip (owner_short_letters st) ++ strip (owner_short_num st);
                 "--set"; "neighbor_info.update_interval"; "120";
                 "--set"; "neighbor_info.transmit_over_lora"; "true";
                 "--set"; "neighbor_info.enabled"; "true";
                 "--set"; "device.role"; role (MODE_DEFS (mode st));
                 "--set"; "device.rebroadcast_mode"; "ALL";
                 "--set"; "lora.config_ok_to_mqtt"; "true"]
              = [("neighbor_info.update_interval", "120");
                 ("neighbor_info.transmit_over_lora", "true");
                 ("neighbor_info.enabled", "true");
                 ("device.role", role (MODE_DEFS (mode st)));
                 ("device.rebroadcast_mode", "ALL");
                 ("lora.config_ok_to_mqtt", "true")]).
  { cbn [set_pairs]. rewrite E1, E2. reflexivity. }
  split; [exact E|]. unfold fixed_settings. rewrite E. reflexivity.
Qed.

Lemma config_cmd_shape_witness :
  fixed_settings (firstn 25 (_meshtastic_config_cmd heltec_app))
  = [("neighbor_info.update_interval", "120");
     ("neighbor_info.transmit_over_lora", "true");
     ("neighbor_info.enabled", "true");
     ("device.rebroadcast_mode", "ALL");
     ("lora.config_ok_to_mqtt", "true")].
Proof.
  destruct (config_cmd_shape heltec_app) as (_ & _ & H).
  exact (proj2 (H sample_host eq_refl)).
Defined.

(** C6, as stated, fails: the command of the Heltec V3 mode carries five
    settings that are the same for every mode and input, not two. *)
Lemma config_cmd_has_five_fixed_settings :
  List.length (fixed_settings (_meshtastic_config_cmd heltec_app)) = 5
  /\ List.length (fixed_settings (_meshtastic_config_cmd heltec_app)) <> 2.
Proof. split; [reflexivity | discriminate]. Qed.

End ConfigCommand.

(** ** UF2 copy *)

Section Uf2Copy.
Import PyStr Eff Flasher Ref.

Lemma lower_append (a b : string) : lower (a ++ b) = lower a ++ lower b.
Proof. induction a as [|c r IH]; simpl; [reflexivity | now rewrite IH]. Qed.

Lemma substring_all (b : string) : substring 0 (String.length b) b = b.
Proof. induction b as [|c r IH]; simpl; [reflexivity | now rewrite IH]. Qed.

Lemma substring_skip (a b : string) :
  substring (String.length a) (String.length b) (a ++ b) = b.
Proof.
  induction a as [|c r IH]; [apply substring_all|].
  cbn [String.length append substring]. exact IH.
Qed.

Lemma endswith_append (a b : string) : endswith (a ++ b) b = true.
Proof.
  unfold endswith. rewrite length_append.
  replace (String.length a + String.length b - String.length b)
    with (String.length a) by lia.
  rewrite substring_skip, String.eqb_refl.
  rewrite andb_true_r. apply Nat.leb_le. lia.
Qed.

(** The extension check looks at the lower-cased path. *)
Lemma uf2_suffix_any_case (stem ext : string) :
  lower ext = ".uf2" -> endswith (lower (stem ++ ext)) ".uf2" = true.
Proof. intro H. rewrite lower_append, H. apply endswith_append. Qed.

Variable host : Host.

Lemma copy_no_file (src drive : string) (log_fn : utext -> M unit) :
  os_path_isfile host src = false ->
  copy_uf2_to_drive host src drive log_fn
  = (inl (RuntimeError "Firmware file not found."), []).
Proof. intro H. unfold copy_uf2_to_drive. rewrite H. reflexivity. Qed.

Lemma copy_wrong_extension (src drive : string) (log_fn : utext -> M unit) :
  os_path_isfile host src = true ->
  endswith (lower src) ".uf2" = false ->
  copy_uf2_to_drive host src drive log_fn
  = (inl (RuntimeError "UF2 flashing requires a .uf2 file."), []).
Proof. intros H1 H2. unfold copy_uf2_to_drive. rewrite H1, H2. reflexivity. Qed.

Lemma copy_no_drive (src drive : string) (log_fn : utext -> M unit) :
  os_path_isfile host src = true ->
  endswith (lower src) ".uf2" = true ->
  os_path_isdir host drive = false ->
  copy_uf2_to_drive host src drive log_fn
  = (inl (RuntimeError ("Drive not found: " ++ drive)), []).
Proof.
  intros H1 H2 H3. unfold copy_uf2_to_drive. rewrite H1, H2, H3. reflexivity.
Qed.

Lemma copy_checks_passed (src drive : string) :
  os_path_isfile host src = true ->
  endswith (lower src) ".uf2" = true ->
  os_path_isdir host drive = true ->
  let dest := os_path_join host drive (os_path_basename host src) in
  copy_uf2_to_drive host src drive log_write
  = match shutil_copyfile host src dest with
    | Some msg =>
        (inl (OSError msg),
         [LogWrite (u ("Copying UF2 to " ++ dest ++ nl)); CopyFile src dest])
    | None =>
        (inr tt,
         [LogWrite (u ("Copying UF2 to " ++ dest ++ nl)); CopyFile src dest;
          LogWrite (u ("Copy complete. Device may reboot." ++ nl))])
    end.
Proof.
  intros H1 H2 H3 dest. unfold copy_uf2_to_drive, copyfile, log_write, emit.
  rewrite H1, H2, H3. cbn [negb]. fold dest.
  destruct (shutil_copyfile host src dest); reflexivity.
Qed.

End Uf2Copy.

(** C4.  The UF2 copy raises an explicit error, with no copy and no other
    effect, when the firmware path is not an existing file, when it does not
    end in the .uf2 extension, or when the drive root is not an existing
    directory; when the three checks pass, and only then, the file is copied,
    once, to the drive root under its own base name. *)
Theorem copy_uf2_to_drive_checks (host : Flasher.Host) (src drive : string) :
  let dest := Flasher.os_path_join host drive (Flasher.os_path_basename host src) in
  let r := Flasher.copy_uf2_to_drive host src drive Flasher.log_write in
  (Flasher.os_path_isfile host src = false ->
   forall log_fn,
     Flasher.copy_uf2_to_drive host src drive log_fn
     = (inl (Eff.RuntimeError "Firmware file not found."), []))
  /\ (Flasher.os_path_isfile host src = true ->
      PyStr.endswith (PyStr.lower src) ".uf2" = false ->
      forall log_fn,
        Flasher.copy_uf2_to_drive host src drive log_fn
        = (inl (Eff.RuntimeError "UF2 flashing requires a .uf2 file."), []))
  /\ (Flasher.os_path_isfile host src = true ->
      PyStr.endswith (PyStr.lower src) ".uf2" = true ->
      Flasher.os_path_isdir host drive = false ->
      forall log_fn,
        Flasher.copy_uf2_to_drive host src drive log_fn
        = (inl (Eff.RuntimeError ("Drive not found: " ++ drive)), []))
  /\ (Flasher.os_path_isfile host src = true ->
      PyStr.endswith (PyStr.lower src) ".uf2" = true ->
      Flasher.os_path_isdir host drive = true ->
      filter Eff.is_copy (Eff.trace r) = [Eff.CopyFile src dest]
      /\ (Flasher.shutil_copyfile host src dest = None -> Eff.outcome r = inr tt))
  /\ (existsb Eff.is_copy (Eff.trace r) = true <->
      Flasher.os_path_isfile host src = true
      /\ PyStr.endswith (PyStr.lower src) ".uf2" = true
      /\ Flasher.os_path_isdir host drive = true).
Proof.
  intros dest r.
  split; [intros H log_fn; now apply copy_no_file|].
  split; [intros H1 H2 log_fn; now apply copy_wrong_extension|].
  split; [intros H1 H2 H3 log_fn; now apply copy_no_drive|].
  assert (Hok : Flasher.os_path_isfile host src = true ->
                PyStr.endswith (PyStr.lower src) ".uf2" = true ->
                Flasher.os_path_isdir host drive = true ->
                filter Eff.is_copy (Eff.trace r) = [Eff.CopyFile src dest]
                /\ (Flasher.shutil_copyfile host src dest = None ->
                    Eff.outcome r = inr tt)).
  { intros H1 H2 H3. subst r.
    rewrite (copy_checks_passed host src drive H1 H2 H3). fold dest.
    destruct (Flasher.shutil_copyfile host src dest); split;
      try reflexivity; discriminate. }
  split; [exact Hok|]. split.
  - intro Hc.
    destruct (Flasher.os_path_isfile host src) eqn:H1.
    2:{ subst r. rewrite (copy_no_file host src drive _ H1) in Hc. discriminate. }
    destruct (PyStr.endswith (PyStr.lower src) ".uf2") eqn:H2.
    2:{ subst r. rewrite (copy_wrong_extension host src drive _ H1 H2) in Hc.
        discriminate. }
    destruct (Flasher.os_path_isdir host drive) eqn:H3.
    2:{ subst r. rewrite (copy_no_drive host src drive _ H1 H2 H3) in Hc.
        discriminate. }
    repeat split.
  - intros (H1 & H2 & H3). destruct (Hok H1 H2 H3) as [Hf _].
    assert (Hin : In (Eff.CopyFile src dest) (filter Eff.is_copy (Eff.trace r)))
      by (rewrite Hf; now left).
    apply filter_In in Hin. apply existsb_exists.
    exists (Eff.CopyFile src dest). exact Hin.
Qed.

Lemma copy_uf2_to_drive_checks_witness :
  Flasher.copy_uf2_to_drive Ref.sample_host "C:\fw\notes.txt" "E:\" Flasher.log_write
  = (inl (Eff.RuntimeError "UF2 flashing requires a .uf2 file."), [])
  /\ Flasher.copy_uf2_to_drive Ref.sample_host "C:\fw\rak4631.uf2" "F:\" Flasher.log_write
     = (inl (Eff.RuntimeError "Drive not found: F:\"), [])
  /\ Flasher.copy_uf2_to_drive Ref.sample_host "C:\fw\missing.uf2" "E:\" Flasher.log_write
     = (inl (Eff.RuntimeError "Firmware file not found."), [])
  /\ filter Eff.is_copy
       (Eff.trace (Flasher.copy_uf2_to_drive Ref.sample_host "C:\fw\rak4631.uf2"
                     "E:\" Flasher.log_write))
     = [Eff.CopyFile "C:\fw\rak4631.uf2" "E:\rak4631.uf2"].
Proof.
  destruct (copy_uf2_to_drive_checks Ref.sample_host "C:\fw\notes.txt" "E:\")
    as (_ & Hext & _).
  destruct (copy_uf2_to_drive_checks Ref.sample_host "C:\fw\rak4631.uf2" "F:\")
    as (_ & _ & Hdrv & _).
  destruct (copy_uf2_to_drive_checks Ref.sample_host "C:\fw\missing.uf2" "E:\")
    as (Hfile & _).
  destruct (copy_uf2_to_drive_checks Ref.sample_host "C:\fw\rak4631.uf2" "E:\")
    as (_ & _ & _ & Hok & _).
  split; [exact (Hext eq_refl eq_refl _)|].
  split; [exact (Hdrv eq_refl eq_refl eq_refl _)|].
  split; [exact (Hfile eq_refl _)|].
  exact (proj1 (Hok eq_refl eq_refl eq_refl)).
Defined.

(** C10.  The extension check of the UF2 copy ignores case: a path whose
    suffix, lower-cased, is ".uf2" passes it, "FIRMWARE.UF2" for one; the
    extension error is raised exactly for the existing files whose
    lower-cased path does not end in ".uf2". *)
Theorem copy_uf2_extension_ignores_case :
  (forall stem ext,
      PyStr.lower ext = ".uf2" ->
      PyStr.endswith (PyStr.lower (stem ++ ext)) ".uf2" = true)
  /\ PyStr.endswith (PyStr.lower "FIRMWARE.UF2") ".uf2" = true
  /\ (forall (host : Flasher.Host) (src drive : string),
         Eff.outcome (Flasher.copy_uf2_to_drive host src drive Flasher.log_write)
         = inl (Eff.RuntimeError "UF2 flashing requires a .uf2 file.")
         <-> Flasher.os_path_isfile host src = true
             /\ PyStr.endswith (PyStr.lower src) ".uf2" = false).
Proof.
  split; [exact uf2_suffix_any_case|]. split; [reflexivity|].
  intros host src drive. split.
  - intro Ho.
    destruct (Flasher.os_path_isfile host src) eqn:H1.
    2:{ rewrite (copy_no_file host src drive _ H1) in Ho. discriminate. }
    destruct (PyStr.endswith (PyStr.lower src) ".uf2") eqn:H2; [|now split].
    exfalso.
    destruct (Flasher.os_path_isdir host drive) eqn:H3.
    + rewrite (copy_checks_passed host src drive H1 H2 H3) in Ho.
      destruct (Flasher.shutil_copyfile host src _); discriminate.
    + rewrite (copy_no_drive host src drive _ H1 H2 H3) in Ho. discriminate.
  - intros [H1 H2]. now rewrite (copy_wrong_extension host src drive _ H1 H2).
Qed.

Lemma copy_uf2_extension_ignores_case_witness :
  PyStr.endswith (PyStr.lower ("C:\fw\rak4631" ++ ".Uf2")) ".uf2" = true
  /\ Eff.outcome (Flasher.copy_uf2_to_drive Ref.sample_host "C:\fw\RAK4631.UF2"
                    "E:\" Flasher.log_write)
     <> inl (Eff.RuntimeError "UF2 flashing requires a .uf2 file.").
Proof.
  destruct copy_uf2_extension_ignores_case as (H1 & _ & H3).
  split; [exact (H1 "C:\fw\rak4631" ".Uf2" eq_refl)|].
  intro H. apply H3 in H. destruct H as [_ H]. discriminate H.
Defined.

(** ** The flash action *)

Section FlashAction.
Import PyStr Eff Flasher Ref.
Variable host : Host.

(** The action when validation raises: the error is logged and shown. *)
Lemma flash_only_rejected (st : App) (msg : string) :
  _validate_common host st = (inl (RuntimeError msg), []) ->
  flash_only host st
  = (inr tt, [LogWrite (u (nl ++ "ERROR: " ++ msg ++ nl)); ShowError "Error" msg]).
Proof. intro H. unfold flash_only. rewrite H. reflexivity. Qed.

(** The side effects of the esptool branch: the tool is started, once. *)
Lemma flash_only_esptool (st : App) :
  _validate_common host st = (inr tt, []) ->
  flash_method (MODE_DEFS (mode st)) = esptool_method ->
  filter is_side_effect (trace (flash_only host st))
  = [Popen (Argv ["esptool"; "--baud"; "115200"; "write-flash"; "0x00";
                  strip (firmware_path st)])].
Proof.
  intros Hv Hm. unfold flash_only, _do_flash. rewrite Hv, Hm.
  cbn [is_uf2].
  set (cmd := Argv ["esptool"; "--baud"; "115200"; "write-flash"; "0x00";
                    strip (firmware_path st)]).
  destruct (popen host cmd) as [msg|p] eqn:Hp.
  - rewrite (run_cmd_stream_not_started host cmd msg Hp). reflexivity.
  - rewrite (run_cmd_stream_started host cmd p Hp).
    destruct (Z.eqb (returncode p) 0);
      cbn [bind try_except ret log_write emit report_error trace snd app exn_str];
      rewrite ?app_nil_r;
      cbn [filter is_side_effect is_copy is_popen orb];
      rewrite ?filter_app, no_side_effect_in_logs; reflexivity.
Qed.

(** The side effects of the UF2 branch: one copy, when the copy's own checks
    pass, and nothing otherwise. *)
Lemma flash_only_uf2 (st : App) :
  _validate_common host st = (inr tt, []) ->
  flash_method (MODE_DEFS (mode st)) = uf2_drive_method ->
  let fw := strip (firmware_path st) in
  let drive := strip (uf2_drive st) in
  filter is_side_effect (trace (flash_only host st))
  = if endswith (lower fw) ".uf2" && os_path_isdir host drive
    then [CopyFile fw (os_path_join host drive (os_path_basename host fw))]
    else [].
Proof.
  intros Hv Hm fw drive.
  assert (Ho : outcome (_validate_common host st) = inr tt) by now rewrite Hv.
  destruct (validate_passed host st Ho) as (_ & Hfile & _).
  fold fw in Hfile.
  unfold flash_only, _do_flash. rewrite Hv, Hm. cbn [is_uf2]. fold fw drive.
  destruct (endswith (lower fw) ".uf2") eqn:H2.
  - destruct (os_path_isdir host drive) eqn:H3.
    + rewrite (copy_checks_passed host fw drive Hfile H2 H3).
      destruct (shutil_copyfile host fw _); reflexivity.
    + rewrite (copy_no_drive host fw drive _ Hfile H2 H3). reflexivity.
  - rewrite (copy_wrong_extension host fw drive _ Hfile H2). reflexivity.
Qed.

End FlashAction.

(** C5.  In the flash action the preconditions are validated first.  When
    validation raises, the action ends there: the error is written to the log
    and shown, and nothing is copied and no process is started.  Validation
    raises whenever the firmware path is empty or no existing file, or, for a
    UF2 mode, no drive is selected.  After a passed validation the action
    dispatches on the flash method: the esptool modes start the flashing
    tool once, the UF2 mode copies the file at most once. *)
Theorem flash_only_validates_first (host : Flasher.Host) (st : Flasher.App) :
  let fw := PyStr.strip (Flasher.firmware_path st) in
  let drive := PyStr.strip (Flasher.uf2_drive st) in
  let method := Flasher.flash_method (Flasher.MODE_DEFS (Flasher.mode st)) in
  let t := Eff.trace (Flasher.flash_only host st) in
  (forall e,
      Eff.outcome (Flasher._validate_common host st) = inl e ->
      t = [Eff.LogWrite (Eff.u (Flasher.nl ++ "ERROR: " ++ Eff.exn_str e ++ Flasher.nl));
           Eff.ShowError "Error" (Eff.exn_str e)]
      /\ filter Eff.is_side_effect t = [])
  /\ (PyStr.is_empty fw = true
      \/ Flasher.os_path_isfile host fw = false
      \/ (method = Flasher.uf2_drive_method /\ PyStr.is_empty drive = true) ->
      (exists msg,
          Eff.outcome (Flasher._validate_common host st) = inl (Eff.RuntimeError msg))
      /\ filter Eff.is_side_effect t = [])
  /\ (filter Eff.is_side_effect t <> [] ->
      Eff.outcome (Flasher._validate_common host st) = inr tt
      /\ PyStr.is_empty fw = false
      /\ Flasher.os_path_isfile host fw = true
      /\ (method = Flasher.uf2_drive_method -> PyStr.is_empty drive = false))
  /\ (Eff.outcome (Flasher._validate_common host st) = inr tt ->
      (method = Flasher.esptool_method ->
       filter Eff.is_side_effect t
       = [Eff.Popen (Eff.Argv ["esptool"; "--baud"; "115200"; "write-flash";
                               "0x00"; fw])])
      /\ (method = Flasher.uf2_drive_method ->
          filter Eff.is_side_effect t
          = if PyStr.endswith (PyStr.lower fw) ".uf2"
               && Flasher.os_path_isdir host drive
            then [Eff.CopyFile fw (Flasher.os_path_join host drive
                                     (Flasher.os_path_basename host fw))]
            else [])).
Proof.
  intros fw drive method t.
  assert (Hrej : forall e,
             Eff.outcome (Flasher._validate_common host st) = inl e ->
             t = [Eff.LogWrite (Eff.u (Flasher.nl ++ "ERROR: " ++ Eff.exn_str e
                                       ++ Flasher.nl));
                  Eff.ShowError "Error" (Eff.exn_str e)]
             /\ filter Eff.is_side_effect t = []).
  { intros e He. destruct (validate_cases host st) as [[msg Hc]|Hc];
      rewrite Hc in He; [|discriminate].
    injection He as <-. subst t.
    rewrite (flash_only_rejected host st msg Hc). split; reflexivity. }
  split; [exact Hrej|]. split; [|split].
  - intro Hbad. destruct (validate_rejects host st Hbad) as [msg Hc].
    split.
    + exists msg. now rewrite Hc.
    + apply (Hrej (Eff.RuntimeError msg)). now rewrite Hc.
  - intro Hside.
    destruct (validate_cases host st) as [[msg Hc]|Hc].
    + exfalso. apply Hside. apply (Hrej (Eff.RuntimeError msg)). now rewrite Hc.
    + assert (Ho : Eff.outcome (Flasher._validate_common host st) = inr tt)
        by now rewrite Hc.
      destruct (validate_passed host st Ho) as (H1 & H2 & H3 & _).
      repeat split; assumption.
  - intro Ho.
    destruct (validate_cases host st) as [[msg Hc]|Hc];
      [rewrite Hc in Ho; discriminate|].
    split; intro Hm.
    + now apply flash_only_esptool.
    + now apply flash_only_uf2.
Qed.

Lemma flash_only_validates_first_witness :
  Eff.trace (Flasher.flash_only Ref.sample_host
               (Flasher.with_owner_nums Ref.heltec_app "" "01"))
  = [Eff.LogWrite (Eff.u (Flasher.nl ++ "ERROR: Owner number must be digits (e.g. 01)."
                          ++ Flasher.nl));
     Eff.ShowError "Error" "Owner number must be digits (e.g. 01)."]
  /\ filter Eff.is_side_effect (Eff.trace (Flasher.flash_only Ref.sample_host Ref.heltec_app))
     = [Eff.Popen (Eff.Argv ["esptool"; "--baud"; "115200"; "write-flash"; "0x00";
                             "C:\fw\heltec_v3_client.bin"])]
  /\ filter Eff.is_side_effect (Eff.trace (Flasher.flash_only Ref.sample_host Ref.rak_app))
     = [Eff.CopyFile "C:\fw\rak4631.uf2" "E:\rak4631.uf2"].
Proof.
  destruct (flash_only_validates_first Ref.sample_host
              (Flasher.with_owner_nums Ref.heltec_app "" "01")) as (H1 & _).
  destruct (flash_only_validates_first Ref.sample_host Ref.heltec_app)
    as (_ & _ & _ & H4).
  destruct (flash_only_validates_first Ref.sample_host Ref.rak_app)
    as (_ & _ & _ & H5).
  split; [exact (proj1 (H1 _ eq_refl))|].
  split; [exact (proj1 (H4 eq_refl) eq_refl) | exact (proj2 (H5 eq_refl) eq_refl)].
Defined.

(** ** UF2 drive detection *)

Section DriveDetection.
Import PyStr Eff Flasher Ref.
Variable host : Host.

Lemma land_bit (m : Z) (i : nat) :
  negb (Z.eqb (Z.land m (Z.shiftl 1 (Z.of_nat i))) 0) = Z.testbit m (Z.of_nat i).
Proof.
  assert (Hi : (0 <= Z.of_nat i)%Z) by lia.
  rewrite Z.shiftl_1_l.
  destruct (Z.testbit m (Z.of_nat i)) eqn:Hb.
  - apply negb_true_iff, Z.eqb_neq. intro E.
    assert (Ht : Z.testbit (Z.land m (2 ^ Z.of_nat i)) (Z.of_nat i) = true).
    { rewrite Z.land_spec, Hb, Z.pow2_bits_true by exact Hi. reflexivity. }
    rewrite E, Z.bits_0 in Ht. discriminate.
  - apply negb_false_iff, Z.eqb_eq. apply Z.bits_inj'. intros n Hn.
    rewrite Z.land_spec, Z.bits_0, Z.pow2_bits_eqb by exact Hi.
    destruct (Z.eqb_spec (Z.of_nat i) n) as [<-|_].
    + now rewrite Hb.
    + apply andb_false_r.
Qed.

Lemma removable_from_filter (idxs : list nat) :
  forall drives,
    removable_from host idxs drives
    = (drives ++ map drive_name (filter (is_removable host) idxs))%list.
Proof.
  induction idxs as [|i rest IH]; intro drives; cbn [removable_from filter map].
  - now rewrite app_nil_r.
  - rewrite land_bit. unfold is_removable at 1.
    destruct (Z.testbit (GetLogicalDrives host) (Z.of_nat i)); cbn [andb].
    + destruct (Z.eqb (GetDriveTypeW host (drive_name i)) DRIVE_REMOVABLE).
      * rewrite IH, <- app_assoc. reflexivity.
      * apply IH.
    + apply IH.
Qed.

Lemma detect_step_found (d : string) (drives : list string) :
  detect_step host d drives
  = (inr (if marker_found host d then (drives ++ [d])%list else drives), []).
Proof.
  unfold detect_step, path_exists, marker_found.
  destruct (os_path_exists host (os_path_join host d "INFO_UF2.TXT")) as [m|[|]];
    try reflexivity.
  destruct (os_path_exists host (os_path_join host d "UF2INFO.TXT")) as [m|[|]];
    reflexivity.
Qed.

Lemma detect_loop_filter (ds : list string) :
  forall drives,
    detect_loop host ds drives
    = (inr (drives ++ filter (marker_found host) ds)%list, []).
Proof.
  induction ds as [|d rest IH]; intro drives; cbn [detect_loop filter].
  - now rewrite app_nil_r.
  - rewrite detect_step_found. cbn [bind]. rewrite IH.
    destruct (marker_found host d); [rewrite <- app_assoc|]; reflexivity.
Qed.

End DriveDetection.

(** C9.  Drive detection never raises and has no effect; it returns, in the
    order of the drive letters, exactly the volume roots of removable type on
    which a UF2 marker file is found, a drive whose query fails counting as
    one without the marker. *)
Theorem detect_uf2_drives_exact (host : Flasher.Host) :
  exists drives,
    Flasher.detect_uf2_drives host = (inr drives, [])
    /\ drives
       = filter (Ref.marker_found host)
           (map Flasher.drive_name (filter (Ref.is_removable host) (seq 0 26)))
    /\ (forall d,
           In d drives <->
           exists i,
             i < 26
             /\ d = Flasher.drive_name i
             /\ Z.testbit (Flasher.GetLogicalDrives host) (Z.of_nat i) = true
             /\ Flasher.GetDriveTypeW host d = Flasher.DRIVE_REMOVABLE
             /\ Ref.marker_found host d = true)
    /\ (forall d msg,
           Flasher.os_path_exists host
             (Flasher.os_path_join host d "INFO_UF2.TXT") = inl msg ->
           ~ In d drives).
Proof.
  eexists. split; [|split; [reflexivity|]].
  - unfold Flasher.detect_uf2_drives, Flasher.list_removable_drives_windows.
    rewrite removable_from_filter, detect_loop_filter. reflexivity.
  - split.
    + intro d. rewrite filter_In, in_map_iff. split.
      * intros [[i [Hd Hi]] Hm]. apply filter_In in Hi as [Hi Hr].
        apply in_seq in Hi. unfold Ref.is_removable in Hr.
        apply andb_true_iff in Hr as [Hb Ht]. apply Z.eqb_eq in Ht.
        exists i. subst d. repeat split; try assumption. lia.
      * intros (i & Hi & Hd & Hb & Ht & Hm). split; [|exact Hm].
        exists i. split; [now symmetry|]. apply filter_In. split.
        -- apply in_seq. lia.
        -- unfold Ref.is_removable. subst d. rewrite Hb, Ht. reflexivity.
    + intros d msg Hq Hin. apply filter_In in Hin as [_ Hm].
      unfold Ref.marker_found in Hm. rewrite Hq in Hm. discriminate.
Qed.

Lemma detect_uf2_drives_exact_witness :
  Flasher.detect_uf2_drives Ref.sample_host = (inr ["E:\"], []).
Proof.
  destruct (detect_uf2_drives_exact Ref.sample_host) as (drives & H & E & _).
  rewrite H, E. reflexivity.
Defined.

(** ** The GPS query *)

Section GpsPolling.
Import GpsQuery.
Variable double : Type.
Variable host : Host double.

Local Open Scope N_scope.

Lemma poll_time_step (k : nat) : poll_time host k + SLEEP_MS <= poll_time host (S k).
Proof. cbn [poll_time]. lia. Qed.

Lemma poll_time_mono (j k : nat) : (j <= k)%nat -> poll_time host j <= poll_time host k.
Proof.
  induction 1 as [|k _ IH]; [lia|].
  pose proof (poll_time_step k). lia.
Qed.

Lemma poll_loop_step (fuel k : nat) (now : N) (report : Z) (t : list event) :
  poll_loop host (S fuel) k now report t =
  if N.ltb now REPORT_WINDOW_MS then
    if got_fix (get_report host k)
    then Some (out_report (get_report host k), (t ++ [GetReport now])%list)
    else poll_loop host fuel (S k)
           (now + elapsed (get_report host k) + SLEEP_MS)
           (out_report (get_report host k))
           ((t ++ [GetReport now]) ++ [Sleep 1])%list
  else Some (report, t).
Proof. reflexivity. Qed.

Lemma poll_loop_done (fuel k : nat) (now : N) (report : Z) (t : list event) :
  REPORT_WINDOW_MS <= now ->
  poll_loop host fuel k now report t = Some (report, t).
Proof.
  intro H. destruct fuel; cbn [poll_loop];
    destruct (N.ltb_spec now REPORT_WINDOW_MS); (lia || reflexivity).
Qed.

(** Shape of what the loop appends to the trace: calls at the successive
    clock readings, inside the window, one sleep of a second between two
    calls. *)
Lemma poll_loop_trace (fuel : nat) :
  forall k report t rep t',
    poll_loop host fuel k (poll_time host k) report t = Some (rep, t') ->
    exists s n,
      t' = (t ++ s)%list
      /\ paced s = true
      /\ forallb in_window s = true
      /\ filter is_poll s = calls_from host k n
      /\ (n = 0%nat \/ poll_time host k + SLEEP_MS * N.of_nat n < REPORT_WINDOW_MS + SLEEP_MS)
      /\ (poll_time host k < REPORT_WINDOW_MS -> (1 <= n)%nat).
Proof.
  induction fuel as [|fuel IH]; intros k report t rep t' H.
  - cbn [poll_loop] in H.
    destruct (N.ltb_spec (poll_time host k) REPORT_WINDOW_MS) as [Hw|Hw];
      [discriminate|].
    injection H as _ <-. exists [], 0%nat. rewrite app_nil_r.
    repeat split; auto. intro Hlt. lia.
  - rewrite poll_loop_step in H.
    destruct (N.ltb_spec (poll_time host k) REPORT_WINDOW_MS) as [Hw|Hw].
    2:{ injection H as _ <-. exists [], 0%nat. rewrite app_nil_r.
        repeat split; auto. intro Hlt. lia. }
    destruct (got_fix (get_report host k)).
    + injection H as _ <-. exists [GetReport (poll_time host k)], 1%nat.
      repeat split.
      * cbn [forallb in_window]. apply andb_true_iff. split; [|reflexivity].
        now apply N.ltb_lt.
      * right. unfold SLEEP_MS in *. lia.
      * intros _. lia.
    + change (poll_time host k + elapsed (get_report host k) + SLEEP_MS)
        with (poll_time host (S k)) in H.
      destruct (IH _ _ _ _ _ H) as (s & n & Ht & Hp & Hw' & Hc & Hn & _).
      exists (GetReport (poll_time host k) :: Sleep 1 :: s), (S n).
      repeat split.
      * rewrite Ht, <- !app_assoc. reflexivity.
      * exact Hp.
      * cbn [forallb in_window]. rewrite Hw'.
        apply andb_true_iff. split; [now apply N.ltb_lt | reflexivity].
      * cbn [filter is_poll]. rewrite Hc. reflexivity.
      * right. pose proof (poll_time_step k). unfold SLEEP_MS in *.
        destruct Hn as [Hn|Hn]; [subst n|]; lia.
      * intros _. lia.
Qed.

(** With enough fuel the loop ends; under the COM rule it ends with NULL
    exactly when no call started inside the window returns a report, and
    otherwise with the report of the first such call. *)
Lemma poll_loop_result (Hcom : com_contract host) (fuel : nat) :
  forall k t,
    (forall j, (j < k)%nat -> got_fix (get_report host j) = false) ->
    REPORT_WINDOW_MS <= poll_time host k + SLEEP_MS * N.of_nat fuel ->
    exists rep t',
      poll_loop host fuel k (poll_time host k) 0%Z t = Some (rep, t')
      /\ ((rep = 0%Z /\ ~ fix_in_window host)
          \/ (rep <> 0%Z
              /\ exists j,
                  poll_time host j < REPORT_WINDOW_MS
                  /\ got_fix (get_report host j) = true
                  /\ (forall i, (i < j)%nat -> got_fix (get_report host i) = false)
                  /\ rep = out_report (get_report host j))).
Proof.
  induction fuel as [|fuel IH]; intros k t Hprev Hfuel.
  - assert (Hw : REPORT_WINDOW_MS <= poll_time host k) by lia.
    rewrite (poll_loop_done 0 k _ 0%Z t Hw). eexists _, _. split; [reflexivity|].
    left. split; [reflexivity|]. intros (j & Hj & Hg).
    destruct (Nat.lt_ge_cases j k) as [Hlt|Hge].
    + rewrite (Hprev j Hlt) in Hg. discriminate.
    + pose proof (poll_time_mono k j Hge). lia.
  - destruct (N.ltb_spec (poll_time host k) REPORT_WINDOW_MS) as [Hw|Hw].
    2:{ rewrite (poll_loop_done (S fuel) k _ 0%Z t Hw).
        eexists _, _. split; [reflexivity|].
        left. split; [reflexivity|]. intros (j & Hj & Hg).
        destruct (Nat.lt_ge_cases j k) as [Hlt|Hge].
        - rewrite (Hprev j Hlt) in Hg. discriminate.
        - pose proof (poll_time_mono k j Hge). lia. }
    rewrite poll_loop_step.
    destruct (N.ltb_spec (poll_time host k) REPORT_WINDOW_MS) as [_|Hw']; [|lia].
    destruct (got_fix (get_report host k)) eqn:Hg.
    + eexists _, _. split; [reflexivity|]. right. split.
      * unfold got_fix in Hg. apply andb_true_iff in Hg as [_ Hg].
        apply negb_true_iff, Z.eqb_neq in Hg. exact Hg.
      * exists k. repeat split; assumption.
    + assert (Hnull : out_report (get_report host k) = 0%Z).
      { unfold got_fix in Hg.
        destruct (Z.eqb_spec (hr (get_report host k)) 0) as [_|Hhr].
        - cbn [andb] in Hg. apply negb_false_iff, Z.eqb_eq in Hg. exact Hg.
        - now apply Hcom. }
      rewrite Hnull.
      change (poll_time host k + elapsed (get_report host k) + SLEEP_MS)
        with (poll_time host (S k)).
      apply IH.
      * intros j Hj. destruct (Nat.eq_dec j k) as [->|Hne]; [exact Hg|].
        apply Hprev. lia.
      * pose proof (poll_time_step k). unfold SLEEP_MS in *. lia.
Qed.

(** Without any assumption on the calls, enough fuel still ends the loop. *)
Lemma poll_loop_total (fuel : nat) :
  forall k report t,
    REPORT_WINDOW_MS <= poll_time host k + SLEEP_MS * N.of_nat fuel ->
    exists rep t', poll_loop host fuel k (poll_time host k) report t = Some (rep, t').
Proof.
  induction fuel as [|fuel IH]; intros k report t Hfuel.
  - rewrite poll_loop_done by lia. eauto.
  - rewrite poll_loop_step.
    destruct (N.ltb (poll_time host k) REPORT_WINDOW_MS); [|eauto].
    destruct (got_fix (get_report host k)); [eauto|].
    change (poll_time host k + elapsed (get_report host k) + SLEEP_MS)
      with (poll_time host (S k)).
    apply IH. pose proof (poll_time_step k). unfold SLEEP_MS in *. lia.
Qed.

End GpsPolling.


Lemma silent_service_follows_com : GpsQuery.com_contract GpsQuery.silent_service.
Proof. intros k _. reflexivity. Defined.


(** * Further properties of the flasher *)

(** ** Validation, exactly *)

Section ValidationExact.
Import PyStr Eff Flasher Obs.
Variable host : Host.

Lemma valid_passes (st : App) :
  valid host st = true -> _validate_common host st = (inr tt, []).
Proof.
  unfold valid. intro H.
  repeat (apply andb_true_iff in H; destruct H as [H ?]).
  unfold _validate_common. rewrite !raise_if_bind. unfold raise_if.
  apply negb_true_iff in H. rewrite H.
  match goal with Hf : os_path_isfile _ _ = true |- _ => rewrite Hf end.
  cbn [negb orb].
  assert (E3 : is_uf2 (flash_method (MODE_DEFS (mode st)))
               && is_empty (strip (uf2_drive st)) = false).
  { match goal with Hd : negb (is_uf2 _) || _ = true |- _ =>
      destruct (is_uf2 (flash_method (MODE_DEFS (mode st))));
      destruct (is_empty (strip (uf2_drive st))); try reflexivity; discriminate Hd
    end. }
  rewrite E3.
  repeat match goal with
         | Hn : negb ?b = true |- _ => apply negb_true_iff in Hn; rewrite Hn
         | Hd : isdigit ?x = true |- _ => rewrite Hd; clear Hd
         end.
  cbn [negb].
  match goal with Hg : negb (is_fixed _) || _ = true |- _ =>
    destruct (is_fixed (gps_mode (MODE_DEFS (mode st))));
    destruct (float_parses host (strip (lat st)) && float_parses host (strip (lon st)));
    try reflexivity; discriminate Hg
  end.
Qed.

Lemma passes_valid (st : App) :
  outcome (_validate_common host st) = inr tt -> valid host st = true.
Proof.
  intro H.
  destruct (validate_passed host st H) as (H1 & H2 & H3 & H4 & H5 & H6 & H7 & H8).
  unfold valid. rewrite H1, H2, H4, H5, H6, H7. cbn [negb andb].
  assert (E3 : negb (is_uf2 (flash_method (MODE_DEFS (mode st))))
               || negb (is_empty (strip (uf2_drive st))) = true).
  { destruct (flash_method (MODE_DEFS (mode st))) eqn:Em; [|reflexivity].
    now rewrite (H3 eq_refl). }
  rewrite E3. cbn [andb].
  destruct (gps_mode (MODE_DEFS (mode st))) eqn:Eg; try reflexivity.
  destruct (H8 eq_refl) as [-> ->]. reflexivity.
Qed.

Lemma valid_iff (st : App) :
  outcome (_validate_common host st) = inr tt <-> valid host st = true.
Proof.
  split; [apply passes_valid|]. intro H. now rewrite (valid_passes st H).
Qed.

Lemma invalid_raises (st : App) :
  valid host st = false ->
  exists msg, _validate_common host st = (inl (RuntimeError msg), []).
Proof.
  intro Hn. destruct (validate_cases host st) as [Hc|Hc]; [exact Hc|].
  assert (Hv : valid host st = true) by (apply passes_valid; now rewrite Hc).
  congruence.
Qed.

End ValidationExact.

(** X1.  Validation has no effect and raises nothing but [RuntimeError]; it
    passes exactly when the firmware path is set and names an existing file,
    a drive is set in a UF2 mode, both owner letter fields are set, both
    owner numbers are digits and, in the fixed-position mode only, latitude
    and longitude parse as numbers; a missing firmware file is reported
    before any other failure. *)
Theorem validate_common_exact (host : Flasher.Host) (st : Flasher.App) :
  Eff.trace (Flasher._validate_common host st) = []
  /\ (Eff.outcome (Flasher._validate_common host st) = inr tt
      <-> Obs.valid host st = true)
  /\ (Obs.valid host st = false ->
      exists msg,
        Eff.outcome (Flasher._validate_common host st) = inl (Eff.RuntimeError msg))
  /\ (PyStr.is_empty (PyStr.strip (Flasher.firmware_path st)) = true
      \/ Flasher.os_path_isfile host (PyStr.strip (Flasher.firmware_path st)) = false ->
      Eff.outcome (Flasher._validate_common host st)
      = inl (Eff.RuntimeError "Firmware file not set or not found.")).
Proof.
  split; [|split; [|split]].
  - destruct (validate_cases host st) as [[msg Hc]|Hc]; now rewrite Hc.
  - split; [apply passes_valid|]. intro H. now rewrite (valid_passes host st H).
  - intro Hn. destruct (validate_cases host st) as [[msg Hc]|Hc].
    + exists msg. now rewrite Hc.
    + assert (Hv : Obs.valid host st = true) by (apply passes_valid; now rewrite Hc).
      congruence.
  - intro H. unfold Flasher._validate_common. rewrite raise_if_bind.
    destruct H as [-> | ->]; [reflexivity|].
    rewrite orb_true_r. reflexivity.
Qed.

Lemma validate_common_exact_witness :
  Eff.outcome (Flasher._validate_common Ref.sample_host Ref.heltec_app) = inr tt
  /\ Eff.outcome (Flasher._validate_common Ref.sample_host
                    (Flasher.with_owner_nums Ref.rak_app "1a" "01"))
     <> inr tt
  /\ Eff.outcome (Flasher._validate_common Ref.sample_host
                    (Flasher.with_owner_nums Ref.heltec_app "01" ""))
     <> inr tt.
Proof.
  destruct (validate_common_exact Ref.sample_host Ref.heltec_app) as (_ & H1 & _).
  destruct (validate_common_exact Ref.sample_host
              (Flasher.with_owner_nums Ref.rak_app "1a" "01")) as (_ & _ & H2 & _).
  destruct (validate_common_exact Ref.sample_host
              (Flasher.with_owner_nums Ref.heltec_app "01" "")) as (_ & _ & H3 & _).
  split; [exact (proj2 H1 eq_refl)|]. split.
  - destruct (H2 eq_refl) as [msg Hm]. rewrite Hm. discriminate.
  - destruct (H3 eq_refl) as [msg Hm]. rewrite Hm. discriminate.
Defined.

(** ** Actions that run a tool *)

Section ToolActions.
Import PyStr Eff Flasher Ref Obs.
Variable host : Host.

Lemma run_cmd_stream_cases (cmd : command) :
  run_cmd_stream host cmd log_write
  = (match run_error host cmd with Some e => inl e | None => inr tt end,
     runner_events host cmd).
Proof.
  unfold run_error, runner_events.
  destruct (popen host cmd) as [msg|p] eqn:Hp.
  - now rewrite (run_cmd_stream_not_started host cmd msg Hp).
  - rewrite (run_cmd_stream_started host cmd p Hp).
    destruct (Z.eqb (returncode p) 0); reflexivity.
Qed.

Lemma tool_action_trace (st : App) (announce : utext) (cmd : command) (done : utext) :
  tool_action host st announce cmd done
  = (inr tt,
     match outcome (_validate_common host st) with
     | inl e => error_report e
     | inr _ =>
         (LogWrite (mode_line st) :: LogWrite announce :: runner_events host cmd
          ++ match run_error host cmd with
             | Some e => error_report e
             | None => [LogWrite done]
             end)%list
     end).
Proof.
  unfold tool_action.
  destruct (validate_cases host st) as [[msg Hc]|Hc]; rewrite Hc; [reflexivity|].
  rewrite run_cmd_stream_cases.
  destruct (run_error host cmd) as [e|];
    cbn [bind try_except ret log_write emit report_error outcome fst snd app error_report];
    rewrite ?app_nil_r; reflexivity.
Qed.

Lemma dialogs_of_runner (cmd : command) : filter is_dialog (runner_events host cmd) = [].
Proof.
  unfold runner_events. cbn [filter is_dialog].
  destruct (popen host cmd) as [msg|p]; [reflexivity|].
  induction (output p) as [|b r IH]; [reflexivity | exact IH].
Qed.

Lemma done_not_in_runner (cmd : command) (done : utext) :
  1 < List.length done ->
  done <> echo_line cmd ->
  ~ In (LogWrite done) (runner_events host cmd).
Proof.
  intros Hlen Hecho [H|[H|H]].
  - injection H as H. congruence.
  - discriminate H.
  - destruct (popen host cmd) as [msg|p]; [exact H|].
    apply in_map_iff in H as (b & Hb & _). injection Hb as Hb. subst done.
    unfold shown in Hlen.
    destruct (N.eqb (Byte.to_N b) 13); [cbn in Hlen; lia|].
    destruct (N.ltb (Byte.to_N b) 128); cbn in Hlen; lia.
Qed.

(** How a tool action ends: with its confirmation and no dialog when nothing
    was raised, with the error line and one dialog, and no confirmation,
    when validation, the start of the tool or its exit code raised. *)
Lemma tool_action_end (st : App) (announce : utext) (cmd : command) (done : utext) :
  1 < List.length done ->
  done <> mode_line st ->
  done <> announce ->
  done <> echo_line cmd ->
  (forall e, done <> u (nl ++ "ERROR: " ++ exn_str e ++ nl)) ->
  let r := tool_action host st announce cmd done in
  outcome r = inr tt
  /\ match action_error host st cmd with
     | None =>
         (exists t0, trace r = (t0 ++ [LogWrite done])%list)
         /\ filter is_dialog (trace r) = []
     | Some e =>
         (exists t0, trace r = (t0 ++ error_report e)%list)
         /\ filter is_dialog (trace r) = [ShowError "Error" (exn_str e)]
         /\ ~ In (LogWrite done) (trace r)
     end.
Proof.
  intros Hlen Hmode Hann Hecho Herr r. subst r.
  rewrite tool_action_trace. cbn [outcome trace fst snd].
  split; [reflexivity|]. unfold action_error.
  destruct (outcome (_validate_common host st)) as [e|[]].
  - split; [exists []; reflexivity|]. split; [reflexivity|].
    intros [H|[H|[]]]; [|discriminate H].
    injection H as H. symmetry in H. exact (Herr e H).
  - destruct (run_error host cmd) as [e|].
    + split.
      * exists (LogWrite (mode_line st) :: LogWrite announce :: runner_events host cmd)%list.
        reflexivity.
      * split.
        -- cbn [filter is_dialog]. rewrite filter_app, dialogs_of_runner. reflexivity.
        -- intros [H|[H|H]].
           ++ injection H as H. congruence.
           ++ injection H as H. congruence.
           ++ apply in_app_or in H as [H|[H|[H|[]]]].
              ** exact (done_not_in_runner cmd done Hlen Hecho H).
              ** injection H as H. symmetry in H. exact (Herr e H).
              ** discriminate H.
    + split.
      * exists (LogWrite (mode_line st) :: LogWrite announce :: runner_events host cmd)%list.
        reflexivity.
      * cbn [filter is_dialog]. rewrite filter_app, dialogs_of_runner. reflexivity.
Qed.

Lemma error_line_head (e : exn) :
  exists rest, u (nl ++ "ERROR: " ++ exn_str e ++ nl) = (10 :: 69 :: 82 :: rest)%N.
Proof. eexists. reflexivity. Qed.

Lemma mode_line_head (st : App) : exists rest, mode_line st = (77 :: rest)%N.
Proof. eexists. reflexivity. Qed.

Lemma echo_line_head (cmd : command) : exists rest, echo_line cmd = (36 :: rest)%N.
Proof. destruct cmd; eexists; reflexivity. Qed.

End ToolActions.

Ltac confirm_distinct host :=
  match goal with
  | |- _ < _ => cbn; lia
  | |- _ <> Flasher.mode_line ?st =>
      let H := fresh in
      intro H; destruct (mode_line_head st) as [? E]; rewrite E in H; discriminate H
  | |- _ <> Ref.echo_line ?cmd =>
      let H := fresh in
      intro H; destruct (echo_line_head cmd) as [? E]; rewrite E in H; discriminate H
  | |- forall e, _ <> _ =>
      let e := fresh in let H := fresh in
      intros e H; destruct (error_line_head e) as [? E]; rewrite E in H; discriminate H
  | |- _ <> _ => discriminate
  end.

(** X2.  The configure action never lets an exception out.  When validation
    passes, the tool starts and exits with zero, the log ends with the
    confirmation line and no dialog is shown; otherwise the first failure
    (validation, start of the tool, non-zero exit) is written to the log as
    the last line and shown in exactly one dialog, and the confirmation line
    is not logged. *)
Theorem configure_only_ends (host : Flasher.Host) (st : Flasher.App) :
  let cmd := Eff.Argv (Flasher._meshtastic_config_cmd st) in
  let done := Eff.u (Flasher.nl ++ "Configuration complete." ++ Flasher.nl) in
  let r := Flasher.configure_only host st in
  Eff.outcome r = inr tt
  /\ (Obs.action_error host st cmd = None ->
      (exists t0, Eff.trace r = (t0 ++ [Eff.LogWrite done])%list)
      /\ filter Obs.is_dialog (Eff.trace r) = [])
  /\ (forall e,
         Obs.action_error host st cmd = Some e ->
         (exists t0, Eff.trace r = (t0 ++ Obs.error_report e)%list)
         /\ filter Obs.is_dialog (Eff.trace r) = [Eff.ShowError "Error" (Eff.exn_str e)]
         /\ ~ In (Eff.LogWrite done) (Eff.trace r))
  /\ (Obs.action_error host st cmd = None <->
      Obs.valid host st = true
      /\ exists p, Flasher.popen host cmd = inr p /\ Flasher.returncode p = 0%Z).
Proof.
  intros cmd done r.
  assert (H : Eff.outcome r = inr tt
              /\ match Obs.action_error host st cmd with
                 | None =>
                     (exists t0, Eff.trace r = (t0 ++ [Eff.LogWrite done])%list)
                     /\ filter Obs.is_dialog (Eff.trace r) = []
                 | Some e =>
                     (exists t0, Eff.trace r = (t0 ++ Obs.error_report e)%list)
                     /\ filter Obs.is_dialog (Eff.trace r)
                        = [Eff.ShowError "Error" (Eff.exn_str e)]
                     /\ ~ In (Eff.LogWrite done) (Eff.trace r)
                 end).
  { apply (tool_action_end host st
             (Eff.u ("Configuring via Meshtastic CLI..." ++ Flasher.nl)) cmd done);
      confirm_distinct host. }
  destruct H as [Ho He]. split; [exact Ho|].
  split; [intro E; now rewrite E in He|].
  split; [intros e E; now rewrite E in He|].
  unfold Obs.action_error, Obs.run_error.
  pose proof (valid_iff host st) as Hv.
  destruct (Eff.outcome (Flasher._validate_common host st)) as [e|[]] eqn:Eo.
  - split; [discriminate|]. intros [Hvalid _]. apply Hv in Hvalid. discriminate.
  - destruct (Flasher.popen host cmd) as [msg|p].
    + split; [discriminate|]. intros [_ [p [Hp _]]]. discriminate.
    + destruct (Z.eqb_spec (Flasher.returncode p) 0) as [Hz|Hz].
      * split; [|reflexivity]. intros _. split; [now apply Hv|].
        exists p. now split.
      * split; [discriminate|]. intros [_ [p' [Hp Hr]]].
        injection Hp as <-. contradiction.
Qed.

Lemma configure_only_ends_witness :
  filter Obs.is_dialog (Eff.trace (Flasher.configure_only Ref.sample_host Ref.rak_app)) = []
  /\ filter Obs.is_dialog
       (Eff.trace (Flasher.configure_only (Ref.host_running Ref.failing_process)
                     Ref.rak_app))
     = [Eff.ShowError "Error" "Command failed (exit 2)"].
Proof.
  destruct (configure_only_ends Ref.sample_host Ref.rak_app) as (_ & H1 & _).
  destruct (configure_only_ends (Ref.host_running Ref.failing_process) Ref.rak_app)
    as (_ & _ & H2 & _).
  split; [exact (proj2 (H1 eq_refl))|].
  exact (proj1 (proj2 (H2 _ eq_refl))).
Defined.

(** X3.  The erase action refuses a UF2 mode before anything else: the
    refusal is logged and shown, whatever the fields hold, and nothing is
    started.  In an esptool mode it validates the fields as the other
    actions do and then runs [esptool erase-flash]: the tool is started
    exactly when validation passes, and the log ends with the confirmation
    line, without dialog, exactly when the tool also starts and exits with
    zero. *)
Theorem erase_flash_ends (host : Flasher.Host) (st : Flasher.App) :
  let cmd := Eff.Argv ["esptool"; "erase-flash"] in
  let done := Eff.u (Flasher.nl ++ "Erase complete." ++ Flasher.nl) in
  let r := Flasher.erase_flash host st in
  Eff.outcome r = inr tt
  /\ (Flasher.flash_method (Flasher.MODE_DEFS (Flasher.mode st))
      = Flasher.uf2_drive_method ->
      Eff.trace r
      = Obs.error_report
          (Eff.RuntimeError "Erase is only available for Heltec (esptool) modes."))
  /\ (Flasher.flash_method (Flasher.MODE_DEFS (Flasher.mode st))
      = Flasher.esptool_method ->
      filter Eff.is_side_effect (Eff.trace r)
      = (if Obs.valid host st then [Eff.Popen cmd] else [])
      /\ (Obs.action_error host st cmd = None ->
          (exists t0, Eff.trace r = (t0 ++ [Eff.LogWrite done])%list)
          /\ filter Obs.is_dialog (Eff.trace r) = [])
      /\ (forall e,
             Obs.action_error host st cmd = Some e ->
             (exists t0, Eff.trace r = (t0 ++ Obs.error_report e)%list)
             /\ filter Obs.is_dialog (Eff.trace r)
                = [Eff.ShowError "Error" (Eff.exn_str e)]
             /\ ~ In (Eff.LogWrite done) (Eff.trace r))).
Proof.
  intros cmd done r.
  destruct (Flasher.flash_method (Flasher.MODE_DEFS (Flasher.mode st))) eqn:Em.
  - subst r. unfold Flasher.erase_flash. rewrite Em. cbn [Flasher.is_esptool negb].
    split; [reflexivity|]. split; [reflexivity | discriminate].
  - assert (Er : r = Obs.tool_action host st
                       (Eff.u ("Erasing flash (esptool erase-flash)..." ++ Flasher.nl))
                       cmd done).
    { subst r. unfold Flasher.erase_flash, Obs.tool_action, Flasher._do_erase.
      rewrite Em. cbn [Flasher.is_esptool negb]. rewrite raise_if_bind. reflexivity. }
    assert (H : Eff.outcome r = inr tt
                /\ match Obs.action_error host st cmd with
                   | None =>
                       (exists t0, Eff.trace r = (t0 ++ [Eff.LogWrite done])%list)
                       /\ filter Obs.is_dialog (Eff.trace r) = []
                   | Some e =>
                       (exists t0, Eff.trace r = (t0 ++ Obs.error_report e)%list)
                       /\ filter Obs.is_dialog (Eff.trace r)
                          = [Eff.ShowError "Error" (Eff.exn_str e)]
                       /\ ~ In (Eff.LogWrite done) (Eff.trace r)
                   end).
    { rewrite Er. apply tool_action_end; confirm_distinct host. }
    destruct H as [Ho He]. split; [exact Ho|]. split; [discriminate|].
    intros _. split; [|split].
    + rewrite Er, tool_action_trace. cbn [Eff.trace snd].
      destruct (Obs.valid host st) eqn:Ev.
      * rewrite (proj2 (valid_iff host st) Ev).
        cbn [filter Eff.is_side_effect Eff.is_copy Eff.is_popen orb].
        rewrite filter_app.
        assert (Hr : filter Eff.is_side_effect (Obs.runner_events host cmd)
                     = [Eff.Popen cmd]).
        { rewrite <- (run_cmd_stream_side_effects host cmd).
          now rewrite run_cmd_stream_cases. }
        rewrite Hr. destruct (Obs.run_error host cmd); reflexivity.
      * destruct (invalid_raises host st Ev) as [msg Hm]. rewrite Hm. reflexivity.
    + intro E. now rewrite E in He.
    + intros e E. now rewrite E in He.
Qed.

Lemma erase_flash_ends_witness :
  Eff.trace (Flasher.erase_flash Ref.sample_host Ref.rak_app)
  = Obs.error_report
      (Eff.RuntimeError "Erase is only available for Heltec (esptool) modes.")
  /\ filter Eff.is_side_effect (Eff.trace (Flasher.erase_flash Ref.sample_host Ref.heltec_app))
     = [Eff.Popen (Eff.Argv ["esptool"; "erase-flash"])].
Proof.
  destruct (erase_flash_ends Ref.sample_host Ref.rak_app) as (_ & H1 & _).
  destruct (erase_flash_ends Ref.sample_host Ref.heltec_app) as (_ & _ & H2).
  split; [exact (H1 eq_refl) | exact (proj1 (H2 eq_refl))].
Defined.

(** X4.  In an esptool mode the flash action runs
    [esptool --baud 115200 write-flash 0x00 <firmware>]; the log ends with
    the line "Flash done." and no dialog exactly when validation passes and
    the tool starts and exits with zero; otherwise the first failure is the
    last log line and is shown in exactly one dialog, and "Flash done." is
    not logged. *)
Theorem flash_only_esptool_ends (host : Flasher.Host) (st : Flasher.App) :
  Flasher.flash_method (Flasher.MODE_DEFS (Flasher.mode st)) = Flasher.esptool_method ->
  let cmd := Eff.Argv ["esptool"; "--baud"; "115200"; "write-flash"; "0x00";
                        PyStr.strip (Flasher.firmware_path st)] in
  let done := Eff.u (Flasher.nl ++ "Flash done." ++ Flasher.nl) in
  let r := Flasher.flash_only host st in
  Eff.outcome r = inr tt
  /\ (Obs.action_error host st cmd = None ->
      (exists t0, Eff.trace r = (t0 ++ [Eff.LogWrite done])%list)
      /\ filter Obs.is_dialog (Eff.trace r) = [])
  /\ (forall e,
         Obs.action_error host st cmd = Some e ->
         (exists t0, Eff.trace r = (t0 ++ Obs.error_report e)%list)
         /\ filter Obs.is_dialog (Eff.trace r) = [Eff.ShowError "Error" (Eff.exn_str e)]
         /\ ~ In (Eff.LogWrite done) (Eff.trace r)).
Proof.
  intros Em cmd done r.
  assert (Er : r = Obs.tool_action host st
                     (Eff.u ("Flashing (esptool)..." ++ Flasher.nl)) cmd done).
  { subst r. unfold Flasher.flash_only, Obs.tool_action, Flasher._do_flash.
    rewrite Em. reflexivity. }
  assert (H : Eff.outcome r = inr tt
              /\ match Obs.action_error host st cmd with
                 | None =>
                     (exists t0, Eff.trace r = (t0 ++ [Eff.LogWrite done])%list)
                     /\ filter Obs.is_dialog (Eff.trace r) = []
                 | Some e =>
                     (exists t0, Eff.trace r = (t0 ++ Obs.error_report e)%list)
                     /\ filter Obs.is_dialog (Eff.trace r)
                        = [Eff.ShowError "Error" (Eff.exn_str e)]
                     /\ ~ In (Eff.LogWrite done) (Eff.trace r)
                 end).
  { rewrite Er. apply tool_action_end; confirm_distinct host. }
  destruct H as [Ho He]. split; [exact Ho|].
  split; [intro E; now rewrite E in He | intros e E; now rewrite E in He].
Qed.

Lemma flash_only_esptool_ends_witness :
  filter Obs.is_dialog (Eff.trace (Flasher.flash_only Ref.sample_host Ref.heltec_app)) = []
  /\ filter Obs.is_dialog
       (Eff.trace (Flasher.flash_only (Ref.host_running Ref.failing_process)
                     Ref.heltec_v4_app))
     = [Eff.ShowError "Error" "Command failed (exit 2)"].
Proof.
  destruct (flash_only_esptool_ends Ref.sample_host Ref.heltec_app eq_refl)
    as (_ & H1 & _).
  destruct (flash_only_esptool_ends (Ref.host_running Ref.failing_process)
              Ref.heltec_v4_app eq_refl) as (_ & _ & H2).
  split; [exact (proj2 (H1 eq_refl))|].
  exact (proj1 (proj2 (H2 _ eq_refl))).
Defined.

(** ** Waiting and the UF2 flash *)

Section Uf2Flash.
Import PyStr Eff Flasher Ref Obs.

Lemma countdown_succ (k : nat) :
  countdown (S k)
  = (LogWrite (u ("Waiting for reboot... " ++ str (Z.of_nat (S k)) ++ "s" ++ nl))
       :: Sleep 1 :: countdown k)%list.
Proof.
  unfold countdown. rewrite seq_S, rev_app_distr. reflexivity.
Qed.

Lemma wait_seconds_countdown (sec : nat) :
  wait_seconds sec log_write = (inr tt, (countdown sec ++ [LogWrite (u nl)])%list).
Proof.
  induction sec as [|k IH]; [reflexivity|].
  rewrite countdown_succ. cbn [wait_seconds]. rewrite IH. reflexivity.
Qed.

Lemma countdown_sleeps (sec : nat) :
  filter is_sleep (countdown sec) = repeat (Sleep 1) sec.
Proof.
  induction sec as [|k IH]; [reflexivity|].
  rewrite countdown_succ. cbn [filter is_sleep repeat]. now rewrite IH.
Qed.

Lemma countdown_logs (sec : nat) :
  List.length (filter is_log (countdown sec)) = sec.
Proof.
  induction sec as [|k IH]; [reflexivity|].
  rewrite countdown_succ. cbn [filter is_log List.length]. now rewrite IH.
Qed.

Lemma countdown_no_dialog (sec : nat) : filter is_dialog (countdown sec) = [].
Proof.
  induction sec as [|k IH]; [reflexivity|].
  rewrite countdown_succ. exact IH.
Qed.

End Uf2Flash.

(** X5.  [wait_seconds n] never fails; it logs one line per remaining second,
    counting down from [n] to 1, sleeps one second after each, and ends with
    an empty line: [n] sleeps of one second and [n + 1] log lines in all. *)
Theorem wait_seconds_counts_down (sec : nat) :
  let r := Flasher.wait_seconds sec Flasher.log_write in
  Eff.outcome r = inr tt
  /\ Eff.trace r = (Obs.countdown sec ++ [Eff.LogWrite (Eff.u Flasher.nl)])%list
  /\ filter Obs.is_sleep (Eff.trace r) = repeat (Eff.Sleep 1) sec
  /\ List.length (filter Obs.is_log (Eff.trace r)) = S sec.
Proof.
  intro r. subst r. rewrite wait_seconds_countdown.
  cbn [Eff.outcome Eff.trace fst snd].
  split; [reflexivity|]. split; [reflexivity|].
  rewrite !filter_app, countdown_sleeps, length_app, countdown_logs.
  split; [apply app_nil_r | cbn; lia].
Qed.

(** X6.  In the UF2 mode, once validation has passed, the flash action
    copies the firmware and then waits eight seconds for the reboot, without
    dialog, when the firmware has the .uf2 extension, the drive exists and
    the copy succeeds; in every other case it does not wait at all, and the
    failure is the last log line and is shown in exactly one dialog. *)
Theorem flash_only_uf2_waits (host : Flasher.Host) (st : Flasher.App) :
  Flasher.flash_method (Flasher.MODE_DEFS (Flasher.mode st)) = Flasher.uf2_drive_method ->
  Obs.valid host st = true ->
  let fw := PyStr.strip (Flasher.firmware_path st) in
  let drive := PyStr.strip (Flasher.uf2_drive st) in
  let dest := Flasher.os_path_join host drive (Flasher.os_path_basename host fw) in
  let r := Flasher.flash_only host st in
  let copied :=
    PyStr.endswith (PyStr.lower fw) ".uf2" && Flasher.os_path_isdir host drive
    && match Flasher.shutil_copyfile host fw dest with None => true | Some _ => false end in
  Eff.outcome r = inr tt
  /\ (copied = true ->
      Eff.trace r
      = ([Eff.LogWrite (Flasher.mode_line st);
          Eff.LogWrite (Eff.u ("Flashing (UF2 copy)..." ++ Flasher.nl));
          Eff.LogWrite (Eff.u ("Copying UF2 to " ++ dest ++ Flasher.nl));
          Eff.CopyFile fw dest;
          Eff.LogWrite (Eff.u ("Copy complete. Device may reboot." ++ Flasher.nl))]
         ++ Obs.countdown 8 ++ [Eff.LogWrite (Eff.u Flasher.nl)])%list
      /\ filter Obs.is_sleep (Eff.trace r) = repeat (Eff.Sleep 1) 8
      /\ filter Obs.is_dialog (Eff.trace r) = [])
  /\ (copied = false ->
      filter Obs.is_sleep (Eff.trace r) = []
      /\ exists e t0,
          Eff.trace r = (t0 ++ Obs.error_report e)%list
          /\ filter Obs.is_dialog (Eff.trace r) = [Eff.ShowError "Error" (Eff.exn_str e)]).
Proof.
  intros Em Hvalid fw drive dest r copied.
  pose proof (valid_passes host st Hvalid) as Hv.
  assert (Ho : Eff.outcome (Flasher._validate_common host st) = inr tt) by now rewrite Hv.
  destruct (validate_passed host st Ho) as (_ & Hfile & _). fold fw in Hfile.
  subst r. unfold Flasher.flash_only, Flasher._do_flash.
  rewrite Hv, Em. cbn [Flasher.is_uf2]. fold fw drive.
  rewrite wait_seconds_countdown. subst copied.
  destruct (PyStr.endswith (PyStr.lower fw) ".uf2") eqn:H2.
  - destruct (Flasher.os_path_isdir host drive) eqn:H3.
    + rewrite (copy_checks_passed host fw drive Hfile H2 H3). fold dest.
      destruct (Flasher.shutil_copyfile host fw dest) as [msg|].
      * split; [reflexivity|]. split; [discriminate|]. intros _.
        split; [reflexivity|].
        exists (Eff.OSError msg). eexists. split; reflexivity.
      * split; [reflexivity|]. split; [|discriminate]. intros _.
        split; [reflexivity|]. split; reflexivity.
    + rewrite (copy_no_drive host fw drive _ Hfile H2 H3).
      split; [reflexivity|]. split; [discriminate|]. intros _.
      split; [reflexivity|].
      exists (Eff.RuntimeError ("Drive not found: " ++ drive)). eexists.
      split; reflexivity.
  - rewrite (copy_wrong_extension host fw drive _ Hfile H2).
    split; [reflexivity|]. split; [discriminate|]. intros _.
    split; [reflexivity|].
    exists (Eff.RuntimeError "UF2 flashing requires a .uf2 file."). eexists.
    split; reflexivity.
Qed.

Lemma flash_only_uf2_waits_witness :
  filter Obs.is_sleep (Eff.trace (Flasher.flash_only Ref.sample_host Ref.rak_app))
  = repeat (Eff.Sleep 1) 8.
Proof.
  destruct (flash_only_uf2_waits Ref.sample_host Ref.rak_app eq_refl eq_refl)
    as (_ & H & _).
  exact (proj1 (proj2 (H eq_refl))).
Defined.

(** X7.  The process runner echoes the command to the sink, then starts it,
    once; everything after that goes to the sink only.  A command given as
    one shell string is echoed as it is, an argument list joined by single
    blanks.  When the process cannot be started the error of the start is
    raised as it is, and nothing more reaches the sink. *)
Theorem run_cmd_stream_echo_then_start (host : Flasher.Host) (cmd : Eff.command) :
  let r := Flasher.run_cmd_stream host cmd Flasher.log_write in
  exists rest,
    Eff.trace r = Eff.LogWrite (Ref.echo_line cmd) :: Eff.Popen cmd :: rest
    /\ filter (fun ev => negb (Obs.is_log ev)) rest = []
    /\ (forall msg,
           Flasher.popen host cmd = inl msg ->
           Eff.outcome r = inl (Eff.OSError msg) /\ rest = [])
    /\ (forall line, cmd = Eff.Shell line ->
           Ref.echo_line cmd = Eff.u ("$ " ++ line ++ Flasher.nl))
    /\ (forall args, cmd = Eff.Argv args ->
           Ref.echo_line cmd = Eff.u ("$ " ++ PyStr.join " " args ++ Flasher.nl)).
Proof.
  intro r. subst r. rewrite run_cmd_stream_cases. unfold Obs.runner_events.
  eexists. split; [reflexivity|]. split; [|split; [|split]].
  - destruct (Flasher.popen host cmd) as [msg|p]; [reflexivity|].
    induction (Ref.output p) as [|b l IH]; [reflexivity | exact IH].
  - intros msg Hp. unfold Obs.run_error. rewrite Hp. split; reflexivity.
  - intros line ->. reflexivity.
  - intros args ->. reflexivity.
Qed.

Lemma run_cmd_stream_echo_then_start_witness :
  Eff.outcome (Flasher.run_cmd_stream Obs.host_without_tools
                 (Eff.Shell "esptool erase-flash") Flasher.log_write)
  = inl (Eff.OSError "[WinError 2] The system cannot find the file specified").
Proof.
  destruct (run_cmd_stream_echo_then_start Obs.host_without_tools
              (Eff.Shell "esptool erase-flash")) as (rest & _ & _ & H & _).
  exact (proj1 (H _ eq_refl)).
Defined.

(** ** Drives *)

Section Drives.
Import PyStr Eff Flasher Ref.

Lemma seq_increasing (n : nat) : forall a, StronglySorted lt (seq a n).
Proof.
  induction n as [|n IH]; intro a; cbn [seq]; constructor; [apply IH|].
  apply Forall_forall. intros x Hx. apply in_seq in Hx. lia.
Qed.

Lemma filter_increasing (f : nat -> bool) (l : list nat) :
  StronglySorted lt l -> StronglySorted lt (filter f l).
Proof.
  induction 1 as [|a l Hs IH Ha]; cbn [filter]; [constructor|].
  destruct (f a); [|exact IH]. constructor; [exact IH|].
  apply Forall_forall. intros x Hx. apply filter_In in Hx as [Hx _].
  rewrite Forall_forall in Ha. now apply Ha.
Qed.

Lemma drive_name_injective (i j : nat) :
  i < 26 -> j < 26 -> drive_name i = drive_name j -> i = j.
Proof.
  intros Hi Hj H. unfold drive_name in H. injection H as H.
  apply (f_equal nat_of_ascii) in H.
  rewrite !nat_ascii_embedding in H by lia. lia.
Qed.

Lemma removable_letters (host : Host) :
  list_removable_drives_windows host
  = map drive_name (filter (is_removable host) (seq 0 26)).
Proof. unfold list_removable_drives_windows. now rewrite removable_from_filter. Qed.

Lemma detect_filter (host : Host) :
  detect_uf2_drives host
  = (inr (filter (marker_found host) (list_removable_drives_windows host)), []).
Proof. unfold detect_uf2_drives. now rewrite detect_loop_filter. Qed.

Lemma removable_distinct (host : Host) :
  NoDup (list_removable_drives_windows host).
Proof.
  rewrite removable_letters. apply NoDup_map_NoDup_ForallPairs.
  - intros i j Hi Hj. apply filter_In in Hi as [Hi _], Hj as [Hj _].
    apply in_seq in Hi, Hj. apply drive_name_injective; lia.
  - apply NoDup_filter, seq_NoDup.
Qed.

End Drives.

(** X8.  The removable drives are listed in the order of their letters,
    between A and Z, each at most once, so at most twenty-six of them; the
    UF2 drives detected are some of them, in the same order and without
    repetition, each a letter, a colon and a backslash. *)
Theorem removable_drives_in_letter_order (host : Flasher.Host) :
  (exists letters,
      Flasher.list_removable_drives_windows host = map Flasher.drive_name letters
      /\ StronglySorted lt letters
      /\ Forall (fun i => i < 26) letters)
  /\ NoDup (Flasher.list_removable_drives_windows host)
  /\ List.length (Flasher.list_removable_drives_windows host) <= 26
  /\ exists drives,
      Flasher.detect_uf2_drives host = (inr drives, [])
      /\ drives = filter (Ref.marker_found host) (Flasher.list_removable_drives_windows host)
      /\ NoDup drives
      /\ (forall d, In d drives ->
            In d (Flasher.list_removable_drives_windows host)
            /\ String.length d = 3).
Proof.
  split; [|split; [|split]].
  - exists (filter (Ref.is_removable host) (seq 0 26)).
    split; [apply removable_letters|]. split.
    + apply filter_increasing, seq_increasing.
    + apply Forall_forall. intros i Hi. apply filter_In in Hi as [Hi _].
      apply in_seq in Hi. lia.
  - apply removable_distinct.
  - rewrite removable_letters, length_map.
    etransitivity; [apply filter_length_le|]. now rewrite length_seq.
  - eexists. split; [apply detect_filter|]. split; [reflexivity|]. split.
    + apply NoDup_filter, removable_distinct.
    + intros d Hd. apply filter_In in Hd as [Hd _]. split; [exact Hd|].
      rewrite removable_letters in Hd. apply in_map_iff in Hd as (i & <- & _).
      reflexivity.
Qed.

Lemma removable_drives_in_letter_order_witness :
  In "E:\" (Flasher.list_removable_drives_windows Ref.sample_host)
  /\ String.length "E:\" = 3.
Proof.
  destruct (removable_drives_in_letter_order Ref.sample_host)
    as (_ & _ & _ & drives & _ & Hd & _ & H).
  apply (H "E:\"). rewrite Hd. vm_compute. now left.
Defined.

(** ** The session *)

Section SessionFacts.
Import PyStr Eff Flasher Ref Obs Session.
Variable host : Host.

Lemma detected_filter :
  detected host = filter (marker_found host) (list_removable_drives_windows host).
Proof. unfold detected. now rewrite detect_filter. Qed.

Lemma detected_not_empty (d : string) : In d (detected host) -> is_empty d = false.
Proof.
  rewrite detected_filter. intro H. apply filter_In in H as [H _].
  rewrite removable_letters in H. apply in_map_iff in H as (i & <- & _).
  reflexivity.
Qed.

Lemma get_set_same (x : Var) (v : string) (a : App) : get_var x (set_var x v a) = v.
Proof. destruct x; reflexivity. Qed.

Lemma get_set_other (x y : Var) (v : string) (a : App) :
  x <> y -> get_var y (set_var x v a) = get_var y a.
Proof. intro H. destruct x, y; try reflexivity; contradiction. Qed.

(** What [refresh_drives] does to the variables. *)
Lemma refresh_drives_app (w : Ui) :
  app (refresh_drives host w)
  = match detected host with
    | [] => set_var v_uf2_drive "" (app w)
    | d :: _ =>
        if is_empty (uf2_drive (app w)) then set_var v_uf2_drive d (app w) else app w
    end.
Proof.
  unfold refresh_drives. destruct (detected host) as [|d rest]; [reflexivity|].
  cbn [with_drive_values app]. destruct (is_empty (uf2_drive (app w))); reflexivity.
Qed.

Lemma refresh_drives_state (w : Ui) :
  state (refresh_drives host w) = state w /\ file (refresh_drives host w) = file w.
Proof.
  unfold refresh_drives. destruct (detected host) as [|d rest]; [split; reflexivity|].
  cbn [with_drive_values app]. destruct (is_empty (uf2_drive (app w))); split; reflexivity.
Qed.

(** What [apply_mode] does to the variables, but for the drive. *)
Lemma apply_mode_vars (w : Ui) (x : Var) :
  x <> v_uf2_drive ->
  get_var x (app (apply_mode host w))
  = or_else (saved_get (state w) (mode (app w)) (key_of x))
      (if keeps_current x then get_var x (app w)
       else firmware_default (MODE_DEFS (mode (app w)))).
Proof.
  intro Hx. unfold apply_mode.
  cbn [_schedule_save app with_coords_enabled].
  match goal with
  | |- get_var x (app (if ?b then refresh_drives host ?w' else ?w')) = _ =>
      assert (E : get_var x (app (if b then refresh_drives host w' else w'))
                  = get_var x (app w'));
        [| rewrite E; clear E ]
  end.
  { destruct (is_uf2 (flash_method (MODE_DEFS (mode (app w))))); [|reflexivity].
    rewrite refresh_drives_app.
    destruct (detected host) as [|d rest].
    - apply get_set_other. congruence.
    - match goal with |- context [if ?c then _ else _] => destruct c end;
        [apply get_set_other; congruence | reflexivity]. }
  destruct x; try contradiction; reflexivity.
Qed.

Lemma apply_mode_mode (w : Ui) : mode (app (apply_mode host w)) = mode (app w).
Proof.
  unfold apply_mode. cbn [_schedule_save app with_coords_enabled].
  destruct (is_uf2 (flash_method (MODE_DEFS (mode (app w))))); [|reflexivity].
  rewrite refresh_drives_app. destruct (detected host) as [|d rest]; [reflexivity|].
  match goal with |- context [if ?c then _ else _] => destruct c end; reflexivity.
Qed.

Lemma apply_mode_state (w : Ui) :
  state (apply_mode host w) = state w /\ file (apply_mode host w) = file w.
Proof.
  unfold apply_mode. cbn [_schedule_save state file with_coords_enabled].
  destruct (is_uf2 (flash_method (MODE_DEFS (mode (app w))))); [|split; reflexivity].
  match goal with |- context [refresh_drives host ?w'] =>
    destruct (refresh_drives_state w') as [-> ->] end.
  split; reflexivity.
Qed.

Lemma dict_get_set_same {V} (k : string) (v : V) (d : dict V) :
  dict_get k (dict_set k v d) = Some v.
Proof.
  induction d as [|[k' v'] r IH]; cbn [dict_set dict_get].
  - now rewrite String.eqb_refl.
  - destruct (String.eqb k k') eqn:E; cbn [dict_get]; rewrite ?String.eqb_refl, ?E;
      [reflexivity | exact IH].
Qed.

Lemma dict_get_set_other {V} (k k0 : string) (v : V) (d : dict V) :
  k0 <> k -> dict_get k0 (dict_set k v d) = dict_get k0 d.
Proof.
  intro Hne. induction d as [|[k' v'] r IH]; cbn [dict_set dict_get].
  - apply String.eqb_neq in Hne. now rewrite Hne.
  - destruct (String.eqb_spec k k') as [<-|Hk]; cbn [dict_get].
    + apply String.eqb_neq in Hne. now rewrite Hne.
    + destruct (String.eqb k0 k'); [reflexivity | exact IH].
Qed.

Lemma mode_of_name_name (m : ModeKey) : mode_of_name (mode_name m) = Some m.
Proof. destruct m; reflexivity. Qed.

Lemma mode_name_injective (m m' : ModeKey) : mode_name m = mode_name m' -> m = m'.
Proof. destruct m, m'; intro H; try reflexivity; discriminate H. Qed.

(** After a save, the entry of the current mode holds the variables. *)
Lemma saved_get_after_save (written : bool) (w : Ui) (x : Var) :
  saved_get (state (_save_state written w)) (mode (app w)) (key_of x)
  = Some (get_var x (app w)).
Proof.
  unfold saved_get, _save_state. cbn [state modes].
  rewrite dict_get_set_same. destruct x; reflexivity.
Qed.

(** A save leaves the entries of the other modes as they are. *)
Lemma saved_get_other_mode (written : bool) (w : Ui) (m : ModeKey)
    (key : Saved -> option string) :
  m <> mode (app w) ->
  saved_get (state (_save_state written w)) m key = saved_get (state w) m key.
Proof.
  intro Hm. unfold saved_get, _save_state. cbn [state modes].
  rewrite dict_get_set_other
    by (intro E; apply mode_name_injective in E; contradiction).
  destruct (modes (state w)); reflexivity.
Qed.

End SessionFacts.

Section SessionMore.
Import PyStr Eff Flasher Ref Obs Session.
Variable host : Host.

Lemma apply_mode_drive (w : Ui) :
  uf2_drive (app (apply_mode host w))
  = let v := or_else (saved_get (state w) (mode (app w)) sv_uf2_drive) "" in
    if is_uf2 (flash_method (MODE_DEFS (mode (app w))))
    then match detected host with
         | [] => ""
         | d :: _ => if is_empty v then d else v
         end
    else v.
Proof.
  unfold apply_mode. cbn [_schedule_save app with_coords_enabled].
  destruct (is_uf2 (flash_method (MODE_DEFS (mode (app w))))); [|reflexivity].
  rewrite refresh_drives_app. cbn zeta.
  match goal with
  | |- uf2_drive (match _ with
                  | [] => _
                  | d :: _ => if is_empty (uf2_drive (app ?w')) then _ else _
                  end) = _ =>
      assert (Hd : uf2_drive (app w')
                   = or_else (saved_get (state w) (mode (app w)) sv_uf2_drive) "")
        by reflexivity;
      destruct (detected host) as [|d rest]; [reflexivity|];
      rewrite Hd;
      destruct (is_empty (or_else (saved_get (state w) (mode (app w)) sv_uf2_drive) ""));
      [reflexivity | exact Hd]
  end.
Qed.

Lemma one_pending_schedule (w : Ui) :
  one_pending w -> one_pending (_schedule_save w).
Proof.
  unfold one_pending, _schedule_save. cbn [armed save_after_id]. intro H.
  destruct (save_after_id w) as [id|]; rewrite H; [|reflexivity].
  cbn [remove]. destruct (Nat.eq_dec id id) as [_|Hne]; [reflexivity | contradiction].
Qed.

Lemma one_pending_write (x : Var) (v : string) (w : Ui) :
  one_pending w -> one_pending (write_var x v w).
Proof. intro H. unfold write_var. now apply one_pending_schedule. Qed.

Lemma one_pending_refresh (w : Ui) :
  one_pending w -> one_pending (refresh_drives host w).
Proof.
  intro H. unfold refresh_drives. destruct (detected host) as [|d rest].
  - apply (one_pending_write v_uf2_drive "" (with_drive_values w [])). exact H.
  - cbn [with_drive_values app]. destruct (is_empty (uf2_drive (app w))).
    + apply (one_pending_write v_uf2_drive d (with_drive_values w (d :: rest))).
      exact H.
    + exact H.
Qed.

Lemma one_pending_apply_mode (w : Ui) :
  one_pending w -> one_pending (apply_mode host w).
Proof.
  intro H. unfold apply_mode, restore. apply one_pending_schedule.
  match goal with
  | |- one_pending (with_coords_enabled ?w' _) => change (one_pending w')
  end.
  match goal with
  | |- one_pending (if ?b then refresh_drives host ?w' else ?w') =>
      assert (Hw : one_pending w');
        [| destruct b; [now apply one_pending_refresh | exact Hw] ]
  end.
  repeat apply one_pending_write. exact H.
Qed.

Lemma one_pending_step (w w' : Ui) :
  step host w w' -> one_pending w -> one_pending w'.
Proof.
  intros Hs H. destruct Hs.
  - now apply one_pending_write.
  - unfold set_mode. now apply one_pending_apply_mode.
  - now apply one_pending_refresh.
  - unfold increment_owner_number. apply one_pending_schedule.
    now repeat apply one_pending_write.
  - unfold pick_firmware. destruct (is_empty p); [exact H|].
    now apply one_pending_write.
  - exact H.
  - exact H.
  - unfold one_pending in *. unfold timer_fires, _save_state. cbn [armed save_after_id].
    match goal with Hin : In _ (armed _) |- _ => rename Hin into Hid end.
    rewrite H in Hid |- *.
    match type of Hid with In _ (match ?o with _ => _ end) =>
      destruct o as [id'|]; [|contradiction] end.
    destruct Hid as [<-|[]]. cbn [remove].
    destruct (Nat.eq_dec id' id') as [_|Hne]; [reflexivity | contradiction].
Qed.

End SessionMore.

(** X9.  Refreshing the drives sets the choices of the drive field to the
    drives detected and touches no other variable.  With no drive detected
    the selection is emptied and a notice is logged; with some, an empty
    selection takes the first one and a selection already made is kept, even
    when that drive is no longer among those detected.  Afterwards the
    selection is empty exactly when no drive was detected. *)
Theorem refresh_drives_selection (host : Flasher.Host) (w : Session.Ui) :
  let w' := Session.refresh_drives host w in
  Session.drive_values w' = Session.detected host
  /\ Flasher.mode (Session.app w') = Flasher.mode (Session.app w)
  /\ (forall x, x <> Session.v_uf2_drive ->
        Session.get_var x (Session.app w') = Session.get_var x (Session.app w))
  /\ (Session.detected host = [] ->
      Flasher.uf2_drive (Session.app w') = ""
      /\ Session.log w' = (Session.log w ++ [Obs.no_drive_notice])%list)
  /\ (forall d rest,
         Session.detected host = d :: rest ->
         Session.log w' = Session.log w
         /\ Flasher.uf2_drive (Session.app w')
            = if PyStr.is_empty (Flasher.uf2_drive (Session.app w)) then d
              else Flasher.uf2_drive (Session.app w))
  /\ (PyStr.is_empty (Flasher.uf2_drive (Session.app w')) = true
      <-> Session.detected host = []).
Proof.
  intro w'. subst w'.
  assert (Happ := refresh_drives_app host w).
  split; [|split; [|split; [|split; [|split]]]].
  - unfold Session.refresh_drives. destruct (Session.detected host) as [|d rest];
      [reflexivity|].
    cbn [Session.with_drive_values Session.app].
    destruct (PyStr.is_empty (Flasher.uf2_drive (Session.app w))); reflexivity.
  - rewrite Happ. destruct (Session.detected host) as [|d rest]; [reflexivity|].
    destruct (PyStr.is_empty (Flasher.uf2_drive (Session.app w))); reflexivity.
  - intros x Hx. rewrite Happ. destruct (Session.detected host) as [|d rest].
    + apply get_set_other. congruence.
    + destruct (PyStr.is_empty (Flasher.uf2_drive (Session.app w)));
        [apply get_set_other; congruence | reflexivity].
  - intro Hd. rewrite Happ. unfold Session.refresh_drives. rewrite Hd.
    split; reflexivity.
  - intros d rest Hd. rewrite Happ. unfold Session.refresh_drives. rewrite Hd.
    cbn [Session.with_drive_values Session.app].
    destruct (PyStr.is_empty (Flasher.uf2_drive (Session.app w))); split; reflexivity.
  - rewrite Happ. destruct (Session.detected host) as [|d rest] eqn:Hd.
    + split; reflexivity.
    + assert (Hne : PyStr.is_empty d = false).
      { apply (detected_not_empty host). rewrite Hd. now left. }
      destruct (PyStr.is_empty (Flasher.uf2_drive (Session.app w))) eqn:He.
      * cbn [Session.set_var Session.pick Flasher.uf2_drive]. rewrite Hne.
        split; discriminate.
      * rewrite He. split; discriminate.
Qed.

Lemma refresh_drives_selection_witness :
  Flasher.uf2_drive (Session.app (Session.refresh_drives Ref.sample_host
                                    (Session.write_var Session.v_uf2_drive "Q:\"
                                       Obs.fresh_session)))
  = "Q:\"
  /\ Session.drive_values (Session.refresh_drives Ref.sample_host Obs.fresh_session)
     = ["E:\"].
Proof.
  destruct (refresh_drives_selection Ref.sample_host
              (Session.write_var Session.v_uf2_drive "Q:\" Obs.fresh_session))
    as (_ & _ & _ & _ & H & _).
  destruct (refresh_drives_selection Ref.sample_host Obs.fresh_session) as (H1 & _).
  split; [exact (proj2 (H "E:\" [] eq_refl)) | exact H1].
Defined.

(** X10.  A session saved to the settings file comes back at the next start:
    the mode is the one that was selected, every variable that was not empty
    has its saved text, an empty owner, number or coordinate field has the
    built-in default and an empty firmware path the default file of the mode.
    The drive comes back as saved in an esptool mode; in the UF2 mode it is
    then refreshed against the drives detected. *)
Theorem restart_restores_session (host : Flasher.Host) (w : Session.Ui) :
  let saved := Session._save_state true w in
  let w' := Session.init host (Session.file saved) in
  Session.file saved = Some (Session.state saved)
  /\ Session.state w' = Session.state saved
  /\ Flasher.mode (Session.app w') = Flasher.mode (Session.app w)
  /\ (forall x, x <> Session.v_uf2_drive ->
        Session.get_var x (Session.app w')
        = if PyStr.is_empty (Session.get_var x (Session.app w))
          then (if Obs.keeps_current x then Obs.initial_value x
                else Flasher.firmware_default
                       (Flasher.MODE_DEFS (Flasher.mode (Session.app w))))
          else Session.get_var x (Session.app w))
  /\ Flasher.uf2_drive (Session.app w')
     = if Flasher.is_uf2 (Flasher.flash_method
                            (Flasher.MODE_DEFS (Flasher.mode (Session.app w))))
       then match Session.detected host with
            | [] => ""
            | d :: _ =>
                if PyStr.is_empty (Flasher.uf2_drive (Session.app w)) then d
                else Flasher.uf2_drive (Session.app w)
            end
       else Flasher.uf2_drive (Session.app w).
Proof.
  intros saved w'. split; [reflexivity|].
  assert (Hinit : exists w0,
             w' = Session.apply_mode host w0
             /\ Session.state w0 = Session.state saved
             /\ Flasher.mode (Session.app w0) = Flasher.mode (Session.app w)
             /\ forall x, Session.get_var x (Session.app w0) = Obs.initial_value x).
  { subst w' saved. unfold Session.init.
    cbn [Session._save_state Session.file Session._load_state Session.state
         Session.last_mode].
    rewrite mode_of_name_name. eexists. split; [reflexivity|].
    split; [reflexivity|]. split; [reflexivity|]. intro x. destruct x; reflexivity. }
  destruct Hinit as (w0 & -> & Hst & Hm & Hv).
  split; [rewrite (proj1 (apply_mode_state host w0)); exact Hst|].
  split; [rewrite apply_mode_mode; exact Hm|].
  split.
  - intros x Hx. rewrite (apply_mode_vars host w0 x Hx), Hst, Hm, Hv.
    subst saved. rewrite saved_get_after_save. reflexivity.
  - rewrite apply_mode_drive, Hst, Hm. subst saved.
    pose proof (saved_get_after_save true w Session.v_uf2_drive) as Hs.
    cbn [Obs.key_of Session.get_var] in Hs. rewrite Hs.
    cbn [Session.or_else Session.get_var].
    destruct (Flasher.uf2_drive (Session.app w)) as [|c rest] eqn:He;
      cbn [PyStr.is_empty]; cbn zeta; reflexivity.
Qed.

Lemma restart_restores_session_witness :
  let w := Session.write_var Session.v_owner_letters "BASE"
             (Session.set_mode Ref.sample_host Flasher.Heltec_V4 Obs.fresh_session) in
  let w' := Session.init Ref.sample_host (Session.file (Session._save_state true w)) in
  Flasher.mode (Session.app w') = Flasher.Heltec_V4
  /\ Session.get_var Session.v_owner_letters (Session.app w') = "BASE".
Proof.
  intros w w'.
  destruct (restart_restores_session Ref.sample_host w) as (_ & _ & Hm & Hv & _).
  split.
  - fold w' in Hm. rewrite Hm. vm_compute. reflexivity.
  - assert (Hx : Session.v_owner_letters <> Session.v_uf2_drive) by discriminate.
    specialize (Hv Session.v_owner_letters Hx). fold w' in Hv. rewrite Hv.
    vm_compute. reflexivity.
Defined.

(** X11.  Each mode remembers its own fields.  Save in one mode, switch to
    another, change and save whatever there, and switch back: every
    variable saved non-empty in the first mode has its saved text again.  A
    variable saved empty does not come back empty: the firmware path takes
    the default file of the mode, the others keep the text they had in the
    mode left. *)
Theorem mode_switch_remembers (host : Flasher.Host) (w other : Session.Ui)
    (m2 : Flasher.ModeKey) (written written' : bool) (x : Session.Var) :
  let m1 := Flasher.mode (Session.app w) in
  m2 <> m1 ->
  x <> Session.v_uf2_drive ->
  Flasher.mode (Session.app other) = m2 ->
  Session.state other
  = Session.state (Session.set_mode host m2 (Session._save_state written w)) ->
  let back := Session.set_mode host m1 (Session._save_state written' other) in
  Flasher.mode (Session.app back) = m1
  /\ Session.get_var x (Session.app back)
     = if PyStr.is_empty (Session.get_var x (Session.app w))
       then (if Obs.keeps_current x then Session.get_var x (Session.app other)
             else Flasher.firmware_default (Flasher.MODE_DEFS m1))
       else Session.get_var x (Session.app w).
Proof.
  intros m1 Hm Hx Hmode Hstate back. subst back. unfold Session.set_mode.
  split; [rewrite apply_mode_mode; reflexivity|].
  rewrite (apply_mode_vars host _ x Hx).
  cbn [Session.with_app Session.app Session.state Session.set_mode_var Flasher.mode].
  assert (Hsaved : Session.saved_get (Session.state (Session._save_state written' other))
                     m1 (Obs.key_of x)
                   = Some (Session.get_var x (Session.app w))).
  { rewrite saved_get_other_mode by (rewrite Hmode; congruence).
    rewrite Hstate. unfold Session.set_mode.
    rewrite (proj1 (apply_mode_state host _)).
    cbn [Session.with_app Session.state].
    apply saved_get_after_save. }
  rewrite Hsaved. cbn [Session.or_else].
  destruct (PyStr.is_empty (Session.get_var x (Session.app w))); [|reflexivity].
  destruct x; reflexivity.
Qed.

Lemma mode_switch_remembers_witness :
  let w := Session.write_var Session.v_owner_letters "BASE" Obs.fresh_session in
  let other := Session.write_var Session.v_owner_letters "FIELD"
                 (Session.set_mode Ref.sample_host Flasher.Heltec_V3
                    (Session._save_state true w)) in
  Session.get_var Session.v_owner_letters
    (Session.app (Session.set_mode Ref.sample_host Flasher.RAK4631
                    (Session._save_state true other)))
  = "BASE".
Proof.
  intros w other.
  destruct (mode_switch_remembers Ref.sample_host w other Flasher.Heltec_V3 true true
              Session.v_owner_letters) as [_ H].
  - vm_compute. discriminate.
  - discriminate.
  - vm_compute. reflexivity.
  - vm_compute. reflexivity.
  - revert H. vm_compute. intro H. exact H.
Defined.

(** X12.  At most one save is pending.  From the start of the application
    on, whatever is typed, selected, refreshed or incremented and whenever
    the timer fires, the only armed timer is the one the application
    remembers, and none is armed when it remembers none. *)
Theorem one_save_pending (host : Flasher.Host) (f : option Session.State)
    (w : Session.Ui) :
  Session.reachable host f w -> Obs.one_pending w.
Proof.
  induction 1 as [|w w' _ IH Hs].
  - unfold Session.init. apply one_pending_apply_mode.
    destruct (Session.last_mode (Session._load_state f)) as [name|]; [|reflexivity].
    destruct (Session.mode_of_name name); reflexivity.
  - exact (one_pending_step host w w' Hs IH).
Qed.

Lemma one_save_pending_witness :
  Obs.one_pending
    (Session.increment_owner_number
       (Session.write_var Session.v_lat "46.2" Obs.fresh_session)).
Proof.
  apply (one_save_pending Ref.sample_host None).
  eapply Session.reach_step; [|apply Session.step_increment].
  eapply Session.reach_step; [|apply Session.step_edit].
  apply Session.reach_init.
Defined.

(** X13.  A change is saved by the timer it arms.  After a write to a
    variable exactly one timer is armed; when it fires, the entry of the
    current mode holds the new text, the current mode is recorded as the
    last one, no save is pending any more, and the settings file holds the
    dictionary when the write to the file succeeds and is left as it was
    when it fails. *)
Theorem edit_saved_when_timer_fires (host : Flasher.Host) (w : Session.Ui)
    (x : Session.Var) (v : string) (written : bool) :
  Obs.one_pending w ->
  let w1 := Session.write_var x v w in
  exists id,
    Session.armed w1 = [id]
    /\ Session.save_after_id w1 = Some id
    /\ let w2 := Session.timer_fires id written w1 in
       Session.saved_get (Session.state w2) (Flasher.mode (Session.app w)) (Obs.key_of x)
       = Some v
       /\ Session.last_mode (Session.state w2)
          = Some (Session.mode_name (Flasher.mode (Session.app w)))
       /\ Session.armed w2 = []
       /\ Session.save_after_id w2 = None
       /\ Session.file w2 = (if written then Some (Session.state w2) else Session.file w)
       /\ Session.app w2 = Session.app w1.
Proof.
  intros H w1.
  assert (Ha : Session.armed w1 = [Session.next_id w]).
  { subst w1. unfold Session.write_var, Session._schedule_save.
    cbn [Session.armed Session.with_app Session.save_after_id Session.next_id].
    unfold Obs.one_pending in H. rewrite H.
    destruct (Session.save_after_id w) as [id|]; [|reflexivity].
    cbn [remove]. destruct (Nat.eq_dec id id) as [_|Hne]; [reflexivity | contradiction]. }
  exists (Session.next_id w). split; [exact Ha|]. split; [reflexivity|].
  intro w2. subst w2. unfold Session.timer_fires.
  split.
  - match goal with |- Session.saved_get (Session.state (Session._save_state _ ?u)) _ _ = _ =>
      change (Flasher.mode (Session.app w)) with (Flasher.mode (Session.app u));
      rewrite (saved_get_after_save written u x)
    end.
    cbn [Session.app]. subst w1. unfold Session.write_var.
    cbn [Session._schedule_save Session.app Session.with_app].
    now rewrite get_set_same.
  - split; [reflexivity|]. split.
    + cbn [Session._save_state Session.armed]. rewrite Ha. cbn [remove].
      destruct (Nat.eq_dec _ _) as [_|Hne]; [reflexivity | contradiction].
    + split; [reflexivity|]. split; [|reflexivity].
      cbn [Session._save_state Session.file]. destruct written; reflexivity.
Qed.

Lemma edit_saved_when_timer_fires_witness :
  exists id,
    Session.armed (Session.write_var Session.v_lon "6.1" Obs.fresh_session) = [id]
    /\ Session.saved_get
         (Session.state
            (Session.timer_fires id true
               (Session.write_var Session.v_lon "6.1" Obs.fresh_session)))
         Flasher.RAK4631 Session.sv_lon
       = Some "6.1".
Proof.
  destruct (edit_saved_when_timer_fires Ref.sample_host Obs.fresh_session
              Session.v_lon "6.1" true) as (id & H1 & _ & H3 & _).
  - apply (one_save_pending Ref.sample_host None). apply Session.reach_init.
  - exists id. split; [exact H1 | exact H3].
Defined.

(** ** More on owner numbering *)

Section OwnerNumberMore.
Import PyStr Eff Flasher Obs.

Lemma inc_number_step (s : string) :
  is_number s = true ->
  is_number (inc s) = true
  /\ value (inc s) = (value s + 1)%N
  /\ String.length (inc s)
     = Nat.max (String.length s) (String.length (str_of_N (value s + 1))).
Proof.
  intro H. rewrite (inc_number s H), str_succ_of_N.
  destruct (str_of_N_spec (value s + 1)) as [Hn Hv].
  destruct (zfill_number (String.length s) _ Hn) as (_ & H2 & H3 & H4).
  split; [exact H2|]. split; [now rewrite H3 | exact H4].
Qed.

Lemma rstrip_idempotent (s : string) : rstrip (rstrip s) = rstrip s.
Proof.
  induction s as [|c r IH]; [reflexivity|].
  cbn [rstrip]. destruct (is_space c && is_empty (rstrip r)) eqn:E; [reflexivity|].
  cbn [rstrip]. rewrite IH, E. reflexivity.
Qed.

Lemma lstrip_head (s : string) :
  lstrip s = "" \/ exists c r, lstrip s = String c r /\ is_space c = false.
Proof.
  induction s as [|c r IH]; [now left|].
  cbn [lstrip]. destruct (is_space c) eqn:E; [exact IH|].
  right. exists c, r. now split.
Qed.

Lemma strip_idempotent (s : string) : strip (strip s) = strip s.
Proof.
  unfold strip. destruct (lstrip_head s) as [->|(c & r & -> & Hc)]; [reflexivity|].
  cbn [rstrip]. rewrite Hc. cbn [andb lstrip]. rewrite Hc.
  cbn [rstrip]. rewrite Hc. cbn [andb]. now rewrite rstrip_idempotent.
Qed.

Lemma digit_char_not_space (c : ascii) : is_digit_char c = true -> is_space c = false.
Proof.
  unfold is_digit_char. intro H.
  destruct (is_decimal c) eqn:Hd; [now apply decimal_not_space|].
  cbn [orb] in H. unfold is_space.
  repeat (apply orb_false_intro);
    try (apply not_true_is_false; rewrite between_spec; intros [? ?]);
    try apply N.eqb_neq;
    repeat (apply orb_true_iff in H; destruct H as [H|H]);
    apply N.eqb_eq in H; lia.
Qed.

Lemma strip_digit_chars (s : string) :
  forall_chars is_digit_char s = true -> strip s = s.
Proof.
  intro H. unfold strip.
  assert (Hl : lstrip s = s).
  { destruct s as [|c r]; [reflexivity|]. cbn [forall_chars] in H.
    apply andb_true_iff in H as [Hc _]. cbn [lstrip].
    now rewrite (digit_char_not_space c Hc). }
  rewrite Hl. induction s as [|c r IH]; [reflexivity|].
  cbn [forall_chars] in H. apply andb_true_iff in H as [Hc Hr].
  cbn [rstrip]. rewrite (digit_char_not_space c Hc). cbn [andb].
  f_equal. apply IH; [exact Hr|].
  destruct r as [|c' r']; [reflexivity|]. cbn [forall_chars] in Hr.
  apply andb_true_iff in Hr as [Hc' _]. cbn [lstrip].
  now rewrite (digit_char_not_space c' Hc').
Qed.

Lemma digit_char_not_symbol (c x : ascii) :
  is_digit_char c = true -> (code x < 48)%N \/ (code x = 95)%N -> Ascii.eqb c x = false.
Proof.
  intros H Hx. destruct (Ascii.eqb_spec c x) as [->|]; [|reflexivity].
  exfalso. unfold is_digit_char, is_decimal in H.
  repeat (apply orb_true_iff in H; destruct H as [H|H]);
    try (apply between_spec in H); try (apply N.eqb_eq in H); lia.
Qed.

(** [int] rejects digits that are not decimal. *)
Lemma int_body_superscript (s : string) :
  forall acc b,
    forall_chars is_digit_char s = true ->
    forall_chars is_decimal s = false ->
    int_body acc b s = None.
Proof.
  induction s as [|c r IH]; intros acc b Hd Hn; [discriminate|].
  cbn [forall_chars] in Hd, Hn. apply andb_true_iff in Hd as [Hc Hr].
  cbn [int_body]. destruct (is_decimal c) eqn:E.
  - cbn [andb] in Hn. now apply IH.
  - rewrite (digit_char_not_symbol c "_" Hc) by (right; reflexivity). reflexivity.
Qed.

Lemma int_superscript (s : string) :
  isdigit s = true -> is_number s = false -> int s = None.
Proof.
  unfold isdigit, is_number. intros Hd Hn.
  apply andb_true_iff in Hd as [Hne Hd]. rewrite Hne in Hn. cbn [andb] in Hn.
  unfold int. rewrite (strip_digit_chars s Hd).
  destruct s as [|c r]; [discriminate|].
  assert (Hc : is_digit_char c = true)
    by (cbn [forall_chars] in Hd; now apply andb_true_iff in Hd).
  rewrite (digit_char_not_symbol c "-" Hc), (digit_char_not_symbol c "+" Hc)
    by (left; vm_compute; reflexivity).
  now rewrite int_body_superscript.
Qed.

End OwnerNumberMore.

(** X14.  Incrementing an owner number [n] times adds [n] to it: from a
    non-empty string of decimal digits the field stays one, its number is
    the original number plus [n], and it never gets shorter. *)
Theorem inc_iterated (s : string) (n : nat) :
  PyStr.is_number s = true ->
  PyStr.is_number (Nat.iter n Flasher.inc s) = true
  /\ PyStr.value (Nat.iter n Flasher.inc s) = (PyStr.value s + N.of_nat n)%N
  /\ String.length s <= String.length (Nat.iter n Flasher.inc s).
Proof.
  intro H. induction n as [|n (IH1 & IH2 & IH3)].
  - change (Nat.iter 0 Flasher.inc s) with s.
    split; [exact H|]. split; [cbn; lia | lia].
  - change (Nat.iter (S n) Flasher.inc s) with (Flasher.inc (Nat.iter n Flasher.inc s)).
    destruct (inc_number_step _ IH1) as (H1 & H2 & H3).
    split; [exact H1|]. split; [rewrite H2, IH2, Nat2N.inj_succ; lia|].
    rewrite H3. etransitivity; [exact IH3 | apply Nat.le_max_l].
Qed.

Lemma inc_iterated_witness :
  PyStr.value (Nat.iter 12 Flasher.inc "0095") = 107%N
  /\ Nat.iter 12 Flasher.inc "0095" = "0107".
Proof.
  destruct (inc_iterated "0095" 12 eq_refl) as (_ & H & _).
  split; [exact H | reflexivity].
Defined.

(** X15.  The increment looks at the field without its surrounding white
    space and resets what it cannot read: an empty field, and any text
    [int] rejects, become "1".  This includes owner numbers that validation
    accepts: a string that passes [isdigit] but holds a digit that is not
    decimal (a superscript digit) is reset to "1". *)
Theorem inc_unreadable_resets :
  (forall v, Flasher.inc v = Flasher.inc (PyStr.strip v))
  /\ (forall v, PyStr.is_empty (PyStr.strip v) = true -> Flasher.inc v = "1")
  /\ (forall v, PyStr.int (PyStr.strip v) = None -> Flasher.inc v = "1")
  /\ (forall s,
         PyStr.isdigit s = true -> PyStr.is_number s = false ->
         PyStr.isdigit (PyStr.strip s) = true /\ Flasher.inc s = "1").
Proof.
  split; [|split; [|split]].
  - intro v. unfold Flasher.inc. now rewrite strip_idempotent.
  - intros v H. unfold Flasher.inc.
    destruct (PyStr.strip v); [reflexivity | discriminate].
  - intros v H. unfold Flasher.inc.
    destruct (PyStr.strip v) as [|c r]; [reflexivity|].
    cbn [PyStr.is_empty negb]. rewrite H. reflexivity.
  - intros s Hd Hn.
    assert (Hs : PyStr.strip s = s).
    { apply strip_digit_chars. unfold PyStr.isdigit in Hd.
      now apply andb_true_iff in Hd. }
    rewrite Hs. split; [exact Hd|].
    unfold Flasher.inc. rewrite Hs, (int_superscript s Hd Hn).
    destruct s as [|c r]; [discriminate Hd | reflexivity].
Qed.

Lemma inc_unreadable_resets_witness :
  Flasher.inc "  " = "1"
  /\ Flasher.inc "4x" = "1"
  /\ Flasher.inc (String (ascii_of_nat 178) "") = "1".
Proof.
  destruct inc_unreadable_resets as (_ & H2 & H3 & H4).
  split; [exact (H2 "  " eq_refl)|]. split; [exact (H3 "4x" eq_refl)|].
  exact (proj2 (H4 (String (ascii_of_nat 178) "") eq_refl eq_refl)).
Defined.

Section OwnerNumberWidth.
Import PyStr Eff Flasher Obs.

Local Open Scope N_scope.

Lemma value_acc_split (s : string) :
  forall v, value_acc v s = v * 10 ^ N.of_nat (String.length s) + value s.
Proof.
  unfold value. induction s as [|c r IH]; intro v.
  - cbn. lia.
  - cbn [value_acc String.length]. rewrite IH, (IH (10 * 0 + digit_of_char c)).
    rewrite Nat2N.inj_succ, N.pow_succ_r'. lia.
Qed.

Lemma decimal_digit_bound (c : ascii) : is_decimal c = true -> digit_of_char c <= 9.
Proof. intro H. apply between_spec in H. unfold digit_of_char. lia. Qed.

Lemma value_cons (c : ascii) (r : string) :
  value (String c r) = digit_of_char c * 10 ^ N.of_nat (String.length r) + value r.
Proof.
  unfold value at 1. cbn [value_acc]. rewrite value_acc_split. reflexivity.
Qed.

Lemma value_below (s : string) :
  forall_chars is_decimal s = true -> value s < 10 ^ N.of_nat (String.length s).
Proof.
  induction s as [|c r IH]; intro H; [cbn; lia|].
  cbn [forall_chars] in H. apply andb_true_iff in H as [Hc Hr].
  rewrite value_cons. cbn [String.length]. rewrite Nat2N.inj_succ, N.pow_succ_r'.
  pose proof (decimal_digit_bound c Hc). specialize (IH Hr). nia.
Qed.

Lemma nine_char (c : ascii) :
  is_decimal c = true -> (Ascii.eqb c "9" = true <-> digit_of_char c = 9).
Proof.
  intro H. apply between_spec in H. unfold digit_of_char. split.
  - intro E. apply Ascii.eqb_eq in E. subst c. reflexivity.
  - intro E. apply Ascii.eqb_eq.
    rewrite <- (ascii_N_embedding c). unfold code in *.
    replace (N_of_ascii c) with 57 by lia. reflexivity.
Qed.

Lemma all_nines_value (s : string) :
  forall_chars is_decimal s = true ->
  (all_nines s = true <-> value s + 1 = 10 ^ N.of_nat (String.length s)).
Proof.
  induction s as [|c r IH]; intro H; [cbn; split; reflexivity|].
  cbn [forall_chars] in H. apply andb_true_iff in H as [Hc Hr].
  unfold all_nines in *. cbn [forall_chars String.length].
  rewrite value_cons, Nat2N.inj_succ, N.pow_succ_r', andb_true_iff.
  rewrite (nine_char c Hc), (IH Hr).
  pose proof (decimal_digit_bound c Hc). pose proof (value_below r Hr).
  split; [intros [-> E]; lia | intro E; split; nia].
Qed.

Lemma digits_length_bound (fuel : nat) :
  forall (n : N) (acc : string) (k : nat),
    (1 <= k)%nat ->
    n < 10 ^ N.of_nat k ->
    (String.length (digits_acc 10 fuel n acc) <= k + String.length acc)%nat.
Proof.
  induction fuel as [|f IH]; intros n acc k Hk Hn; [cbn [digits_acc]; lia|].
  rewrite digits_acc_step. destruct (N.eqb_spec (n / 10) 0) as [Hq|Hq].
  - cbn [String.length]. lia.
  - assert (Hn10 : 10 <= n).
    { destruct (N.lt_ge_cases n 10) as [Hlt|Hge]; [|exact Hge].
      exfalso. apply Hq. now apply N.div_small. }
    destruct k as [|[|k]]; [lia | cbn in Hn; lia |].
    specialize (IH (n / 10) (String (char_of_digit (n mod 10)) acc) (S k)).
    cbn [String.length] in IH.
    assert (Hlt : n / 10 < 10 ^ N.of_nat (S k)).
    { apply N.Div0.div_lt_upper_bound.
      rewrite (Nat2N.inj_succ (S k)), N.pow_succ_r' in Hn. exact Hn. }
    specialize (IH ltac:(lia) Hlt). lia.
Qed.

Lemma str_of_N_length_le (n : N) (k : nat) :
  (1 <= k)%nat -> n < 10 ^ N.of_nat k -> (String.length (str_of_N n) <= k)%nat.
Proof.
  intros Hk Hn. unfold str_of_N.
  pose proof (digits_length_bound (S (N.to_nat (N.log2 n))) n "" k Hk Hn) as H.
  cbn [String.length] in H. lia.
Qed.

Lemma str_of_N_length_gt (n : N) (k : nat) :
  10 ^ N.of_nat k <= n -> (k < String.length (str_of_N n))%nat.
Proof.
  intro Hn. destruct (str_of_N_spec n) as [Hnum Hv].
  unfold is_number in Hnum. apply andb_true_iff in Hnum as [_ Hd].
  pose proof (value_below _ Hd) as Hb. rewrite Hv in Hb.
  assert (Hp : 10 ^ N.of_nat k < 10 ^ N.of_nat (String.length (str_of_N n))) by lia.
  apply N.pow_lt_mono_r_iff in Hp; lia.
Qed.

End OwnerNumberWidth.

(** X16.  The increment keeps the width of an owner number, except when all
    its digits are nines: then, and only then, the field grows by one
    character ("99" becomes "100"). *)
Theorem inc_width (s : string) :
  PyStr.is_number s = true ->
  String.length (Flasher.inc s)
  = if Obs.all_nines s then S (String.length s) else String.length s.
Proof.
  intro H. destruct (inc_number_step s H) as (_ & _ & Hl). rewrite Hl.
  assert (Hd : PyStr.forall_chars PyStr.is_decimal s = true).
  { unfold PyStr.is_number in H. now apply andb_true_iff in H. }
  assert (Hpos : 1 <= String.length s).
  { destruct s; [discriminate | cbn; lia]. }
  pose proof (value_below s Hd) as Hb.
  pose proof (all_nines_value s Hd) as Hn.
  destruct (Obs.all_nines s).
  - assert (E : (PyStr.value s + 1 = 10 ^ N.of_nat (String.length s))%N)
      by now apply Hn.
    assert (H1 : String.length s < String.length (PyStr.str_of_N (PyStr.value s + 1))).
    { apply str_of_N_length_gt. lia. }
    assert (H2 : String.length (PyStr.str_of_N (PyStr.value s + 1))
                 <= S (String.length s)).
    { apply str_of_N_length_le; [lia|].
      rewrite Nat2N.inj_succ, N.pow_succ_r'. lia. }
    lia.
  - assert (E : (PyStr.value s + 1 <> 10 ^ N.of_nat (String.length s))%N).
    { intro E. apply Hn in E. discriminate. }
    assert (H2 : String.length (PyStr.str_of_N (PyStr.value s + 1))
                 <= String.length s).
    { apply str_of_N_length_le; [exact Hpos | lia]. }
    lia.
Qed.

Lemma inc_width_witness :
  String.length (Flasher.inc "0999") = 4 /\ Flasher.inc "999" = "1000".
Proof.
  split; [exact (inc_width "0999" eq_refl) | reflexivity].
Defined.

(** ** Focus navigation and keypad *)

Section FocusFacts.
Import Keypad.

Lemma index_of_found (w : nat) (l : list nat) (i : nat) :
  index_of w l = Some i -> nth_error l i = Some w /\ i < List.length l.
Proof.
  revert i. induction l as [|x r IH]; intros i H; [discriminate|].
  cbn [index_of] in H. destruct (Nat.eqb_spec x w) as [->|Hne].
  - injection H as <-. split; [reflexivity | cbn; lia].
  - destruct (index_of w r) as [j|]; [|discriminate]. injection H as <-.
    destruct (IH j eq_refl) as [H1 H2]. split; [exact H1 | cbn; lia].
Qed.

Lemma index_of_nth (l : list nat) :
  NoDup l -> forall i w, nth_error l i = Some w -> index_of w l = Some i.
Proof.
  induction 1 as [|x r Hx _ IH]; intros i w H; [destruct i; discriminate|].
  cbn [index_of]. destruct i as [|i].
  - injection H as ->. now rewrite Nat.eqb_refl.
  - cbn [nth_error] in H. destruct (Nat.eqb_spec x w) as [->|Hne].
    + exfalso. apply Hx. eapply nth_error_In. exact H.
    + now rewrite (IH i w H).
Qed.

Lemma index_of_in (w : nat) (l : list nat) :
  In w l -> exists i, index_of w l = Some i.
Proof.
  induction l as [|x r IH]; intro H; [contradiction|].
  cbn [index_of]. destruct (Nat.eqb_spec x w) as [E|Hne]; [now exists 0|].
  destruct H as [H|H]; [contradiction|].
  destruct (IH H) as [i ->]. now exists (S i).
Qed.

Lemma index_of_not_in (w : nat) (l : list nat) : ~ In w l -> index_of w l = None.
Proof.
  induction l as [|x r IH]; intro H; [reflexivity|].
  cbn [index_of]. destruct (Nat.eqb_spec x w) as [E|Hne].
  - exfalso. apply H. now left.
  - rewrite IH; [reflexivity|]. intro Hin. apply H. now right.
Qed.

Lemma wrap_next_prev (i n : Z) :
  (0 <= i < n)%Z -> (((i + 1) mod n - 1) mod n = i)%Z.
Proof.
  intro H. destruct (Z.eq_dec (i + 1) n) as [E|E].
  - rewrite E, Z.mod_same by lia.
    replace (0 - 1)%Z with (n - 1 + (-1) * n)%Z by lia.
    rewrite Z.mod_add by lia. rewrite Z.mod_small by lia. lia.
  - rewrite (Z.mod_small (i + 1)) by lia.
    replace (i + 1 - 1)%Z with i by lia. apply Z.mod_small. lia.
Qed.

Lemma wrap_prev_next (i n : Z) :
  (0 <= i < n)%Z -> (((i - 1) mod n + 1) mod n = i)%Z.
Proof.
  intro H. destruct (Z.eq_dec i 0) as [E|E].
  - subst i. replace (0 - 1)%Z with (n - 1 + (-1) * n)%Z by lia.
    rewrite Z.mod_add by lia. rewrite (Z.mod_small (n - 1)) by lia.
    replace (n - 1 + 1)%Z with n by lia. apply Z.mod_same. lia.
  - rewrite (Z.mod_small (i - 1)) by lia.
    replace (i - 1 + 1)%Z with i by lia. apply Z.mod_small. lia.
Qed.

(** The field at a wrapped index. *)
Lemma nth_wrapped (l : list nat) (z : Z) :
  l <> [] ->
  exists w,
    nth_error l (Z.to_nat (z mod Z.of_nat (List.length l))) = Some w /\ In w l.
Proof.
  intro Hl.
  assert (Hn : (0 < Z.of_nat (List.length l))%Z) by (destruct l; [contradiction | cbn; lia]).
  pose proof (Z.mod_pos_bound z _ Hn) as Hb.
  destruct (nth_error l (Z.to_nat (z mod Z.of_nat (List.length l)))) as [w|] eqn:E.
  - exists w. split; [reflexivity|]. eapply nth_error_In. exact E.
  - apply nth_error_None in E. lia.
Qed.

Lemma nth_last (l : list nat) :
  nth_error l (List.length l - 1) = hd_error (rev l).
Proof.
  destruct (rev l) as [|a t] eqn:E;
    apply (f_equal (@rev nat)) in E; rewrite rev_involutive in E; subst l;
    [reflexivity|].
  cbn [rev hd_error]. rewrite length_app. cbn [List.length].
  rewrite nth_error_app2 by lia.
  replace (List.length (rev t) + 1 - 1 - List.length (rev t)) with 0 by lia.
  reflexivity.
Qed.

End FocusFacts.

(** X17.  Next and Prev walk the registered fields in a ring and undo each
    other.  With fields registered once each, from a field of the list Next
    gives a field of the list from which Prev leads back, and conversely;
    with the focus elsewhere (or nowhere) Next gives the first field and
    Prev the last; with no field registered nothing is focused. *)
Theorem focus_ring (fields : list nat) :
  (forall focus, Keypad._focus_next [] focus = None /\ Keypad._focus_prev [] focus = None)
  /\ (fields <> [] ->
      forall focus,
        (exists w, Keypad._focus_next fields focus = Some w /\ In w fields)
        /\ (exists w, Keypad._focus_prev fields focus = Some w /\ In w fields))
  /\ (NoDup fields ->
      forall w, In w fields ->
        (exists w', Keypad._focus_next fields (Some w) = Some w'
                    /\ Keypad._focus_prev fields (Some w') = Some w)
        /\ (exists w', Keypad._focus_prev fields (Some w) = Some w'
                       /\ Keypad._focus_next fields (Some w') = Some w))
  /\ (forall w, ~ In w fields ->
        Keypad._focus_next fields (Some w) = hd_error fields
        /\ Keypad._focus_next fields None = hd_error fields
        /\ Keypad._focus_prev fields (Some w) = hd_error (rev fields)
        /\ Keypad._focus_prev fields None = hd_error (rev fields)).
Proof.
  split; [intro focus; split; reflexivity|]. split; [|split].
  - intros Hl focus. unfold Keypad._focus_next, Keypad._focus_prev.
    destruct fields as [|x r] eqn:E; [contradiction|]. rewrite <- E.
    assert (Hne : fields <> []) by (rewrite E; discriminate).
    split; apply nth_wrapped; exact Hne.
  - intros Hnd w Hw.
    destruct (index_of_in w fields Hw) as [i Hi].
    destruct (index_of_found w fields i Hi) as [Hnth Hlt].
    assert (Hne : fields <> []) by (intro E; rewrite E in Hw; contradiction).
    assert (Hb : (0 <= Z.of_nat i < Z.of_nat (List.length fields))%Z) by lia.
    unfold Keypad._focus_next, Keypad._focus_prev.
    destruct fields as [|x r] eqn:E; [contradiction|]. rewrite <- E in *.
    rewrite Hi. split.
    + destruct (nth_wrapped fields (Z.of_nat i + 1) Hne) as (w' & Hw' & _).
      exists w'. split; [exact Hw'|].
      rewrite (index_of_nth fields Hnd _ w' Hw').
      assert (Hm := Z.mod_pos_bound (Z.of_nat i + 1) (Z.of_nat (List.length fields))
                      ltac:(lia)).
      rewrite Z2Nat.id by lia. rewrite wrap_next_prev by exact Hb.
      now rewrite Nat2Z.id.
    + destruct (nth_wrapped fields (Z.of_nat i - 1) Hne) as (w' & Hw' & _).
      exists w'. split; [exact Hw'|].
      rewrite (index_of_nth fields Hnd _ w' Hw').
      assert (Hm := Z.mod_pos_bound (Z.of_nat i - 1) (Z.of_nat (List.length fields))
                      ltac:(lia)).
      rewrite Z2Nat.id by lia. rewrite wrap_prev_next by exact Hb.
      now rewrite Nat2Z.id.
  - intros w Hw. unfold Keypad._focus_next, Keypad._focus_prev.
    rewrite (index_of_not_in w fields Hw).
    destruct fields as [|x r] eqn:E; [repeat split; reflexivity|]. rewrite <- E.
    assert (Hn : (0 < Z.of_nat (List.length fields))%Z) by (rewrite E; cbn; lia).
    assert (H0 : Z.to_nat ((-1 + 1) mod Z.of_nat (List.length fields)) = 0).
    { rewrite Z.mod_0_l by lia. reflexivity. }
    assert (H1 : Z.to_nat ((0 - 1) mod Z.of_nat (List.length fields))
                 = List.length fields - 1).
    { replace (0 - 1)%Z
        with (Z.of_nat (List.length fields) - 1
              + (-1) * Z.of_nat (List.length fields))%Z by lia.
      rewrite Z.mod_add by lia. rewrite Z.mod_small by lia. lia. }
    rewrite H0, H1.
    rewrite (nth_last fields). assert (Hhd : nth_error fields 0 = hd_error fields)
      by (destruct fields; reflexivity).
    rewrite Hhd. repeat split; reflexivity.
Qed.

Lemma focus_ring_witness :
  Keypad._focus_next [10; 11; 12] (Some 12) = Some 10
  /\ Keypad._focus_prev [10; 11; 12] (Some 10) = Some 12
  /\ Keypad._focus_prev [10; 11; 12] (Some 99) = Some 12.
Proof.
  destruct (focus_ring [10; 11; 12]) as (_ & _ & _ & H).
  split; [reflexivity|]. split; [reflexivity|].
  refine (proj1 (proj2 (proj2 (H 99 _)))).
  intros [E|[E|[E|[]]]]; discriminate E.
Defined.

Section KeypadFacts.
Import PyStr Keypad.

Lemma substring_none (s : string) : substring 0 0 s = "".
Proof. destruct s; reflexivity. Qed.

Lemma substring_empty (s : string) : forall n, substring n 0 s = "".
Proof.
  induction s as [|c r IH]; intro n; destruct n; try reflexivity.
  cbn [substring]. apply IH.
Qed.

Lemma substring_prefix (p x : string) : substring 0 (String.length p) (p ++ x) = p.
Proof.
  induction p as [|c r IH]; [apply substring_none|].
  cbn [String.length append substring]. now rewrite IH.
Qed.

Lemma split_at (s : string) :
  forall i, i <= String.length s ->
    s = substring 0 i s ++ substring i (String.length s - i) s
    /\ String.length (substring 0 i s) = i.
Proof.
  induction s as [|c r IH]; intros i Hi.
  - cbn in Hi. replace i with 0 by lia. split; reflexivity.
  - destruct i as [|i].
    + cbn [substring String.length Nat.sub append].
      split; [now rewrite substring_all | reflexivity].
    + cbn [String.length] in Hi. destruct (IH i ltac:(lia)) as [H1 H2].
      cbn [substring String.length Nat.sub append].
      split; [now rewrite <- H1 | now rewrite H2].
Qed.

Lemma insert_split (i : nat) (t s : string) :
  i <= String.length s ->
  exists p q,
    s = p ++ q /\ String.length p = i /\ insert i t s = p ++ t ++ q.
Proof.
  intro Hi. destruct (split_at s i Hi) as [H1 H2].
  exists (substring 0 i s), (substring i (String.length s - i) s).
  split; [exact H1|]. split; [exact H2 | reflexivity].
Qed.

Lemma delete_one (p q : string) (c : ascii) :
  delete (String.length p) (S (String.length p)) (p ++ String c q) = p ++ q.
Proof.
  unfold delete.
  assert (Hlt : Nat.ltb (String.length p) (S (String.length p)) = true)
    by (apply Nat.ltb_lt; lia).
  rewrite Hlt, substring_prefix. f_equal.
  rewrite length_append. cbn [String.length].
  replace (String.length p + S (String.length q) - S (String.length p))
    with (String.length q) by lia.
  change (p ++ String c q) with (p ++ (String c "" ++ q)).
  rewrite <- append_assoc.
  replace (S (String.length p)) with (String.length (p ++ String c ""))
    by (rewrite length_append; cbn; lia).
  apply substring_skip.
Qed.

End KeypadFacts.



(** ** Where the GPS polling stops *)

Section GpsStops.
Import GpsQuery.
Variable double : Type.
Variable host : Host double.

Local Open Scope N_scope.

Lemma calls_from_cons (k n : nat) :
  calls_from host k (S n) = GetReport (poll_time host k) :: calls_from host (S k) n.
Proof. reflexivity. Qed.

(** The loop, entered before the [k]-th call, makes the calls [k] to
    [m - 1] and stops either on a report at call [m - 1] or on the loop test
    before call [m]. *)
Lemma poll_loop_stops (fuel : nat) :
  forall k rep0 t rep t',
    poll_loop host fuel k (poll_time host k) rep0 t = Some (rep, t') ->
    exists n,
      filter is_poll t' = (filter is_poll t ++ calls_from host k n)%list
      /\ (forall j, (k <= j < k + n)%nat -> poll_time host j < REPORT_WINDOW_MS)
      /\ (forall j, (k <= j)%nat -> (S j < k + n)%nat ->
            got_fix (get_report host j) = false)
      /\ ((1 <= n)%nat
          /\ got_fix (get_report host (k + n - 1)) = true
          /\ rep = out_report (get_report host (k + n - 1))
          \/ REPORT_WINDOW_MS <= poll_time host (k + n)
             /\ (forall j, (k <= j < k + n)%nat -> got_fix (get_report host j) = false)
             /\ rep = match n with
                      | O => rep0
                      | S _ => out_report (get_report host (k + n - 1))
                      end).
Proof.
  induction fuel as [|fuel IH]; intros k rep0 t rep t' H.
  - cbn [poll_loop] in H.
    destruct (N.ltb_spec (poll_time host k) REPORT_WINDOW_MS) as [Hw|Hw];
      [discriminate|].
    injection H as <- <-. exists 0%nat. rewrite app_nil_r, Nat.add_0_r.
    split; [reflexivity|]. split; [intros j Hj; lia|]. split; [intros j ? Hj; lia|].
    right. split; [exact Hw|]. split; [intros j Hj; lia | reflexivity].
  - rewrite poll_loop_step in H.
    destruct (N.ltb_spec (poll_time host k) REPORT_WINDOW_MS) as [Hw|Hw].
    2:{ injection H as <- <-. exists 0%nat. rewrite app_nil_r, Nat.add_0_r.
        split; [reflexivity|]. split; [intros j Hj; lia|].
        split; [intros j ? Hj; lia|].
        right. split; [exact Hw|]. split; [intros j Hj; lia | reflexivity]. }
    destruct (got_fix (get_report host k)) eqn:Hg.
    + injection H as <- <-. exists 1%nat.
      replace (k + 1 - 1)%nat with k by lia.
      split; [rewrite filter_app; reflexivity|].
      split; [intros j Hj; replace j with k by lia; exact Hw|].
      split; [intros j ? Hj; lia|].
      left. split; [lia|]. split; [exact Hg | reflexivity].
    + change (poll_time host k + elapsed (get_report host k) + SLEEP_MS)
        with (poll_time host (S k)) in H.
      destruct (IH _ _ _ _ _ H) as (n & Ht & Hin & Hfail & Hend).
      exists (S n).
      replace (k + S n)%nat with (S k + n)%nat by lia.
      split.
      { rewrite Ht, !filter_app, calls_from_cons. cbn [filter is_poll app].
        rewrite <- !app_assoc. reflexivity. }
      split.
      { intros j Hj. destruct (Nat.eq_dec j k) as [->|Hne]; [exact Hw|].
        apply Hin. lia. }
      split.
      { intros j Hj1 Hj2. destruct (Nat.eq_dec j k) as [->|Hne]; [exact Hg|].
        apply Hfail; lia. }
      destruct Hend as [(Hn & Hfix & Hrep)|(Hto & Hall & Hrep)].
      * left. split; [lia|]. split; [exact Hfix | exact Hrep].
      * right. split; [exact Hto|]. split.
        -- intros j Hj. destruct (Nat.eq_dec j k) as [->|Hne]; [exact Hg|].
           apply Hall. lia.
        -- rewrite Hrep. destruct n as [|n]; [|reflexivity].
           replace (S k + 0 - 1)%nat with k by lia. reflexivity.
Qed.

End GpsStops.

(** X19.  When the location provider is created, the query makes the calls
    0 to [n - 1] of the report accessor, all of them started inside the
    window and all but the last without a report, and stops in one of two
    ways.  Either the last call returns a report, and the coordinates of
    that report are the result; or the loop test that follows the last call
    finds fifteen seconds or more elapsed, and then the result is the
    fix-timeout error when the last call left a null pointer and the
    coordinates read through the pointer it left otherwise. *)
Theorem get_lat_lon_stops (double : Type) (host : GpsQuery.Host double)
    (fuel : nat) :
  15 <= fuel ->
  GpsQuery.create_hr host = 0%Z ->
  exists r t n,
    GpsQuery.get_lat_lon host fuel = Some (r, t)
    /\ filter GpsQuery.is_poll t = GpsQuery.calls_from host 0 n
    /\ 1 <= n
    /\ (forall j, j < n ->
          (GpsQuery.poll_time host j < GpsQuery.REPORT_WINDOW_MS)%N)
    /\ (forall j, S j < n -> GpsQuery.got_fix (GpsQuery.get_report host j) = false)
    /\ let last := GpsQuery.get_report host (n - 1) in
       let coordinates :=
         (GpsQuery.latitude host (GpsQuery.out_report last),
          GpsQuery.longitude host (GpsQuery.out_report last)) in
       (GpsQuery.got_fix last = true /\ r = inr coordinates)
       \/ (GpsQuery.got_fix last = false
           /\ (GpsQuery.REPORT_WINDOW_MS <= GpsQuery.poll_time host n)%N
           /\ r = if Z.eqb (GpsQuery.out_report last) 0
                  then inl (GpsQuery.RuntimeError "No GPS fix")
                  else inr coordinates).
Proof.
  intros Hfuel Hz. unfold GpsQuery.get_lat_lon. rewrite Hz. cbn [Z.eqb negb].
  set (t0 := [GpsQuery.PrintLine "Waiting for GPS fix..."]).
  assert (Hen : (GpsQuery.REPORT_WINDOW_MS
                 <= GpsQuery.poll_time host 0
                    + GpsQuery.SLEEP_MS * N.of_nat fuel)%N).
  { cbn [GpsQuery.poll_time]. unfold GpsQuery.REPORT_WINDOW_MS, GpsQuery.SLEEP_MS. lia. }
  change (GpsQuery.poll_loop host fuel 0 0 0 t0)
    with (GpsQuery.poll_loop host fuel 0 (GpsQuery.poll_time host 0) 0 t0).
  destruct (poll_loop_total double host fuel 0 0%Z t0 Hen) as (rep & t' & Hl).
  rewrite Hl.
  destruct (poll_loop_stops double host fuel 0 0%Z t0 rep t' Hl)
    as (n & Ht & Hin & Hfail & Hend).
  cbn [Nat.add] in *.
  assert (Hn : 1 <= n).
  { destruct Hend as [(Hn & _)|(Hto & _)]; [exact Hn|].
    destruct n as [|n]; [|lia]. cbn [GpsQuery.poll_time] in Hto.
    unfold GpsQuery.REPORT_WINDOW_MS in Hto. lia. }
  exists (if Z.eqb rep 0
          then inl (GpsQuery.RuntimeError "No GPS fix")
          else inr (GpsQuery.latitude host rep, GpsQuery.longitude host rep)), t', n.
  split; [destruct (Z.eqb rep 0); reflexivity|].
  split; [exact Ht|]. split; [exact Hn|].
  split; [intros j Hj; apply Hin; lia|].
  split; [intros j Hj; apply Hfail; lia|].
  cbn zeta. destruct Hend as [(_ & Hfix & Hrep)|(Hto & Hall & Hrep)].
  - left. split; [exact Hfix|]. subst rep.
    unfold GpsQuery.got_fix in Hfix. apply andb_true_iff in Hfix as [_ Hnz].
    apply negb_true_iff in Hnz. rewrite Hnz. reflexivity.
  - right. split; [apply Hall; lia|]. split; [exact Hto|].
    destruct n as [|n]; [lia|]. subst rep. reflexivity.
Qed.

Lemma get_lat_lon_stops_witness :
  exists r t n,
    GpsQuery.get_lat_lon GpsQuery.late_service 15 = Some (r, t)
    /\ filter GpsQuery.is_poll t = GpsQuery.calls_from GpsQuery.late_service 0 n
    /\ 1 <= n.
Proof.
  destruct (get_lat_lon_stops Z GpsQuery.late_service 15 (le_n 15) eq_refl)
    as (r & t & n & H1 & H2 & H3 & _).
  exists r, t, n. repeat split; assumption.
Defined.


